(** * spec-ops-action: change detection, diff extraction and template rendering

    A shallow embedding of [src/file-detector.ts], [src/diff-generator.ts]
    and [src/template-renderer.ts], and the properties of the pipeline
    proved over it.

    Conventions of the embedding:
    - a JavaScript string is a [string]; a character is one code unit in the
      range 0..255;
    - a JavaScript number that the code uses as a count or an index is a [Z];
    - an optional field ([previousPath?: string], an unset environment
      variable, a key absent from a [Partial<...>]) is an [option];
    - [async]/[await] code runs sequentially, so a [Promise<A>] is a
      computation [M A] that either yields a value or throws, and records
      the log lines, child processes and file reads it performed;
    - what the program reads from its surroundings (environment variables,
      the outcome of child processes, the file system, the clock) is a
      [World]; the two libraries the code calls (micromatch, Handlebars) are
      explicit parameters of the functions that call them. *)

From Stdlib Require Import List String Ascii ZArith Lia Bool Arith.
From Stdlib Require Import Numbers.DecimalString.
Import ListNotations.

Local Open Scope list_scope.
Local Open Scope Z_scope.
Local Open Scope string_scope.

(** ** JavaScript string and array primitives *)

Module Js.

Definition LF : ascii := ascii_of_nat 10.
Definition TAB : ascii := ascii_of_nat 9.
Definition SLASH : ascii := ascii_of_nat 47.

Definition nl : string := String LF EmptyString.
Definition tab : string := String TAB EmptyString.
Definition dquote : string := String (ascii_of_nat 34) EmptyString.

(** [`${n}`] for an integer [n]. *)
Definition dec (n : Z) : string := NilZero.string_of_int (Z.to_int n).

(** [s.length] *)
Definition len (s : string) : Z := Z.of_nat (String.length s).

(** [s.split(sep)] for a separator of one character: never the empty
    array, and [''.split(sep)] is [['']]. *)
Fixpoint split (sep : ascii) (s : string) : list string :=
  match s with
  | EmptyString => [EmptyString]
  | String c s' =>
      if Ascii.eqb c sep then EmptyString :: split sep s'
      else match split sep s' with
           | [] => [String c EmptyString]
           | h :: t => String c h :: t
           end
  end.

(** [parts.join(sep)] *)
Definition join (sep : string) (parts : list string) : string :=
  String.concat sep parts.

(** White space as [String.prototype.trim] sees it, among the code units
    below 256: TAB, LF, VT, FF, CR, SPACE and NBSP. *)
Definition is_ws (c : ascii) : bool :=
  let n := nat_of_ascii c in
  ((9 <=? n)%nat && (n <=? 13)%nat) || (n =? 32)%nat || (n =? 160)%nat.

Fixpoint trimStart (s : string) : string :=
  match s with
  | EmptyString => EmptyString
  | String c s' => if is_ws c then trimStart s' else s
  end.

Fixpoint trimEnd (s : string) : string :=
  match s with
  | EmptyString => EmptyString
  | String c s' =>
      match trimEnd s' with
      | EmptyString => if is_ws c then EmptyString else String c EmptyString
      | r => String c r
      end
  end.

(** [s.trim()] *)
Definition trim (s : string) : string := trimEnd (trimStart s).

(** [s.startsWith(p)] *)
Definition startsWith (s p : string) : bool := String.prefix p s.

Fixpoint rev_string (s : string) : string :=
  match s with
  | EmptyString => EmptyString
  | String c s' => rev_string s' ++ String c EmptyString
  end.

(** [s.endsWith(p)] *)
Definition endsWith (s p : string) : bool :=
  String.prefix (rev_string p) (rev_string s).

(** [s.includes(c)] for one character [c]. *)
Fixpoint includes (s : string) (c : ascii) : bool :=
  match s with
  | EmptyString => false
  | String d s' => Ascii.eqb d c || includes s' c
  end.

(** [s.substring(0, n)] for a literal [n >= 0]. *)
Fixpoint substring0 (n : nat) (s : string) : string :=
  match n, s with
  | O, _ => EmptyString
  | _, EmptyString => EmptyString
  | S n', String c s' => String c (substring0 n' s')
  end.

(** Truthiness of a string value: [undefined] and [''] are falsy. *)
Definition truthy (o : option string) : bool :=
  match o with
  | Some s => negb (String.eqb s EmptyString)
  | None => false
  end.

(** [a || b] where [a] may be undefined and [b] is a string. *)
Definition or_else (a : option string) (b : string) : string :=
  match a with
  | Some s => if String.eqb s EmptyString then b else s
  | None => b
  end.

(** [a || b] where both may be undefined. *)
Definition or_opt (a b : option string) : option string :=
  if truthy a then a else b.

(** [v === s] for a value that may be undefined. *)
Definition opt_is (o : option string) (s : string) : bool :=
  match o with
  | Some v => String.eqb v s
  | None => false
  end.

(** [`${v}`] for a value that may be undefined. *)
Definition interp (o : option string) : string :=
  match o with
  | Some s => s
  | None => "undefined"
  end.

(** [arr.slice(0, e)]: a negative [e] counts from the end of the array. *)
Definition slice0 {A : Type} (l : list A) (e : Z) : list A :=
  let n := Z.of_nat (List.length l) in
  let k := if (e <? 0)%Z then Z.max (n + e) 0 else Z.min e n in
  firstn (Z.to_nat k) l.

End Js.

(** ** Computations: values, exceptions and the trace of effects *)

Inductive Event : Type :=
| Debug (msg : string)          (* core.debug *)
| Warning (msg : string)        (* core.warning *)
| Exec (cmd : string)           (* a child process was started *)
| ReadFile (path : string).     (* fs.readFileSync *)

Inductive Outcome (A : Type) : Type :=
| Ok (a : A)
| Throw (err : string).

Arguments Ok {A} a.
Arguments Throw {A} err.

Definition M (A : Type) : Type := (Outcome A * list Event)%type.

Definition ret {A : Type} (a : A) : M A := (Ok a, []).

Definition bind {A B : Type} (m : M A) (k : A -> M B) : M B :=
  match m with
  | (Ok a, t) => let '(r, t') := k a in (r, (t ++ t')%list)
  | (Throw e, t) => (Throw e, t)
  end.

(** [try { m } catch (error) { h error }]; [error] is the text that
    [`${error}`] prints. *)
Definition try_catch {A : Type} (m : M A) (h : string -> M A) : M A :=
  match m with
  | (Ok a, t) => (Ok a, t)
  | (Throw e, t) => let '(r, t') := h e in (r, (t ++ t')%list)
  end.

Definition emit (ev : Event) : M unit := (Ok tt, [ev]).

Definition value {A : Type} (m : M A) : Outcome A := fst m.
Definition trace {A : Type} (m : M A) : list Event := snd m.

Notation "x <- m ;; k" := (bind m (fun x => k))
  (at level 61, m at next level, right associativity).
Notation "m ;;; k" := (bind m (fun _ => k))
  (at level 61, right associativity).

(** [for (const x of xs) { body }] where the body only has effects. *)
Fixpoint for_each {A : Type} (body : A -> M unit) (xs : list A) : M unit :=
  match xs with
  | [] => ret tt
  | x :: xs' => body x ;;; for_each body xs'
  end.

(** [xs.filter(p)] for a predicate that logs. *)
Fixpoint filterM {A : Type} (p : A -> M bool) (xs : list A) : M (list A) :=
  match xs with
  | [] => ret []
  | x :: xs' =>
      b <- p x ;;
      rest <- filterM p xs' ;;
      ret (if b then x :: rest else rest)
  end.

(** ** The surroundings of a run *)

Record World : Type := {
  (** [process.env.NAME] *)
  env : string -> option string;
  (** [await execAsync(cmd)]: the stdout of the command, or the error it
      is rejected with (a non-zero exit status, a missing binary, an output
      larger than the buffer). *)
  execAsync : string -> Outcome string;
  (** [process.cwd()], an absolute path. *)
  cwd : string;
  existsSync : string -> bool;
  (** [fs.readFileSync(p, 'utf-8')] *)
  readFileSync : string -> Outcome string;
  (** [new Date().toISOString()] at the time of the call. *)
  now_iso : string
}.

Definition exec (w : World) (cmd : string) : M string :=
  (execAsync w cmd, [Exec cmd]).

Definition read_file (w : World) (p : string) : M string :=
  (readFileSync w p, [ReadFile p]).

(** ** src/file-detector.ts *)

Module FileDetector.
Import Js.

Inductive ChangeType : Type := added | modified | deleted | renamed.

Definition ChangeType_eqb (a b : ChangeType) : bool :=
  match a, b with
  | added, added | modified, modified
  | deleted, deleted | renamed, renamed => true
  | _, _ => false
  end.

(** [`${f.changeType}`] *)
Definition ChangeType_text (c : ChangeType) : string :=
  match c with
  | added => "added"
  | modified => "modified"
  | deleted => "deleted"
  | renamed => "renamed"
  end.

Record ChangedFile : Type := {
  path : string;
  changeType : ChangeType;
  previousPath : option string
}.

Record FileDetectorOptions : Type := {
  patterns : list string;
  excludePatterns : list string;
  caseSensitive : bool;
  createOnNewFiles : bool;
  createOnDeletedFiles : bool
}.

(** The glob matcher of micromatch for one pattern that is not empty:
    [glob nocase pattern str] is [picomatch(pattern, { nocase })(str)]. *)
Definition Glob : Type := bool -> string -> string -> bool.

(** picomatch compiles every pattern of an array and refuses the empty
    string with a [TypeError]. *)
Definition compiles (pats : list string) : bool :=
  forallb (fun p => negb (String.eqb p EmptyString)) pats.

(** The answer of the matcher of an array of patterns: true as soon as
    the matcher of one pattern accepts [str]. *)
Definition some_match (glob : Glob) (str : string) (pats : list string)
    (nocase : bool) : bool :=
  existsb (fun p => glob nocase p str) pats.

(** [micromatch.isMatch(str, patterns, { nocase })], that is
    [picomatch(patterns, { nocase })(str)]: the patterns are compiled,
    all of them, before [str] is looked at. *)
Definition isMatch (glob : Glob) (str : string) (pats : list string)
    (nocase : bool) : M bool :=
  if compiles pats then ret (some_match glob str pats nocase)
  else (Throw "TypeError: Expected pattern to be a non-empty string", []).

(** [lines]: [output.trim().split('\n').filter(line => line.length > 0)] *)
Definition lines_of (output : string) : list string :=
  filter (fun line => (0 <? len line)%Z) (split LF (trim output)).

(** The body of the [for] loop of [parseGitDiffNameStatus]: [files] is the
    array being filled, the result is the array after this iteration. *)
Definition parse_line (files : list ChangedFile) (line : string)
    : list ChangedFile :=
  let parts := split TAB line in
  let status := hd EmptyString parts in
  match nth_error parts 1 with
  | None => files                                   (* !path: continue *)
  | Some path =>
      if String.eqb path EmptyString then files     (* !path: continue *)
      else if startsWith status "R" then
        match nth_error parts 2 with
        | None => files
        | Some newPath =>
            if String.eqb newPath EmptyString then files
            else (files ++ [ {| path := newPath; changeType := renamed;
                                previousPath := Some path |} ])%list
        end
      else
        let changeType :=
          if String.eqb status "A" then added
          else if String.eqb status "D" then deleted
          else if String.eqb status "M" || startsWith status "M" then modified
          else modified in
        (files ++ [ {| path := path; changeType := changeType;
                       previousPath := None |} ])%list
  end.

(** The [for] loop of [parseGitDiffNameStatus] over [lines], from the
    empty array. *)
Definition parse_lines (lines : list string) : list ChangedFile :=
  fold_left parse_line lines [].

Definition parseGitDiffNameStatus (output : string) : list ChangedFile :=
  parse_lines (lines_of output).

(** The [catch] branch of [getChangedFilesFromGit], after [git ls-files]
    has answered. *)
Definition all_files_added (stdout : string) : list ChangedFile :=
  map (fun p => {| path := p; changeType := added; previousPath := None |})
      (lines_of stdout).

(** The value of [diffCommand] in [getChangedFilesFromGit]. *)
Definition diffCommand (w : World) : string :=
  let eventName := env w "GITHUB_EVENT_NAME" in
  let baseSha :=
    if truthy (env w "GITHUB_BASE_REF")
    then "origin/" ++ interp (env w "GITHUB_BASE_REF")
    else "HEAD~1" in
  if opt_is eventName "pull_request"
  then "git diff --name-status " ++ baseSha ++ "...HEAD"
  else "git diff --name-status HEAD~1 HEAD".

(** The [try] of [getChangedFilesFromGit] that fetches the base ref of a
    pull request; a failure is logged and ignored. *)
Definition fetch_base_ref (w : World) : M unit :=
  try_catch
    (exec w ("git fetch origin " ++ interp (env w "GITHUB_BASE_REF")
             ++ " --depth=1") ;;; ret tt)
    (fun error =>
       emit (Debug ("Could not fetch base ref, continuing with existing refs: "
                    ++ error))).

Definition getChangedFilesFromGit (w : World) : M (list ChangedFile) :=
  let eventName := env w "GITHUB_EVENT_NAME" in
  (if opt_is eventName "pull_request" then fetch_base_ref w else ret tt) ;;;
  emit (Debug ("Running: " ++ diffCommand w)) ;;;
  try_catch
    (stdout <- exec w (diffCommand w) ;;
     ret (parseGitDiffNameStatus stdout))
    (fun error =>
       (* no parent commit (initial commit): all files *)
       emit (Debug ("Diff command failed, trying to list all files: "
                    ++ error)) ;;;
       stdout <- exec w "git ls-files" ;;
       ret (all_files_added stdout)).

Definition filterFilesByPatterns (glob : Glob) (files : list ChangedFile)
    (includePatterns excludePatterns : list string) (caseSensitive : bool)
    : M (list ChangedFile) :=
  let nocase := negb caseSensitive in
  filterM
    (fun file =>
       included <- isMatch glob (path file) includePatterns nocase ;;
       if negb included then ret false
       else if (0 <? List.length excludePatterns)%nat then
         excluded <- isMatch glob (path file) excludePatterns nocase ;;
         if excluded then
           emit (Debug ("File excluded by pattern: " ++ path file)) ;;;
           ret false
         else ret true
       else ret true)
    files.

(** The type gate of [detectChangedFiles], the callback of the second
    [filter]. *)
Definition type_gate (createOnNewFiles createOnDeletedFiles : bool)
    (file : ChangedFile) : M bool :=
  if ChangeType_eqb (changeType file) added && negb createOnNewFiles then
    emit (Debug ("Skipping new file (create-on-new-files=false): "
                 ++ path file)) ;;;
    ret false
  else if ChangeType_eqb (changeType file) deleted
          && negb createOnDeletedFiles then
    emit (Debug ("Skipping deleted file (create-on-deleted-files=false): "
                 ++ path file)) ;;;
    ret false
  else ret true.

Definition detectChangedFiles (glob : Glob) (w : World)
    (options : FileDetectorOptions) : M (list ChangedFile) :=
  changedFiles <- getChangedFilesFromGit w ;;
  emit (Debug ("Found " ++ dec (Z.of_nat (List.length changedFiles))
               ++ " changed files in git")) ;;;
  for_each
    (fun f => emit (Debug ("  " ++ ChangeType_text (changeType f) ++ ": "
                           ++ path f)))
    changedFiles ;;;
  matchedFiles <- filterFilesByPatterns glob changedFiles (patterns options)
                    (excludePatterns options) (caseSensitive options) ;;
  emit (Debug ("After pattern filtering: "
               ++ dec (Z.of_nat (List.length matchedFiles))
               ++ " files match")) ;;;
  filteredFiles <- filterM (type_gate (createOnNewFiles options)
                                      (createOnDeletedFiles options))
                           matchedFiles ;;
  ret filteredFiles.

(** [parsePatterns(singlePattern, multiPattern)] *)
Definition parsePatterns (singlePattern multiPattern : option string)
    : list string :=
  if truthy multiPattern then
    filter (fun line => (0 <? len line)%Z)
           (map trim (split LF (interp multiPattern)))
  else if truthy singlePattern then [interp singlePattern]
  else [].

End FileDetector.

(** ** src/diff-generator.ts *)

Module DiffGenerator.
Import Js.
Import FileDetector.

Record DiffOptions : Type := {
  contextLines : Z;
  maxLines : Z
}.

Record FileDiff : Type := {
  file : ChangedFile;
  diff : string;
  truncated : bool;
  lineCount : Z
}.

Definition getBaseSha (w : World) : string :=
  let eventName := env w "GITHUB_EVENT_NAME" in
  if opt_is eventName "pull_request" then
    let baseRef := env w "GITHUB_BASE_REF" in
    if truthy baseRef then "origin/" ++ interp baseRef else "HEAD~1"
  else "HEAD~1".

(** The note that closes a truncated diff. *)
Definition truncation_note (omitted : Z) : string :=
  "... (diff truncated, " ++ dec omitted ++ " more lines)".

Definition processDiffOutput (file : ChangedFile) (rawDiff : string)
    (maxLines : Z) : M FileDiff :=
  let lines := split LF rawDiff in
  let lineCount := Z.of_nat (List.length lines) in
  if (maxLines <? lineCount)%Z then
    let truncatedLines :=
      ((slice0 lines maxLines ++ [EmptyString])
         ++ [truncation_note (lineCount - maxLines)])%list in
    emit (Debug ("Diff for " ++ path file ++ " truncated from "
                 ++ dec lineCount ++ " to " ++ dec maxLines ++ " lines")) ;;;
    ret {| file := file; diff := join nl truncatedLines;
           truncated := true; lineCount := lineCount |}
  else
    ret {| file := file; diff := rawDiff;
           truncated := false; lineCount := lineCount |}.

(** The git command of [generateDiffForFile]. *)
Definition diff_command (w : World) (file : ChangedFile)
    (options : DiffOptions) : string :=
  let baseSha := getBaseSha w in
  let one_path :=
    "git diff -U" ++ dec (contextLines options) ++ " " ++ baseSha
      ++ " HEAD -- " ++ dquote ++ path file ++ dquote in
  match changeType file with
  | deleted => one_path
  | added => one_path
  | renamed =>
      if truthy (previousPath file) then
        "git diff -U" ++ dec (contextLines options) ++ " " ++ baseSha
          ++ " HEAD -- " ++ dquote ++ interp (previousPath file) ++ dquote
          ++ " " ++ dquote ++ path file ++ dquote
      else one_path
  | modified => one_path
  end.

(** The [FileDiff] of the [catch] branch of [generateDiffForFile]. *)
Definition placeholder (file : ChangedFile) : FileDiff :=
  {| file := file; diff := "Unable to generate diff for this file.";
     truncated := false; lineCount := 0 |}.

Definition generateDiffForFile (w : World) (file : ChangedFile)
    (options : DiffOptions) : M FileDiff :=
  try_catch
    (let diffCommand := diff_command w file options in
     emit (Debug ("Running: " ++ diffCommand)) ;;;
     stdout <- exec w diffCommand ;;
     processDiffOutput file stdout (maxLines options))
    (fun error =>
       emit (Warning ("Failed to generate diff for " ++ path file ++ ": "
                      ++ error)) ;;;
       ret (placeholder file)).

(** The loop of [generateDiffs]; [diffs] is the array being filled. *)
Fixpoint generateDiffs_loop (w : World) (options : DiffOptions)
    (files : list ChangedFile) (diffs : list FileDiff) : M (list FileDiff) :=
  match files with
  | [] => ret diffs
  | file :: rest =>
      d <- generateDiffForFile w file options ;;
      generateDiffs_loop w options rest (diffs ++ [d])%list
  end.

Definition generateDiffs (w : World) (files : list ChangedFile)
    (options : DiffOptions) : M (list FileDiff) :=
  generateDiffs_loop w options files [].

(** [formatDiffAsCodeBlock(diff)] *)
Definition formatDiffAsCodeBlock (diff : string) : string :=
  if String.eqb diff EmptyString || (len (trim diff) =? 0)%Z then
    "```" ++ nl ++ "No changes detected." ++ nl ++ "```"
  else "```diff" ++ nl ++ diff ++ nl ++ "```".

End DiffGenerator.

(** ** Node's [path] module, POSIX flavour *)

Module Path.
Import Js.

(** [path.basename(p)]: the last segment of [p] that is not empty. *)
Definition basename (p : string) : string :=
  last (filter (fun seg => (0 <? len seg)%Z) (split SLASH p)) EmptyString.

(** One segment of [normalizeString] when no segment may climb above the
    root: empty segments and [.] are skipped, [..] removes the segment
    before it, if there is one. *)
Definition normalize_step (acc : list string) (seg : string) : list string :=
  if String.eqb seg EmptyString || String.eqb seg "." then acc
  else if String.eqb seg ".." then removelast acc
  else (acc ++ [seg])%list.

Definition normalize_segments (segs : list string) : list string :=
  fold_left normalize_step segs [].

(** The segments of [path.resolve(from, to)] below the root, for an
    absolute [from]: an absolute [to] replaces [from], an empty [to] is
    skipped. *)
Definition resolve_segments (from to : string) : list string :=
  let resolvedPath :=
    if String.eqb to EmptyString then from ++ "/"
    else if startsWith to "/" then to ++ "/"
    else from ++ "/" ++ to ++ "/" in
  normalize_segments (split SLASH resolvedPath).

(** [path.resolve(from, to)] for an absolute [from]. *)
Definition resolve (from to : string) : string :=
  "/" ++ join "/" (resolve_segments from to).

(** Whether the absolute path [p] is the directory [root] or lies below
    it: the segments of [root] open the segments of [p]. *)
Fixpoint segments_below (root p : list string) : bool :=
  match root, p with
  | [], _ => true
  | _ :: _, [] => false
  | r :: root', s :: p' => String.eqb r s && segments_below root' p'
  end.

Definition inside (root p : string) : bool :=
  segments_below (normalize_segments (split SLASH root))
                 (normalize_segments (split SLASH p)).

End Path.

(** ** src/template-renderer.ts *)

Module TemplateRenderer.
Import Js.
Import FileDetector.

Record TemplateContext : Type := {
  filename : string;
  file_path : string;
  file_link : string;
  diff : string;
  diff_raw : string;
  commit_sha : string;
  commit_sha_short : string;
  commit_link : string;
  commit_message : string;
  commit_date : string;
  author : string;
  pull_request : bool;
  pr_number : string;
  pr_link : string;
  pr_title : string;
  branch : string;
  change_type : string;
  previous_path : string
}.

(** [Partial<TemplateContext>]: every key may be absent. *)
Module Partial.
Record t : Type := {
  filename : option string;
  file_path : option string;
  file_link : option string;
  diff : option string;
  diff_raw : option string;
  commit_sha : option string;
  commit_sha_short : option string;
  commit_link : option string;
  commit_message : option string;
  commit_date : option string;
  author : option string;
  pull_request : option bool;
  pr_number : option string;
  pr_link : option string;
  pr_title : option string;
  branch : option string;
  change_type : option string;
  previous_path : option string
}.

(** [{}] *)
Definition empty : t :=
  {| filename := None; file_path := None; file_link := None; diff := None;
     diff_raw := None; commit_sha := None; commit_sha_short := None;
     commit_link := None; commit_message := None; commit_date := None;
     author := None; pull_request := None; pr_number := None;
     pr_link := None; pr_title := None; branch := None;
     change_type := None; previous_path := None |}.
End Partial.

Record RenderOptions : Type := {
  titleTemplate : string;
  bodyTemplate : string;
  includeDiff : bool;
  includeFileLink : bool;
  includeCommitLink : bool;
  includePrLink : bool;
  sanitizeDiff : bool
}.

Record RenderedIssue : Type := {
  title : string;
  body : string
}.

(** [Handlebars.compile(template)(context)]: the rendered text, or the
    error Handlebars throws for a template it cannot parse. *)
Definition Handlebars : Type := string -> TemplateContext -> Outcome string.

Definition DEFAULT_TEMPLATE : string :=
"## Specification Changed

A specification file has been modified and may require implementation changes.

**File:** {{ file_path }}
**Changed in:** {{ commit_sha_short }} ({{ commit_link }})
{{#if pull_request}}
**Pull Request:** {{ pr_link }}
{{/if}}
**Author:** @{{ author }}
**Date:** {{ commit_date }}

## Changes

{{{ diff }}}

## Checklist

- [ ] Reviewed specification change
- [ ] Determined if code changes are required
- [ ] Implementation complete (or confirmed no changes needed)

---
*This issue was automatically created by [spec-ops-action](https://github.com/spec-ops-method/spec-ops-action)*".

Definition getRepoUrl (w : World) : string :=
  let serverUrl := or_else (env w "GITHUB_SERVER_URL") "https://github.com" in
  let repository := or_else (env w "GITHUB_REPOSITORY") "" in
  serverUrl ++ "/" ++ repository.

Definition buildTemplateContext (w : World) (fileDiff : DiffGenerator.FileDiff)
    (baseContext : Partial.t) (options : RenderOptions) : TemplateContext :=
  let file := DiffGenerator.file fileDiff in
  let filename := Path.basename (path file) in
  let formattedDiff :=
    if includeDiff options
    then DiffGenerator.formatDiffAsCodeBlock (DiffGenerator.diff fileDiff)
    else "" in
  let diff := if sanitizeDiff options then formattedDiff else formattedDiff in
  let diff_raw :=
    if includeDiff options then DiffGenerator.diff fileDiff else "" in
  let repoUrl := getRepoUrl w in
  let commitSha :=
    or_else (or_opt (Partial.commit_sha baseContext) (env w "GITHUB_SHA")) "" in
  let file_link :=
    if includeFileLink options
    then repoUrl ++ "/blob/" ++ commitSha ++ "/" ++ path file
    else "" in
  let commit_link :=
    if includeCommitLink options
    then repoUrl ++ "/commit/" ++ commitSha
    else "" in
  let prNumber := or_else (Partial.pr_number baseContext) "" in
  let pr_link :=
    if includePrLink options && negb (String.eqb prNumber "")
    then repoUrl ++ "/pull/" ++ prNumber
    else "" in
  {| filename := filename;
     file_path := path file;
     file_link := file_link;
     diff := diff;
     diff_raw := diff_raw;
     commit_sha := commitSha;
     commit_sha_short := substring0 7 commitSha;
     commit_link := commit_link;
     commit_message := or_else (Partial.commit_message baseContext) "";
     commit_date := or_else (Partial.commit_date baseContext) (now_iso w);
     author := or_else (Partial.author baseContext) "";
     pull_request := negb (String.eqb prNumber "");
     pr_number := prNumber;
     pr_link := pr_link;
     pr_title := or_else (Partial.pr_title baseContext) "";
     branch :=
       or_else (or_opt (Partial.branch baseContext) (env w "GITHUB_REF_NAME")) "";
     change_type := ChangeType_text (changeType file);
     previous_path := or_else (previousPath file) "" |}.

Definition resolveBodyTemplate (w : World) (templateInput : string)
    : M string :=
  if String.eqb templateInput "" || String.eqb (trim templateInput) "" then
    ret DEFAULT_TEMPLATE
  else if endsWith templateInput ".md" || includes templateInput SLASH then
    try_catch
      (let templatePath := Path.resolve (cwd w) templateInput in
       let repoRoot := cwd w in
       if negb (startsWith templatePath repoRoot) then
         emit (Warning ("Template path resolves outside repo root: "
                        ++ templatePath ++ ". Using default template.")) ;;;
         ret DEFAULT_TEMPLATE
       else if existsSync w templatePath then
         emit (Debug ("Loading template from file: " ++ templatePath)) ;;;
         read_file w templatePath
       else
         emit (Warning ("Template file not found: " ++ templatePath
                        ++ ", using default template")) ;;;
         ret DEFAULT_TEMPLATE)
      (fun error =>
         emit (Warning ("Error reading template file: " ++ error
                        ++ ", using default template")) ;;;
         ret DEFAULT_TEMPLATE)
  else ret templateInput.

Definition renderIssue (hb : Handlebars) (w : World)
    (fileDiff : DiffGenerator.FileDiff) (options : RenderOptions)
    (context : Partial.t) : M RenderedIssue :=
  let fullContext := buildTemplateContext w fileDiff context options in
  title <- (hb (titleTemplate options) fullContext, []) ;;
  bodyTemplateContent <- resolveBodyTemplate w (bodyTemplate options) ;;
  body <- (hb bodyTemplateContent fullContext, []) ;;
  ret {| title := title; body := body |}.

Definition getDefaultTemplate : string := DEFAULT_TEMPLATE.

End TemplateRenderer.

(** ** A fragment of Handlebars

    Handlebars itself is a parameter of [renderIssue].  To run the renderer
    on concrete templates, this is Handlebars on the templates made of
    literal text and of mustaches [{{ name }}] whose [name] is a key of the
    template context: such a mustache is replaced by the value of the key,
    HTML-escaped.  Any other template is outside the fragment and is
    answered with [Throw]. *)

Module HandlebarsFragment.
Import Js.
Import TemplateRenderer.

Definition bool_text (b : bool) : string := if b then "true" else "false".

Definition lookup (ctx : TemplateContext) (name : string) : option string :=
  if String.eqb name "filename" then Some (filename ctx)
  else if String.eqb name "file_path" then Some (file_path ctx)
  else if String.eqb name "file_link" then Some (file_link ctx)
  else if String.eqb name "diff" then Some (diff ctx)
  else if String.eqb name "diff_raw" then Some (diff_raw ctx)
  else if String.eqb name "commit_sha" then Some (commit_sha ctx)
  else if String.eqb name "commit_sha_short" then Some (commit_sha_short ctx)
  else if String.eqb name "commit_link" then Some (commit_link ctx)
  else if String.eqb name "commit_message" then Some (commit_message ctx)
  else if String.eqb name "commit_date" then Some (commit_date ctx)
  else if String.eqb name "author" then Some (author ctx)
  else if String.eqb name "pull_request" then Some (bool_text (pull_request ctx))
  else if String.eqb name "pr_number" then Some (pr_number ctx)
  else if String.eqb name "pr_link" then Some (pr_link ctx)
  else if String.eqb name "pr_title" then Some (pr_title ctx)
  else if String.eqb name "branch" then Some (branch ctx)
  else if String.eqb name "change_type" then Some (change_type ctx)
  else if String.eqb name "previous_path" then Some (previous_path ctx)
  else None.

(** [Handlebars.Utils.escapeExpression] on one character. *)
Definition escape_char (c : ascii) : string :=
  let n := nat_of_ascii c in
  if (n =? 38)%nat then "&amp;"
  else if (n =? 60)%nat then "&lt;"
  else if (n =? 62)%nat then "&gt;"
  else if (n =? 34)%nat then "&quot;"
  else if (n =? 39)%nat then "&#x27;"
  else if (n =? 96)%nat then "&#x60;"
  else if (n =? 61)%nat then "&#x3D;"
  else String c EmptyString.

Fixpoint escape (s : string) : string :=
  match s with
  | EmptyString => EmptyString
  | String c s' => escape_char c ++ escape s'
  end.

Definition OPEN : ascii := ascii_of_nat 123.
Definition CLOSE : ascii := ascii_of_nat 125.

(** [inside] is [None] in literal text and [Some acc] after an opening
    [{{], with [acc] the characters read since. *)
Fixpoint render_from (ctx : TemplateContext) (inside : option string)
    (s : string) : Outcome string :=
  match inside, s with
  | None, EmptyString => Ok EmptyString
  | None, String c EmptyString => Ok (String c EmptyString)
  | None, String c (String d rest as s') =>
      if Ascii.eqb c OPEN && Ascii.eqb d OPEN then
        render_from ctx (Some EmptyString) rest
      else
        match render_from ctx None s' with
        | Ok r => Ok (String c r)
        | Throw e => Throw e
        end
  | Some _, EmptyString => Throw "Parse error: mustache left open"
  | Some _, String c EmptyString => Throw "Parse error: mustache left open"
  | Some acc, String c (String d rest as s') =>
      if Ascii.eqb c CLOSE && Ascii.eqb d CLOSE then
        match lookup ctx (trim acc) with
        | Some v =>
            match render_from ctx None rest with
            | Ok r => Ok (escape v ++ r)
            | Throw e => Throw e
            end
        | None => Throw "template outside the modelled fragment"
        end
      else render_from ctx (Some (acc ++ String c EmptyString)) s'
  end.

Definition render : Handlebars :=
  fun template ctx => render_from ctx None template.

End HandlebarsFragment.

(** * Sample data and the notions the properties are stated with *)

Import Js FileDetector DiffGenerator.

Definition sample_file : ChangedFile :=
  {| path := "docs/x-specification.md"; changeType := modified;
     previousPath := None |}.

(** What [generateDiffs] pairs a file with: the diff that
    [generateDiffForFile] returns for it. *)
Definition diff_of (w : World) (o : DiffOptions) (f : ChangedFile)
    (d : FileDiff) : Prop :=
  value (generateDiffForFile w f o) = Ok d.

(** A world without git: every child process fails. *)
Definition world_no_git : World :=
  {| env := fun _ => None;
     execAsync := fun _ => Throw "Error: Command failed";
     cwd := "/work/repo";
     existsSync := fun _ => false;
     readFileSync := fun _ => Throw "Error: ENOENT";
     now_iso := "2025-12-01T00:00:00.000Z" |}.

Definition default_diff_options : DiffOptions :=
  {| contextLines := 3; maxLines := 500 |}.

Definition sample_listing : string :=
  "M" ++ tab ++ "a.md" ++ nl
  ++ "R100" ++ tab ++ "old/spec.md" ++ tab ++ "new/spec.md" ++ nl
  ++ "A" ++ tab ++ "b.md" ++ nl.

(** [previousPath] is set exactly on renamed files. *)
Definition previousPath_iff_renamed (f : ChangedFile) : Prop :=
  previousPath f <> None <-> changeType f = renamed.

(** The test that the two filters of [detectChangedFiles] apply to a file. *)
Definition survives (glob : Glob) (options : FileDetectorOptions)
    (f : ChangedFile) : bool :=
  some_match glob (path f) (patterns options) (negb (caseSensitive options))
  && negb (some_match glob (path f) (excludePatterns options)
             (negb (caseSensitive options)))
  && negb (ChangeType_eqb (changeType f) added
           && negb (createOnNewFiles options))
  && negb (ChangeType_eqb (changeType f) deleted
           && negb (createOnDeletedFiles options)).

(** What [git ls-files] prints for the tracked files [names]: one name per
    line. *)
Definition listing (names : list string) : string :=
  String.concat "" (map (fun name => name ++ nl) names).

Definition first_char_ws (s : string) : bool :=
  match s with
  | EmptyString => false
  | String c _ => is_ws c
  end.

Fixpoint last_char_ws (s : string) : bool :=
  match s with
  | EmptyString => false
  | String c EmptyString => is_ws c
  | String _ s' => last_char_ws s'
  end.

(** A world at its first commit: the comparison with the parent fails,
    the listing of the tracked files answers. *)
Definition world_initial_commit : World :=
  {| env := fun _ => None;
     execAsync := fun cmd =>
       if String.eqb cmd "git ls-files"
       then Ok ("README.md" ++ nl ++ "docs/api-specification.md" ++ nl)
       else Throw "Error: Command failed: unknown revision HEAD~1";
     cwd := "/work/repo";
     existsSync := fun _ => false;
     readFileSync := fun _ => Throw "Error: ENOENT";
     now_iso := "2025-12-01T00:00:00.000Z" |}.

(** A matcher for the examples: a pattern matches the paths it opens. *)
Definition glob_prefix : Glob :=
  fun nocase pattern str => String.prefix pattern str.

Definition sample_options : FileDetectorOptions :=
  {| patterns := ["docs/"]; excludePatterns := ["docs/drafts/"];
     caseSensitive := true; createOnNewFiles := false;
     createOnDeletedFiles := true |}.

Section TemplateSamples.
Import TemplateRenderer.

(** The environment of the renderer's test suite, with or without the
    commit SHA. *)
Definition world_test_repo (sha : option string) : World :=
  {| env := fun name =>
       if String.eqb name "GITHUB_SERVER_URL" then Some "https://github.com"
       else if String.eqb name "GITHUB_REPOSITORY"
            then Some "test-org/test-repo"
       else if String.eqb name "GITHUB_SHA" then sha
       else None;
     execAsync := fun _ => Throw "Error: Command failed";
     cwd := "/work/repo";
     existsSync := fun _ => false;
     readFileSync := fun _ => Throw "Error: ENOENT";
     now_iso := "2025-12-01T00:00:00.000Z" |}.

Definition sample_diff : FileDiff :=
  {| file := sample_file; DiffGenerator.diff := "+added line";
     truncated := false; lineCount := 1 |}.

Definition sample_render_options (titleT bodyT : string) : RenderOptions :=
  {| titleTemplate := titleT; bodyTemplate := bodyT;
     includeDiff := true; includeFileLink := true;
     includeCommitLink := true; includePrLink := true;
     sanitizeDiff := true |}.

(** [{ pr_number: '42' }] *)
Definition context_pr_42 : Partial.t :=
  {| Partial.filename := None; Partial.file_path := None;
     Partial.file_link := None; Partial.diff := None;
     Partial.diff_raw := None; Partial.commit_sha := None;
     Partial.commit_sha_short := None; Partial.commit_link := None;
     Partial.commit_message := None; Partial.commit_date := None;
     Partial.author := None; Partial.pull_request := None;
     Partial.pr_number := Some "42"; Partial.pr_link := None;
     Partial.pr_title := None; Partial.branch := None;
     Partial.change_type := None; Partial.previous_path := None |}.

(** The world [w] when the clock reads [t]. *)
Definition at_time (w : World) (t : string) : World :=
  {| env := env w; execAsync := execAsync w; cwd := cwd w;
     existsSync := existsSync w; readFileSync := readFileSync w;
     now_iso := t |}.

(** [{ commit_date: '2025-12-01' }] *)
Definition context_dated : Partial.t :=
  {| Partial.filename := None; Partial.file_path := None;
     Partial.file_link := None; Partial.diff := None;
     Partial.diff_raw := None; Partial.commit_sha := None;
     Partial.commit_sha_short := None; Partial.commit_link := None;
     Partial.commit_message := None;
     Partial.commit_date := Some "2025-12-01";
     Partial.author := None; Partial.pull_request := None;
     Partial.pr_number := None; Partial.pr_link := None;
     Partial.pr_title := None; Partial.branch := None;
     Partial.change_type := None; Partial.previous_path := None |}.

(** The inputs that [resolveBodyTemplate] takes for a file path. *)
Definition looks_like_path (templateInput : string) : bool :=
  negb (String.eqb templateInput "" || String.eqb (trim templateInput) "")
  && (endsWith templateInput ".md" || includes templateInput SLASH).

(** A checkout at [/work/repo] with a directory [/work/repo-private]
    next to it. *)
Definition world_sibling_directory : World :=
  {| env := fun _ => None;
     execAsync := fun _ => Throw "Error: Command failed";
     cwd := "/work/repo";
     existsSync := fun p => String.eqb p "/work/repo-private/issue.md";
     readFileSync := fun p =>
       if String.eqb p "/work/repo-private/issue.md"
       then Ok "PRIVATE: {{ commit_message }}"
       else Throw "Error: ENOENT";
     now_iso := "2025-12-01T00:00:00.000Z" |}.

(** The file diff and the context of the renderer's test suite, with the
    pull request of its PR test. *)
Definition test_file_diff : FileDiff :=
  {| file := {| path := "docs/api-specification.md"; changeType := modified;
                previousPath := None |};
     DiffGenerator.diff := "+added line" ++ nl ++ "-removed line";
     truncated := false; lineCount := 2 |}.

Definition test_context : Partial.t :=
  {| Partial.filename := None; Partial.file_path := None;
     Partial.file_link := None; Partial.diff := None;
     Partial.diff_raw := None;
     Partial.commit_sha := Some "abc1234567890";
     Partial.commit_sha_short := Some "abc1234";
     Partial.commit_link := None;
     Partial.commit_message := Some "Update API spec";
     Partial.commit_date := Some "2025-12-01";
     Partial.author := Some "testuser"; Partial.pull_request := None;
     Partial.pr_number := Some "42"; Partial.pr_link := None;
     Partial.pr_title := Some "Update specifications";
     Partial.branch := Some "main";
     Partial.change_type := None; Partial.previous_path := None |}.

End TemplateSamples.

(** * Further sample data and notions *)

Definition copy_listing : string :=
  "D" ++ tab ++ "old.md" ++ nl
  ++ "C75" ++ tab ++ "docs/source.md" ++ tab ++ "docs/copy.md" ++ nl.

(** A field of the listing: not empty, without TAB and without line
    feed. *)
Definition field_ok (s : string) : Prop :=
  s <> "" /\ includes s TAB = false /\ includes s LF = false.

(** The commands of the child processes that a trace records, in the
    order they were started. *)
Fixpoint commands_run (t : list Event) : list string :=
  match t with
  | [] => []
  | Exec cmd :: t' => cmd :: commands_run t'
  | _ :: t' => commands_run t'
  end.

(** The warnings that a trace records, in order. *)
Fixpoint warnings (t : list Event) : list string :=
  match t with
  | [] => []
  | Warning msg :: t' => msg :: warnings t'
  | _ :: t' => warnings t'
  end.

(** The files that a trace records as read, in order. *)
Fixpoint files_read (t : list Event) : list string :=
  match t with
  | [] => []
  | ReadFile p :: t' => p :: files_read t'
  | _ :: t' => files_read t'
  end.

(** A push of one modified file. *)
Definition world_one_change : World :=
  {| env := fun _ => None;
     execAsync := fun cmd =>
       if String.eqb cmd "git diff --name-status HEAD~1 HEAD"
       then Ok ("M" ++ tab ++ "docs/x-specification.md" ++ nl)
       else Throw "Error: Command failed";
     cwd := "/work/repo";
     existsSync := fun _ => false;
     readFileSync := fun _ => Throw "Error: ENOENT";
     now_iso := "2025-12-01T00:00:00.000Z" |}.

(** [{ ...options, sanitizeDiff: b }] *)
Definition with_sanitizeDiff (options : TemplateRenderer.RenderOptions)
    (b : bool) : TemplateRenderer.RenderOptions :=
  {| TemplateRenderer.titleTemplate := TemplateRenderer.titleTemplate options;
     TemplateRenderer.bodyTemplate := TemplateRenderer.bodyTemplate options;
     TemplateRenderer.includeDiff := TemplateRenderer.includeDiff options;
     TemplateRenderer.includeFileLink :=
       TemplateRenderer.includeFileLink options;
     TemplateRenderer.includeCommitLink :=
       TemplateRenderer.includeCommitLink options;
     TemplateRenderer.includePrLink := TemplateRenderer.includePrLink options;
     TemplateRenderer.sanitizeDiff := b |}.

(** A checkout whose template file exists and cannot be read. *)
Definition world_unreadable_template : World :=
  {| env := fun _ => None;
     execAsync := fun _ => Throw "Error: Command failed";
     cwd := "/work/repo";
     existsSync := fun p => String.eqb p "/work/repo/templates";
     readFileSync := fun _ =>
       Throw "Error: EISDIR: illegal operation on a directory, read";
     now_iso := "2025-12-01T00:00:00.000Z" |}.

(** A push that renames one file. *)
Definition world_rename : World :=
  {| env := fun _ => None;
     execAsync := fun cmd =>
       if String.eqb cmd "git diff --name-status HEAD~1 HEAD"
       then Ok sample_listing
       else Throw "Error: Command failed";
     cwd := "/work/repo";
     existsSync := fun _ => false;
     readFileSync := fun _ => Throw "Error: ENOENT";
     now_iso := "2025-12-01T00:00:00.000Z" |}.

(** * The issue creator (the source file kept as src/unnamed/part_000)

    The GitHub client is a parameter.  An error raised by it is an [Error]
    object, of which the code reads [error.message] in one place and
    [`${error}`] in another; the computations of this part therefore carry
    the error itself.  Their traces record the calls of the REST API and the
    warnings; the [core.info] and [core.debug] lines are not recorded.  The
    warning of [createIssues], whose text starts with a pictograph outside
    the characters of the embedding, is recorded by the two values that
    fill it. *)

Module IssueCreator.
Import Js.

Record JsError : Type := {
  name : string;
  message : string
}.

(** [`${error}`], that is [Error.prototype.toString]. *)
Definition error_text (e : JsError) : string :=
  if String.eqb (name e) "" then message e
  else if String.eqb (message e) "" then name e
  else name e ++ ": " ++ message e.

Inductive Result (A : Type) : Type :=
| Done (a : A)
| Raise (e : JsError).

Arguments Done {A} a.
Arguments Raise {A} e.

Module CreateParams.
(** The argument of [octokit.rest.issues.create]; [assignees] and
    [milestone] are keys that may be absent. *)
Record t : Type := {
  owner : string;
  repo : string;
  title : string;
  body : string;
  labels : list string;
  assignees : option (list string);
  milestone : option Z
}.
End CreateParams.

Module IssueData.
(** The fields of [response.data] that the code reads. *)
Record t : Type := {
  number : Z;
  html_url : string;
  title : string
}.
End IssueData.

Module Milestone.
(** The fields of an open milestone that the code reads. *)
Record t : Type := {
  number : Z;
  title : string
}.
End Milestone.

Inductive ApiEvent : Type :=
| IssuesCreate (params : CreateParams.t)     (* octokit.rest.issues.create *)
| ListMilestones (owner repo : string)       (* ...listMilestones, state open *)
| WarnCreateFailed (filePath errorMessage : string)
| Warn (msg : string).                        (* core.warning *)

Definition Run (A : Type) : Type := (Result A * list ApiEvent)%type.

Definition done {A : Type} (a : A) : Run A := (Done a, []).

Definition and_then {A B : Type} (m : Run A) (k : A -> Run B) : Run B :=
  match m with
  | (Done a, t) => let '(r, t') := k a in (r, (t ++ t')%list)
  | (Raise e, t) => (Raise e, t)
  end.

(** [try { m } catch (error) { h error }] *)
Definition catching {A : Type} (m : Run A) (h : JsError -> Run A) : Run A :=
  match m with
  | (Done a, t) => (Done a, t)
  | (Raise e, t) => let '(r, t') := h e in (r, (t ++ t')%list)
  end.

Definition record (ev : ApiEvent) : Run unit := (Done tt, [ev]).

Definition outcome {A : Type} (m : Run A) : Result A := fst m.
Definition events {A : Type} (m : Run A) : list ApiEvent := snd m.

Notation "x <~ m ;; k" := (and_then m (fun x => k))
  (at level 61, m at next level, right associativity).
Notation "m ~~> k" := (and_then m (fun _ => k))
  (at level 61, right associativity).

(** An authenticated client.  [issues_create k params] is the outcome of
    the call [octokit.rest.issues.create(params)] when [k] issues were
    requested before it in this run. *)
Record Octokit : Type := {
  issues_create : nat -> CreateParams.t -> Result IssueData.t;
  issues_listMilestones : string -> string -> Result (list Milestone.t)
}.

(** [@actions/github]: [getOctokit(token)] and the getter
    [context.repo], both of which may throw. *)
Record GitHub : Type := {
  getOctokit : string -> Result Octokit;
  context_repo : Result (string * string)
}.

Record IssueOptions : Type := {
  labels : list string;
  assignees : list string;
  milestone : option Z
}.

Record CreatedIssue : Type := {
  number : Z;
  url : string;
  title : string
}.

Record IssueCreationResult : Type := {
  success : bool;
  issue : option CreatedIssue;
  error : option string;
  filePath : string
}.

(** An element of the array that [createIssues] receives. *)
Module Item.
Record t : Type := {
  rendered : TemplateRenderer.RenderedIssue;
  filePath : string
}.
End Item.

(** The result that the dry run pushes for an item. *)
Definition dry_result (item : Item.t) : IssueCreationResult :=
  {| success := true;
     filePath := Item.filePath item;
     issue := Some {| number := 0; url := "(dry run)";
                      title := TemplateRenderer.title (Item.rendered item) |};
     error := None |}.

(** [createParams], with its two optional keys. *)
Definition create_params (owner repo : string) (options : IssueOptions)
    (item : Item.t) : CreateParams.t :=
  {| CreateParams.owner := owner;
     CreateParams.repo := repo;
     CreateParams.title := TemplateRenderer.title (Item.rendered item);
     CreateParams.body := TemplateRenderer.body (Item.rendered item);
     CreateParams.labels := labels options;
     CreateParams.assignees :=
       if (0 <? List.length (assignees options))%nat
       then Some (assignees options) else None;
     CreateParams.milestone :=
       match milestone options with
       | Some n => if (n =? 0)%Z then None else Some n
       | None => None
       end |}.

(** One iteration of the second loop of [createIssues]; [results] is the
    array being filled, which holds one result per issue requested so
    far. *)
Definition create_one (octokit : Octokit) (owner repo : string)
    (options : IssueOptions) (results : list IssueCreationResult)
    (item : Item.t) : Run (list IssueCreationResult) :=
  catching
    (let createParams := create_params owner repo options item in
     response <~ (issues_create octokit (List.length results) createParams,
                  [IssuesCreate createParams]) ;;
     let createdIssue :=
       {| number := IssueData.number response;
          url := IssueData.html_url response;
          title := IssueData.title response |} in
     done (results ++ [ {| success := true; issue := Some createdIssue;
                           error := None;
                           filePath := Item.filePath item |} ])%list)
    (fun error =>
       let errorMessage := message error in
       record (WarnCreateFailed (Item.filePath item) errorMessage) ~~>
       done (results ++ [ {| success := false; issue := None;
                             error := Some errorMessage;
                             filePath := Item.filePath item |} ])%list).

Fixpoint create_loop (octokit : Octokit) (owner repo : string)
    (options : IssueOptions) (issues : list Item.t)
    (results : list IssueCreationResult) : Run (list IssueCreationResult) :=
  match issues with
  | [] => done results
  | item :: rest =>
      results' <~ create_one octokit owner repo options results item ;;
      create_loop octokit owner repo options rest results'
  end.

Definition createIssues (gh : GitHub) (token : string)
    (issues : list Item.t) (options : IssueOptions) (dryRun : bool)
    : Run (list IssueCreationResult) :=
  if dryRun then
    done (fold_left (fun results item => (results ++ [dry_result item])%list)
                    issues [])
  else
    octokit <~ (getOctokit gh token, []) ;;
    repo <~ (context_repo gh, []) ;;
    create_loop octokit (fst repo) (snd repo) options issues [].

(** [parseInt(s, 10)], [None] for [NaN]: leading white space is skipped,
    then an optional sign, then the longest run of decimal digits is read.
    The result is the integer that the digits read.  JavaScript holds the
    double nearest to it, which is that integer itself when it is below
    2^53 in absolute value; above, the two differ, and what is stated of
    the number read is stated below 2^53 only. *)
Definition is_digit (c : ascii) : bool :=
  let n := nat_of_ascii c in (48 <=? n)%nat && (n <=? 57)%nat.

Definition digit_value (c : ascii) : Z := Z.of_nat (nat_of_ascii c) - 48.

Fixpoint leading_digits (s : string) : string :=
  match s with
  | EmptyString => EmptyString
  | String c s' =>
      if is_digit c then String c (leading_digits s') else EmptyString
  end.

Fixpoint digits_value (acc : Z) (s : string) : Z :=
  match s with
  | EmptyString => acc
  | String c s' => digits_value (10 * acc + digit_value c) s'
  end.

Definition parseInt10 (s : string) : option Z :=
  let s1 := trimStart s in
  let '(sign, s2) :=
    match s1 with
    | String c r =>
        if Ascii.eqb c (ascii_of_nat 45) then ((-1)%Z, r)
        else if Ascii.eqb c (ascii_of_nat 43) then (1%Z, r)
        else (1%Z, s1)
    | EmptyString => (1%Z, s1)
    end in
  match leading_digits s2 with
  | EmptyString => None
  | ds => Some (sign * digits_value 0 ds)%Z
  end.

(** [String.prototype.toLowerCase] on the code units below 256: the
    letters A-Z and the capital letters of Latin-1. *)
Definition lower_char (c : ascii) : ascii :=
  let n := nat_of_ascii c in
  if ((65 <=? n)%nat && (n <=? 90)%nat)
     || ((192 <=? n)%nat && (n <=? 222)%nat && negb (n =? 215)%nat)
  then ascii_of_nat (n + 32) else c.

Fixpoint toLowerCase (s : string) : string :=
  match s with
  | EmptyString => EmptyString
  | String c s' => String (lower_char c) (toLowerCase s')
  end.

Definition resolveMilestone (gh : GitHub) (token milestoneInput : string)
    : Run (option Z) :=
  if String.eqb milestoneInput "" then done None
  else
    match parseInt10 milestoneInput with
    | Some milestoneNumber => done (Some milestoneNumber)
    | None =>
        catching
          (octokit <~ (getOctokit gh token, []) ;;
           repo <~ (context_repo gh, []) ;;
           milestones <~ (issues_listMilestones octokit (fst repo) (snd repo),
                          [ListMilestones (fst repo) (snd repo)]) ;;
           match find (fun m => String.eqb (toLowerCase (Milestone.title m))
                                           (toLowerCase milestoneInput))
                      milestones with
           | Some m => done (Some (Milestone.number m))
           | None =>
               record (Warn ("Milestone " ++ dquote ++ milestoneInput
                             ++ dquote ++ " not found")) ~~>
               done None
           end)
          (fun error =>
             record (Warn ("Failed to resolve milestone: "
                           ++ error_text error)) ~~>
             done None)
    end.

(** [parseCommaSeparatedList(input)] *)
Definition parseCommaSeparatedList (input : option string) : list string :=
  if negb (truthy input) || String.eqb (trim (interp input)) "" then []
  else filter (fun item => (0 <? len item)%Z)
              (map trim (split (ascii_of_nat 44) (interp input))).

End IssueCreator.

(** The requests to create an issue that a trace records, in order. *)
Fixpoint api_calls (t : list IssueCreator.ApiEvent)
    : list IssueCreator.CreateParams.t :=
  match t with
  | [] => []
  | IssueCreator.IssuesCreate params :: t' => params :: api_calls t'
  | _ :: t' => api_calls t'
  end.

(** The result that [createIssues] records for the item requested as
    the [k]-th of the run. *)
Definition result_at (octokit : IssueCreator.Octokit) (owner repo : string)
    (options : IssueCreator.IssueOptions) (k : nat)
    (item : IssueCreator.Item.t) : IssueCreator.IssueCreationResult :=
  match IssueCreator.issues_create octokit k
          (IssueCreator.create_params owner repo options item) with
  | IssueCreator.Done data =>
      {| IssueCreator.success := true;
         IssueCreator.issue :=
           Some {| IssueCreator.number := IssueCreator.IssueData.number data;
                   IssueCreator.url := IssueCreator.IssueData.html_url data;
                   IssueCreator.title := IssueCreator.IssueData.title data |};
         IssueCreator.error := None;
         IssueCreator.filePath := IssueCreator.Item.filePath item |}
  | IssueCreator.Raise e =>
      {| IssueCreator.success := false;
         IssueCreator.issue := None;
         IssueCreator.error := Some (IssueCreator.message e);
         IssueCreator.filePath := IssueCreator.Item.filePath item |}
  end.

(** The items of a list with the rank of their request, from [k] on. *)
Fixpoint ranked {A : Type} (k : nat) (l : list A) : list (nat * A) :=
  match l with
  | [] => []
  | x :: l' => (k, x) :: ranked (S k) l'
  end.

(** A client that accepts the first request and refuses the next ones. *)
Definition octokit_one_then_fail : IssueCreator.Octokit :=
  {| IssueCreator.issues_create := fun k params =>
       match k with
       | O => IssueCreator.Done
                {| IssueCreator.IssueData.number := 17;
                   IssueCreator.IssueData.html_url :=
                     "https://github.com/test-org/test-repo/issues/17";
                   IssueCreator.IssueData.title :=
                     IssueCreator.CreateParams.title params |}
       | S _ => IssueCreator.Raise
                  {| IssueCreator.name := "HttpError";
                     IssueCreator.message := "Validation Failed" |}
       end;
     IssueCreator.issues_listMilestones := fun _ _ =>
       IssueCreator.Done
         [ {| IssueCreator.Milestone.number := 3;
              IssueCreator.Milestone.title := "Release 1.0" |};
           {| IssueCreator.Milestone.number := 5;
              IssueCreator.Milestone.title := "Backlog" |} ] |}.

Definition github_test : IssueCreator.GitHub :=
  {| IssueCreator.getOctokit := fun token =>
       if String.eqb token ""
       then IssueCreator.Raise
              {| IssueCreator.name := "Error";
                 IssueCreator.message :=
                   "Parameter token or opts.auth is required" |}
       else IssueCreator.Done octokit_one_then_fail;
     IssueCreator.context_repo := IssueCreator.Done ("test-org", "test-repo") |}.

Definition sample_items : list IssueCreator.Item.t :=
  [ {| IssueCreator.Item.rendered :=
         {| TemplateRenderer.title := "Specification Change: a.md";
            TemplateRenderer.body := "body a" |};
       IssueCreator.Item.filePath := "docs/a.md" |};
    {| IssueCreator.Item.rendered :=
         {| TemplateRenderer.title := "Specification Change: b.md";
            TemplateRenderer.body := "body b" |};
       IssueCreator.Item.filePath := "docs/b.md" |} ].

Definition sample_issue_options : IssueCreator.IssueOptions :=
  {| IssueCreator.labels := ["spec-change"];
     IssueCreator.assignees := [];
     IssueCreator.milestone := Some 0%Z |}.

(** * src/index.ts: the context of a run *)

Module Index.
Import Js.

Module PullRequest.
(** [github.context.payload.pull_request], by the two fields read. *)
Record t : Type := {
  number : option Z;
  title : option string
}.
End PullRequest.

(** [github.context], by the fields that [buildContextFromEnvironment]
    reads; a field that the runner did not provide is undefined. *)
Record Context : Type := {
  sha : option string;
  ref : option string;
  eventName : option string;
  pull_request : option PullRequest.t
}.

(** [s.replace(pattern, '')] for a text pattern that is not empty: the
    first occurrence of the pattern is removed. *)
Fixpoint drop (n : nat) (s : string) : string :=
  match n, s with
  | O, _ => s
  | S n', String _ s' => drop n' s'
  | S _, EmptyString => EmptyString
  end.

Fixpoint remove_first (pattern s : string) : string :=
  if String.prefix pattern s then drop (String.length pattern) s
  else match s with
       | EmptyString => EmptyString
       | String c s' => String c (remove_first pattern s')
       end.

(** The partial context with the keys that [buildContextFromEnvironment]
    may set. *)
Definition context_of (commit_sha commit_sha_short branch : string)
    (commit_message commit_date author pr_number pr_title : option string)
    : TemplateRenderer.Partial.t :=
  {| TemplateRenderer.Partial.filename := None;
     TemplateRenderer.Partial.file_path := None;
     TemplateRenderer.Partial.file_link := None;
     TemplateRenderer.Partial.diff := None;
     TemplateRenderer.Partial.diff_raw := None;
     TemplateRenderer.Partial.commit_sha := Some commit_sha;
     TemplateRenderer.Partial.commit_sha_short := Some commit_sha_short;
     TemplateRenderer.Partial.commit_link := None;
     TemplateRenderer.Partial.commit_message := commit_message;
     TemplateRenderer.Partial.commit_date := commit_date;
     TemplateRenderer.Partial.author := author;
     TemplateRenderer.Partial.pull_request := None;
     TemplateRenderer.Partial.pr_number := pr_number;
     TemplateRenderer.Partial.pr_link := None;
     TemplateRenderer.Partial.pr_title := pr_title;
     TemplateRenderer.Partial.branch := Some branch;
     TemplateRenderer.Partial.change_type := None;
     TemplateRenderer.Partial.previous_path := None |}.

(** Reading a method of an undefined value. *)
Definition read_of_undefined (method : string) : string :=
  "TypeError: Cannot read properties of undefined (reading '" ++ method
  ++ "')".

(** The [try] of [buildContextFromEnvironment]: the three keys it sets,
    one after each [git log] that answered; the first failure is logged and
    leaves the keys set so far. *)
Definition commit_info (w : World)
    : M (option string * option string * option string) :=
  try_catch
    (commitMessage <- exec w "git log -1 --format=%s" ;;
     try_catch
       (commitDate <- exec w "git log -1 --format=%ci" ;;
        try_catch
          (authorName <- exec w "git log -1 --format=%an" ;;
           ret (Some (trim commitMessage), Some (trim commitDate),
                Some (or_else (env w "GITHUB_ACTOR") (trim authorName))))
          (fun error =>
             emit (Debug ("Could not get commit info: " ++ error)) ;;;
             ret (Some (trim commitMessage), Some (trim commitDate), None)))
       (fun error =>
          emit (Debug ("Could not get commit info: " ++ error)) ;;;
          ret (Some (trim commitMessage), None, None)))
    (fun error =>
       emit (Debug ("Could not get commit info: " ++ error)) ;;;
       ret (None, None, None)).

(** The PR keys: set on a pull request whose number is truthy. *)
Definition pr_info (ctx : Context) : option string * option string :=
  if opt_is (eventName ctx) "pull_request" then
    match pull_request ctx with
    | Some pr =>
        match PullRequest.number pr with
        | Some prNumber =>
            if (prNumber =? 0)%Z then (None, None)
            else (Some (dec prNumber),
                  Some (or_else (PullRequest.title pr) ""))
        | None => (None, None)
        end
    | None => (None, None)
    end
  else (None, None).

Definition buildContextFromEnvironment (ctx : Context) (w : World)
    : M TemplateRenderer.Partial.t :=
  match sha ctx with
  | None => (Throw (read_of_undefined "substring"), [])
  | Some commit_sha =>
      branch <-
        (if truthy (env w "GITHUB_REF_NAME")
         then ret (interp (env w "GITHUB_REF_NAME"))
         else match ref ctx with
              | Some r => ret (remove_first "refs/heads/" r)
              | None => (Throw (read_of_undefined "replace"), [])
              end) ;;
      info <- commit_info w ;;
      let '(commit_message, commit_date, author) := info in
      let '(pr_number, pr_title) := pr_info ctx in
      ret (context_of commit_sha (substring0 7 commit_sha) branch
             commit_message commit_date author pr_number pr_title)
  end.

End Index.

(** The context of a push to [main]. *)
Definition context_push : Index.Context :=
  {| Index.sha := Some "abc1234567890";
     Index.ref := Some "refs/heads/main";
     Index.eventName := Some "push";
     Index.pull_request := None |}.

(** A checkout whose history gives the message and not the date. *)
Definition world_no_date : World :=
  {| env := fun _ => None;
     execAsync := fun cmd =>
       if String.eqb cmd "git log -1 --format=%s"
       then Ok ("Update API spec" ++ Js.nl)
       else Throw "Error: Command failed";
     cwd := "/work/repo";
     existsSync := fun _ => false;
     readFileSync := fun _ => Throw "Error: ENOENT";
     now_iso := "2025-12-01T00:00:00.000Z" |}.

(** * src/index.ts: the run

    [run] is embedded from the record that [parseInputs] returns, with its
    two numbers as integers.  Its trace records the events of the stages it
    calls, the outputs it sets, its warnings and its failure; the
    [core.info] lines are not recorded.  [run] catches every error: the
    failure it then reports, [Action failed: ] followed by the message of
    the error, is recorded by the error caught. *)

Module Main.
Import Js.

Record ActionInputs : Type := {
  filePattern : string;
  filePatterns : string;
  excludePattern : string;
  caseSensitive : bool;
  issueTitleTemplate : string;
  issueBodyTemplate : string;
  includeDiff : bool;
  diffContextLines : Z;
  maxDiffLines : Z;
  includeFileLink : bool;
  includeCommitLink : bool;
  includePrLink : bool;
  labels : string;
  assignees : string;
  milestone : string;
  createOnNewFiles : bool;
  createOnDeletedFiles : bool;
  dryRun : bool;
  githubToken : string
}.

(** An error that reaches the [catch] of [run]: thrown by a stage of the
    pipeline (by the text [`${error}`]) or by the GitHub client. *)
Inductive RunError : Type :=
| Thrown (text : string)
| ApiError (e : IssueCreator.JsError).

Inductive RunEvent : Type :=
| Core (ev : Event)                      (* an event of a stage *)
| Api (ev : IssueCreator.ApiEvent)       (* an event of the issue creator *)
| SetOutput (name value : string)        (* core.setOutput *)
| RunWarning (msg : string)              (* core.warning of [run] *)
| SetFailed (msg : string)               (* core.setFailed of the [try] *)
| ActionFailed (err : RunError).         (* core.setFailed of the [catch] *)

Inductive Step (A : Type) : Type :=
| Fine (a : A)
| Failed (err : RunError).

Arguments Fine {A} a.
Arguments Failed {A} err.

Definition Act (A : Type) : Type := (Step A * list RunEvent)%type.

Definition fine {A : Type} (a : A) : Act A := (Fine a, []).

Definition next {A B : Type} (m : Act A) (k : A -> Act B) : Act B :=
  match m with
  | (Fine a, t) => let '(r, t') := k a in (r, (t ++ t')%list)
  | (Failed err, t) => (Failed err, t)
  end.

Definition log (ev : RunEvent) : Act unit := (Fine tt, [ev]).

(** [await] of a stage of the pipeline. *)
Definition of_M {A : Type} (m : M A) : Act A :=
  match m with
  | (Ok a, t) => (Fine a, map Core t)
  | (Throw e, t) => (Failed (Thrown e), map Core t)
  end.

(** [await] of a function of the issue creator. *)
Definition of_Run {A : Type} (m : IssueCreator.Run A) : Act A :=
  match m with
  | (IssueCreator.Done a, t) => (Fine a, map Api t)
  | (IssueCreator.Raise e, t) => (Failed (ApiError e), map Api t)
  end.

Notation "x <== m ;; k" := (next m (fun x => k))
  (at level 61, m at next level, right associativity).
Notation "m ==> k" := (next m (fun _ => k))
  (at level 61, right associativity).

(** [xs.map(f)] for an [f] that may throw. *)
Fixpoint map_act {A B : Type} (f : A -> Act B) (xs : list A) : Act (list B) :=
  match xs with
  | [] => fine []
  | x :: xs' =>
      y <== f x ;;
      ys <== map_act f xs' ;;
      fine (y :: ys)
  end.

(** [xs.forEach(f)] *)
Fixpoint each_act {A : Type} (f : A -> Act unit) (xs : list A) : Act unit :=
  match xs with
  | [] => fine tt
  | x :: xs' => f x ==> each_act f xs'
  end.

(** [JSON.stringify] of a string, of an array of strings and of an array
    of integers. *)
Definition hex_digit (n : nat) : ascii :=
  if (n <? 10)%nat then ascii_of_nat (48 + n) else ascii_of_nat (87 + n).

Definition json_char (c : ascii) : string :=
  let n := nat_of_ascii c in
  if (n =? 34)%nat then "\" ++ dquote
  else if (n =? 92)%nat then "\\"
  else if (n =? 8)%nat then "\b"
  else if (n =? 9)%nat then "\t"
  else if (n =? 10)%nat then "\n"
  else if (n =? 12)%nat then "\f"
  else if (n =? 13)%nat then "\r"
  else if (n <? 32)%nat then
    "\u00" ++ String (hex_digit (n / 16)) (String (hex_digit (n mod 16)) "")
  else String c EmptyString.

Fixpoint json_chars (s : string) : string :=
  match s with
  | EmptyString => EmptyString
  | String c s' => json_char c ++ json_chars s'
  end.

Definition json_string (s : string) : string :=
  dquote ++ json_chars s ++ dquote.

Definition json_strings (l : list string) : string :=
  "[" ++ join "," (map json_string l) ++ "]".

Definition json_numbers (l : list Z) : string :=
  "[" ++ join "," (map dec l) ++ "]".

Definition setEmptyOutputs : Act unit :=
  log (SetOutput "issues-created" "[]") ==>
  log (SetOutput "issues-count" "0") ==>
  log (SetOutput "files-detected" "[]") ==>
  log (SetOutput "files-count" "0").

(** The patterns that [run] hands to the detector. *)
Definition run_patterns (inputs : ActionInputs) : list string :=
  let patterns :=
    FileDetector.parsePatterns (Some (filePattern inputs))
                               (Some (filePatterns inputs)) in
  if (List.length patterns =? 0)%nat
  then (patterns ++ ["**/*specification*.md"])%list
  else patterns.

Definition fileDetectorOptions (inputs : ActionInputs)
    : FileDetector.FileDetectorOptions :=
  {| FileDetector.patterns := run_patterns inputs;
     FileDetector.excludePatterns :=
       if truthy (Some (excludePattern inputs))
       then FileDetector.parsePatterns (Some (excludePattern inputs)) None
       else [];
     FileDetector.caseSensitive := caseSensitive inputs;
     FileDetector.createOnNewFiles := createOnNewFiles inputs;
     FileDetector.createOnDeletedFiles := createOnDeletedFiles inputs |}.

Definition diffOptions (inputs : ActionInputs) : DiffGenerator.DiffOptions :=
  {| DiffGenerator.contextLines := diffContextLines inputs;
     DiffGenerator.maxLines := maxDiffLines inputs |}.

(** [renderOptions]: the key [sanitizeDiff] is not set, hence falsy. *)
Definition renderOptions (inputs : ActionInputs)
    : TemplateRenderer.RenderOptions :=
  {| TemplateRenderer.titleTemplate := issueTitleTemplate inputs;
     TemplateRenderer.bodyTemplate := issueBodyTemplate inputs;
     TemplateRenderer.includeDiff := includeDiff inputs;
     TemplateRenderer.includeFileLink := includeFileLink inputs;
     TemplateRenderer.includeCommitLink := includeCommitLink inputs;
     TemplateRenderer.includePrLink := includePrLink inputs;
     TemplateRenderer.sanitizeDiff := false |}.

Definition issueOptions (inputs : ActionInputs) (milestoneNumber : option Z)
    : IssueCreator.IssueOptions :=
  {| IssueCreator.labels :=
       IssueCreator.parseCommaSeparatedList (Some (labels inputs));
     IssueCreator.assignees :=
       IssueCreator.parseCommaSeparatedList (Some (assignees inputs));
     IssueCreator.milestone := milestoneNumber |}.

(** [results.filter(r => r.success && r.issue)] and
    [results.filter(r => !r.success)] *)
Definition successful (results : list IssueCreator.IssueCreationResult)
    : list IssueCreator.IssueCreationResult :=
  filter (fun r => IssueCreator.success r
                   && match IssueCreator.issue r with
                      | Some _ => true
                      | None => false
                      end)
         results.

Definition failed (results : list IssueCreator.IssueCreationResult)
    : list IssueCreator.IssueCreationResult :=
  filter (fun r => negb (IssueCreator.success r)) results.

(** [r.issue!.number] *)
Definition issue_number (r : IssueCreator.IssueCreationResult) : Z :=
  match IssueCreator.issue r with
  | Some i => IssueCreator.number i
  | None => 0
  end.

(** What [run] does with the results of [createIssues]. *)
Definition report (inputs : ActionInputs)
    (changedFiles : list FileDetector.ChangedFile)
    (results : list IssueCreator.IssueCreationResult) : Act unit :=
  let successfulIssues := successful results in
  let failedIssues := failed results in
  let issueNumbers := map issue_number successfulIssues in
  log (SetOutput "issues-created" (json_numbers issueNumbers)) ==>
  log (SetOutput "issues-count"
         (dec (Z.of_nat (List.length successfulIssues)))) ==>
  (if (0 <? List.length failedIssues)%nat then
     log (RunWarning ("   Failed to create: "
                      ++ dec (Z.of_nat (List.length failedIssues)))) ==>
     each_act
       (fun f => log (RunWarning ("      - " ++ IssueCreator.filePath f ++ ": "
                                  ++ interp (IssueCreator.error f))))
       failedIssues
   else fine tt) ==>
  (if (List.length successfulIssues =? 0)%nat
      && (0 <? List.length changedFiles)%nat
      && negb (dryRun inputs)
   then log (SetFailed "Failed to create any issues. Check the logs for details.")
   else fine tt).

(** The body of the [try] of [run]. *)
Definition run_try (glob : FileDetector.Glob)
    (hb : TemplateRenderer.Handlebars) (gh : IssueCreator.GitHub)
    (ctx : Index.Context) (w : World) (parseInputs : Outcome ActionInputs)
    : Act unit :=
  let eventName := Index.eventName ctx in
  if negb (opt_is eventName "push")
     && negb (opt_is eventName "pull_request") then
    log (RunWarning ("This action is designed for 'push' and 'pull_request' events. Current event: '"
                     ++ interp eventName ++ "'. Exiting gracefully.")) ==>
    setEmptyOutputs
  else
    inputs <== of_M (parseInputs, []) ;;
    changedFiles <==
      of_M (FileDetector.detectChangedFiles glob w
              (fileDetectorOptions inputs)) ;;
    if (List.length changedFiles =? 0)%nat then setEmptyOutputs
    else
      log (SetOutput "files-detected"
             (json_strings (map FileDetector.path changedFiles))) ==>
      log (SetOutput "files-count"
             (dec (Z.of_nat (List.length changedFiles)))) ==>
      diffs <== of_M (DiffGenerator.generateDiffs w changedFiles
                        (diffOptions inputs)) ;;
      templateContext <== of_M (Index.buildContextFromEnvironment ctx w) ;;
      issuesToCreate <==
        map_act
          (fun fileDiff =>
             rendered <== of_M (TemplateRenderer.renderIssue hb w fileDiff
                                  (renderOptions inputs) templateContext) ;;
             fine {| IssueCreator.Item.rendered := rendered;
                     IssueCreator.Item.filePath :=
                       FileDetector.path (DiffGenerator.file fileDiff) |})
          diffs ;;
      milestoneNumber <==
        (if truthy (Some (milestone inputs))
         then of_Run (IssueCreator.resolveMilestone gh (githubToken inputs)
                        (milestone inputs))
         else fine None) ;;
      results <== of_Run (IssueCreator.createIssues gh (githubToken inputs)
                            issuesToCreate
                            (issueOptions inputs milestoneNumber)
                            (dryRun inputs)) ;;
      report inputs changedFiles results.

(** [run]: the trace of the [try], closed by the failure of the [catch]
    when an error escaped. *)
Definition run (glob : FileDetector.Glob)
    (hb : TemplateRenderer.Handlebars) (gh : IssueCreator.GitHub)
    (ctx : Index.Context) (w : World) (parseInputs : Outcome ActionInputs)
    : list RunEvent :=
  match run_try glob hb gh ctx w parseInputs with
  | (Fine _, t) => t
  | (Failed err, t) => (t ++ [ActionFailed err])%list
  end.

End Main.

(** The failures that a run reports, in order: [None] for the failure of
    the [catch]. *)
Fixpoint failures (t : list Main.RunEvent) : list (option string) :=
  match t with
  | [] => []
  | Main.SetFailed msg :: t' => Some msg :: failures t'
  | Main.ActionFailed _ :: t' => None :: failures t'
  | _ :: t' => failures t'
  end.

(** The outputs that a run sets, in order. *)
Fixpoint outputs (t : list Main.RunEvent) : list (string * string) :=
  match t with
  | [] => []
  | Main.SetOutput name v :: t' => (name, v) :: outputs t'
  | _ :: t' => outputs t'
  end.

(** The requests to GitHub that a run records. *)
Fixpoint api_events (t : list Main.RunEvent) : list IssueCreator.ApiEvent :=
  match t with
  | [] => []
  | Main.Api ev :: t' => ev :: api_events t'
  | _ :: t' => api_events t'
  end.

(** The events of the stages that a run records. *)
Fixpoint core_events (t : list Main.RunEvent) : list Event :=
  match t with
  | [] => []
  | Main.Core ev :: t' => ev :: core_events t'
  | _ :: t' => core_events t'
  end.

(** The inputs of a run on the files under [docs/], with an inline body
    template. *)
Definition sample_inputs (token : string) (dry : bool) : Main.ActionInputs :=
  {| Main.filePattern := "docs/";
     Main.filePatterns := "";
     Main.excludePattern := "";
     Main.caseSensitive := false;
     Main.issueTitleTemplate := "Specification Change: {{ filename }}";
     Main.issueBodyTemplate := "Changed: {{ file_path }}";
     Main.includeDiff := true;
     Main.diffContextLines := 3;
     Main.maxDiffLines := 500;
     Main.includeFileLink := true;
     Main.includeCommitLink := true;
     Main.includePrLink := true;
     Main.labels := "spec-change";
     Main.assignees := "";
     Main.milestone := "";
     Main.createOnNewFiles := true;
     Main.createOnDeletedFiles := false;
     Main.dryRun := dry;
     Main.githubToken := token |}.

(** The context of a run started by hand. *)
Definition context_dispatch : Index.Context :=
  {| Index.sha := Some "abc1234567890";
     Index.ref := Some "refs/heads/main";
     Index.eventName := Some "workflow_dispatch";
     Index.pull_request := None |}.

(** A client all of whose requests are refused. *)
Definition octokit_refusing : IssueCreator.Octokit :=
  {| IssueCreator.issues_create := fun _ _ =>
       IssueCreator.Raise
         {| IssueCreator.name := "HttpError";
            IssueCreator.message := "Resource not accessible by integration" |};
     IssueCreator.issues_listMilestones := fun _ _ =>
       IssueCreator.Raise
         {| IssueCreator.name := "HttpError";
            IssueCreator.message := "Resource not accessible by integration" |} |}.

Definition github_refusing : IssueCreator.GitHub :=
  {| IssueCreator.getOctokit := fun _ => IssueCreator.Done octokit_refusing;
     IssueCreator.context_repo := IssueCreator.Done ("test-org", "test-repo") |}.

(** A matcher that no path satisfies. *)
Definition glob_none : Glob := fun _ _ _ => false.

(** The issue that the run on [world_one_change] renders from
    [sample_inputs]. *)
Definition item_one_change : IssueCreator.Item.t :=
  {| IssueCreator.Item.rendered :=
       {| TemplateRenderer.title := "Specification Change: x-specification.md";
          TemplateRenderer.body := "Changed: docs/x-specification.md" |};
     IssueCreator.Item.filePath := "docs/x-specification.md" |}.

(** A push that modifies, renames and adds files under [docs/], and
    modifies a draft and the README. *)
Definition world_mixed_push : World :=
  {| env := fun _ => None;
     execAsync := fun cmd =>
       if String.eqb cmd "git diff --name-status HEAD~1 HEAD"
       then Ok ("M" ++ Js.tab ++ "docs/api.md" ++ Js.nl
                ++ "R100" ++ Js.tab ++ "docs/old.md" ++ Js.tab
                ++ "docs/new.md" ++ Js.nl
                ++ "A" ++ Js.tab ++ "docs/added.md" ++ Js.nl
                ++ "M" ++ Js.tab ++ "docs/drafts/wip.md" ++ Js.nl
                ++ "M" ++ Js.tab ++ "README.md" ++ Js.nl)
       else Throw "Error: Command failed";
     cwd := "/work/repo";
     existsSync := fun _ => false;
     readFileSync := fun _ => Throw "Error: ENOENT";
     now_iso := "2025-12-01T00:00:00.000Z" |}.

(** Options whose only include pattern is the empty string. *)
Definition options_empty_pattern : FileDetector.FileDetectorOptions :=
  {| FileDetector.patterns := [""];
     FileDetector.excludePatterns := [];
     FileDetector.caseSensitive := true;
     FileDetector.createOnNewFiles := true;
     FileDetector.createOnDeletedFiles := true |}.

(** * Properties *)

(** ** The tests of the repository, run on the embedding *)

Section RepositoryTests.
Import TemplateRenderer.

(** tests/diff-generator.test.ts *)

Example test_formatDiff_wraps :
  formatDiffAsCodeBlock
    ("--- a/file.md" ++ nl ++ "+++ b/file.md" ++ nl ++ "@@ -1,3 +1,3 @@" ++ nl
     ++ " line 1" ++ nl ++ "-old line 2" ++ nl ++ "+new line 2" ++ nl
     ++ " line 3")
  = "```diff" ++ nl
    ++ ("--- a/file.md" ++ nl ++ "+++ b/file.md" ++ nl ++ "@@ -1,3 +1,3 @@"
        ++ nl ++ " line 1" ++ nl ++ "-old line 2" ++ nl ++ "+new line 2"
        ++ nl ++ " line 3")
    ++ nl ++ "```".
Proof. reflexivity. Qed.

Example test_formatDiff_empty :
  formatDiffAsCodeBlock "" = "```" ++ nl ++ "No changes detected." ++ nl ++ "```".
Proof. reflexivity. Qed.

Example test_formatDiff_whitespace :
  formatDiffAsCodeBlock ("   " ++ nl ++ "  " ++ nl)
  = "```" ++ nl ++ "No changes detected." ++ nl ++ "```".
Proof. reflexivity. Qed.

(** tests/file-detector.test.ts *)

Example test_parsePatterns_single :
  parsePatterns (Some "**/*.md") None = ["**/*.md"].
Proof. reflexivity. Qed.

Example test_parsePatterns_multi :
  parsePatterns None
    (Some ("specs/**/*.md" ++ nl ++ "docs/specs/**/*.md" ++ nl
           ++ "**/*-spec.md"))
  = ["specs/**/*.md"; "docs/specs/**/*.md"; "**/*-spec.md"].
Proof. reflexivity. Qed.

Example test_parsePatterns_multi_first :
  parsePatterns (Some "single/*.md")
    (Some ("specs/**/*.md" ++ nl ++ "docs/**/*.md"))
  = ["specs/**/*.md"; "docs/**/*.md"].
Proof. reflexivity. Qed.

Example test_parsePatterns_none : parsePatterns None None = [].
Proof. reflexivity. Qed.

Example test_parsePatterns_empty_lines :
  parsePatterns None
    (Some ("specs/**/*.md" ++ nl ++ nl ++ "docs/**/*.md" ++ nl ++ "   " ++ nl
           ++ "**/*-spec.md"))
  = ["specs/**/*.md"; "docs/**/*.md"; "**/*-spec.md"].
Proof. reflexivity. Qed.

Example test_parsePatterns_trims :
  parsePatterns None
    (Some ("  specs/**/*.md  " ++ nl ++ "  docs/**/*.md  "))
  = ["specs/**/*.md"; "docs/**/*.md"].
Proof. reflexivity. Qed.

(** tests/template-renderer.test.ts: the titles, and a body of links *)

Example test_render_title :
  value (renderIssue HandlebarsFragment.render
           (world_test_repo (Some "abc1234567890")) test_file_diff
           (sample_render_options "Specification Change: {{ filename }}"
              "{{ file_path }} {{ commit_link }} @{{ author }} {{ pr_link }}")
           test_context)
  = Ok {| title := "Specification Change: api-specification.md";
          body := "docs/api-specification.md "
                  ++ "https://github.com/test-org/test-repo/commit/abc1234567890"
                  ++ " @testuser "
                  ++ "https://github.com/test-org/test-repo/pull/42" |}.
Proof. reflexivity. Qed.

Example test_render_custom_title :
  HandlebarsFragment.render "[SPEC] {{ filename }} - {{ change_type }}"
    (buildTemplateContext (world_test_repo (Some "abc1234567890"))
       test_file_diff test_context (sample_render_options "" ""))
  = Ok "[SPEC] api-specification.md - modified".
Proof. reflexivity. Qed.

Example test_render_renamed :
  HandlebarsFragment.render
    "{{ change_type }}: {{ filename }} (was {{ previous_path }})"
    (buildTemplateContext (world_test_repo (Some "abc1234567890"))
       {| file := {| path := "docs/new-name-specification.md";
                     changeType := renamed;
                     previousPath := Some "docs/old-name-specification.md" |};
          DiffGenerator.diff := "rename diff"; truncated := false;
          lineCount := 1 |}
       test_context (sample_render_options "" ""))
  = Ok ("renamed: new-name-specification.md "
        ++ "(was docs/old-name-specification.md)").
Proof. reflexivity. Qed.

Example test_default_template :
  value (resolveBodyTemplate world_no_git "") = Ok getDefaultTemplate
  /\ (100 < len getDefaultTemplate)%Z.
Proof. split; reflexivity. Qed.

End RepositoryTests.


(** ** Facts about the string primitives *)

Section StringFacts.

Variable sep : ascii.

Lemma split_not_nil (s : string) : split sep s <> [].
Proof.
  destruct s as [|c s]; simpl; [discriminate|].
  destruct (Ascii.eqb c sep); [discriminate|].
  destruct (split sep s); discriminate.
Qed.

Lemma split_no_sep (s : string) :
  Forall (fun part => includes part sep = false) (split sep s).
Proof.
  induction s as [|c s IH]; simpl.
  - constructor; [reflexivity|constructor].
  - destruct (Ascii.eqb c sep) eqn:Hc.
    + constructor; [reflexivity|exact IH].
    + destruct (split sep s) as [|h t].
      * constructor; [simpl; rewrite Hc; reflexivity|constructor].
      * inversion IH as [|? ? Hh Ht]; subst.
        constructor; [simpl; rewrite Hc, Hh; reflexivity|exact Ht].
Qed.

Lemma split_whole (a : string) :
  includes a sep = false -> split sep a = [a].
Proof.
  induction a as [|c a IH]; simpl; intros H; [reflexivity|].
  apply orb_false_iff in H as [Hc Ha].
  rewrite Hc, (IH Ha). reflexivity.
Qed.

Lemma split_app_sep (a b : string) :
  includes a sep = false ->
  split sep (a ++ String sep b) = a :: split sep b.
Proof.
  induction a as [|c a IH]; simpl; intros H.
  - rewrite Ascii.eqb_refl. reflexivity.
  - apply orb_false_iff in H as [Hc Ha].
    rewrite Hc, (IH Ha). reflexivity.
Qed.

Lemma split_join (l : list string) :
  l <> [] ->
  Forall (fun part => includes part sep = false) l ->
  split sep (join (String sep EmptyString) l) = l.
Proof.
  induction l as [|a l IH]; intros Hne Hall; [congruence|].
  inversion Hall as [|? ? Ha Hl]; subst.
  destruct l as [|b l].
  - simpl. apply split_whole; exact Ha.
  - change (join (String sep EmptyString) (a :: b :: l))
      with (a ++ String sep (join (String sep EmptyString) (b :: l))).
    rewrite (split_app_sep _ _ Ha), IH; [reflexivity|discriminate|exact Hl].
Qed.

Lemma includes_app (a b : string) :
  includes (a ++ b) sep = includes a sep || includes b sep.
Proof.
  induction a as [|c a IH]; simpl; [reflexivity|].
  rewrite IH, orb_assoc. reflexivity.
Qed.

End StringFacts.

Lemma str_app_assoc (a b c : string) : (a ++ b) ++ c = a ++ (b ++ c).
Proof. induction a as [|x a IH]; simpl; [reflexivity|]. rewrite IH. reflexivity. Qed.

Lemma join_snoc2 (s : string) (l : list string) (a b : string) :
  l <> [] ->
  join s (l ++ [a; b])%list = join s l ++ s ++ a ++ s ++ b.
Proof.
  induction l as [|x l IH]; intros Hne; [congruence|].
  destruct l as [|y l].
  - reflexivity.
  - change (join s ((x :: y :: l) ++ [a; b])%list)
      with (x ++ s ++ join s ((y :: l) ++ [a; b])%list).
    rewrite IH by discriminate.
    change (join s (x :: y :: l)) with (x ++ s ++ join s (y :: l)).
    rewrite !str_app_assoc. reflexivity.
Qed.

Lemma uint_text_no_LF (d : Decimal.uint) :
  includes (NilEmpty.string_of_uint d) LF = false.
Proof. induction d; simpl; auto. Qed.

Lemma dec_no_LF (n : Z) : includes (dec n) LF = false.
Proof.
  unfold dec, NilZero.string_of_int, NilZero.string_of_uint.
  destruct (Z.to_int n) as [d|d]; destruct d; simpl;
    auto using uint_text_no_LF.
Qed.

(** ** Facts about computations *)

Lemma value_bind {A B : Type} (m : M A) (k : A -> M B) :
  value (bind m k) =
  match value m with
  | Ok a => value (k a)
  | Throw e => Throw e
  end.
Proof.
  destruct m as [[a|e] t]; simpl; [|reflexivity].
  destruct (k a); reflexivity.
Qed.

Lemma value_try_catch {A : Type} (m : M A) (h : string -> M A) :
  value (try_catch m h) =
  match value m with
  | Ok a => Ok a
  | Throw e => value (h e)
  end.
Proof.
  destruct m as [[a|e] t]; simpl; [reflexivity|].
  destruct (h e); reflexivity.
Qed.

Lemma trace_bind {A B : Type} (m : M A) (k : A -> M B) :
  trace (bind m k) =
  (trace m ++ match value m with
              | Ok a => trace (k a)
              | Throw _ => []
              end)%list.
Proof.
  destruct m as [[a|e] t]; simpl; [|symmetry; apply app_nil_r].
  destruct (k a); reflexivity.
Qed.

Lemma trace_try_catch {A : Type} (m : M A) (h : string -> M A) :
  trace (try_catch m h) =
  (trace m ++ match value m with
              | Ok _ => []
              | Throw e => trace (h e)
              end)%list.
Proof.
  destruct m as [[a|e] t]; simpl; [symmetry; apply app_nil_r|].
  destruct (h e); reflexivity.
Qed.

Lemma value_emit_then {A : Type} (ev : Event) (k : M A) :
  value (emit ev ;;; k) = value k.
Proof. rewrite value_bind. reflexivity. Qed.

Lemma value_filterM {A : Type} (p : A -> M bool) (q : A -> bool)
    (xs : list A) :
  (forall x, value (p x) = Ok (q x)) ->
  value (filterM p xs) = Ok (filter q xs).
Proof.
  intros Hp. induction xs as [|x xs IH]; simpl; [reflexivity|].
  rewrite value_bind, Hp, value_bind, IH. simpl.
  destruct (q x); reflexivity.
Qed.

Lemma value_for_each {A : Type} (body : A -> M unit) (xs : list A) :
  (forall x, value (body x) = Ok tt) ->
  value (for_each body xs) = Ok tt.
Proof.
  intros Hb. induction xs as [|x xs IH]; simpl; [reflexivity|].
  rewrite value_bind, Hb. exact IH.
Qed.

(** ** Truncation of a diff *)

Lemma truncation_note_no_LF (n : Z) :
  includes (truncation_note n) LF = false.
Proof.
  unfold truncation_note.
  rewrite !includes_app, dec_no_LF. reflexivity.
Qed.

Lemma slice0_firstn {A : Type} (l : list A) (e : Z) :
  (0 <= e <= Z.of_nat (List.length l))%Z ->
  slice0 l e = firstn (Z.to_nat e) l.
Proof.
  intros He. unfold slice0.
  destruct (Z.ltb_spec e 0); [lia|].
  rewrite Z.min_l by lia. reflexivity.
Qed.

Lemma Forall_firstn' {A : Type} (P : A -> Prop) (n : nat) (l : list A) :
  Forall P l -> Forall P (firstn n l).
Proof.
  intros H. revert n.
  induction H as [|x l Hx Hl IH]; intros [|n]; simpl; auto.
Qed.

Lemma firstn_not_nil {A : Type} (n : nat) (l : list A) :
  (0 < n)%nat -> l <> [] -> firstn n l <> [].
Proof.
  destruct n; [lia|]. destruct l; [congruence|]. discriminate.
Qed.

(** What [processDiffOutput] does in terms of the parts that
    [rawDiff.split('\n')] gives, which is what the code counts: the diff is
    marked truncated exactly when there are more than [maxLines] parts.  A
    diff of at most [maxLines] parts is returned as it is; a longer one is
    cut to its first [maxLines] parts, followed by an empty line and the
    note, whose count is the number of parts left out.  [lineCount] is
    always the number of parts. *)
Theorem processDiffOutput_truncation
    (f : ChangedFile) (rawDiff : string) (maxLines : Z) :
  (0 < maxLines)%Z ->
  let rawLines := split LF rawDiff in
  let rawLineCount := Z.of_nat (List.length rawLines) in
  let note :=
    "... (diff truncated, " ++ dec (rawLineCount - maxLines)
      ++ " more lines)" in
  exists fd : FileDiff,
    value (processDiffOutput f rawDiff maxLines) = Ok fd
    /\ file fd = f
    /\ lineCount fd = rawLineCount
    /\ (truncated fd = true <-> (maxLines < rawLineCount)%Z)
    /\ ((rawLineCount <= maxLines)%Z ->
        diff fd = rawDiff /\ truncated fd = false)
    /\ ((maxLines < rawLineCount)%Z ->
        split LF (diff fd)
          = (firstn (Z.to_nat maxLines) rawLines ++ [EmptyString; note])%list
        /\ diff fd
          = join nl (firstn (Z.to_nat maxLines) rawLines)
              ++ nl ++ nl ++ note).
Proof.
  intros Hpos rawLines rawLineCount note.
  unfold processDiffOutput.
  fold rawLines. fold rawLineCount.
  destruct (Z.ltb_spec maxLines rawLineCount) as [Hlt|Hle].
  - rewrite value_emit_then. simpl value.
    eexists. split; [reflexivity|]. simpl.
    repeat split; intros; try lia; try assumption.
    + rewrite slice0_firstn by (fold rawLineCount; lia).
      rewrite <- app_assoc. simpl app.
      apply split_join.
      * intros Heq. apply app_eq_nil in Heq as [_ Heq]. discriminate.
      * apply Forall_app. split.
        -- apply Forall_firstn'. apply split_no_sep.
        -- repeat constructor. apply truncation_note_no_LF.
    + rewrite slice0_firstn by (fold rawLineCount; lia).
      rewrite <- app_assoc. simpl app.
      rewrite join_snoc2; [reflexivity|].
      apply firstn_not_nil; [lia|apply split_not_nil].
  - simpl value. eexists. split; [reflexivity|]. simpl.
    repeat split; intros; try lia; try discriminate.
Qed.

(** [processDiffOutput_truncation] on a diff of three parts cut to two. *)
Lemma processDiffOutput_truncation_witness :
  exists fd : FileDiff,
    value (processDiffOutput sample_file ("a" ++ nl ++ "b" ++ nl ++ "c") 2)
      = Ok fd
    /\ file fd = sample_file
    /\ lineCount fd = 3%Z
    /\ (truncated fd = true <-> (2 < 3)%Z)
    /\ ((3 <= 2)%Z ->
        diff fd = "a" ++ nl ++ "b" ++ nl ++ "c" /\ truncated fd = false)
    /\ ((2 < 3)%Z ->
        split LF (diff fd)
          = ["a"; "b"; ""; "... (diff truncated, 1 more lines)"]
        /\ diff fd
          = "a" ++ nl ++ "b" ++ nl ++ nl
              ++ "... (diff truncated, 1 more lines)").
Proof.
  exact (processDiffOutput_truncation sample_file
           ("a" ++ nl ++ "b" ++ nl ++ "c") 2 ltac:(lia)).
Defined.

(** ** One diff per file *)

Lemma processDiffOutput_ok (f : ChangedFile) (rawDiff : string) (m : Z) :
  exists fd, value (processDiffOutput f rawDiff m) = Ok fd /\ file fd = f.
Proof.
  unfold processDiffOutput.
  destruct (_ <? _)%Z.
  - rewrite value_emit_then. eexists. split; reflexivity.
  - eexists. split; reflexivity.
Qed.

Lemma generateDiffForFile_ok (w : World) (f : ChangedFile) (o : DiffOptions) :
  exists fd, value (generateDiffForFile w f o) = Ok fd /\ file fd = f.
Proof.
  unfold generateDiffForFile. cbv zeta.
  rewrite value_try_catch, value_emit_then, value_bind.
  unfold exec. simpl value.
  destruct (execAsync w (diff_command w f o)) as [stdout|e].
  - destruct (processDiffOutput_ok f stdout (maxLines o)) as [fd [Hv Hf]].
    rewrite Hv. exists fd. split; [reflexivity|exact Hf].
  - exists (placeholder f). split; reflexivity.
Qed.

Lemma generateDiffForFile_catch (w : World) (f : ChangedFile)
    (o : DiffOptions) (e : string) :
  execAsync w (diff_command w f o) = Throw e ->
  generateDiffForFile w f o
  = (Ok (placeholder f),
     [Debug ("Running: " ++ diff_command w f o);
      Exec (diff_command w f o);
      Warning ("Failed to generate diff for " ++ path f ++ ": " ++ e)]).
Proof.
  intros He. unfold generateDiffForFile, exec, bind, emit, try_catch, ret.
  rewrite He. reflexivity.
Qed.

Lemma generateDiffs_loop_value (w : World) (o : DiffOptions)
    (files : list ChangedFile) :
  forall acc, exists ds,
    value (generateDiffs_loop w o files acc) = Ok (acc ++ ds)%list
    /\ Forall2 (diff_of w o) files ds.
Proof.
  induction files as [|f files IH]; intros acc; simpl.
  - exists []. rewrite app_nil_r. split; [reflexivity|constructor].
  - destruct (generateDiffForFile_ok w f o) as [d [Hd _]].
    rewrite value_bind, Hd.
    destruct (IH (acc ++ [d])%list) as [ds [Hv Hall]].
    exists (d :: ds). rewrite Hv, <- app_assoc. simpl.
    split; [reflexivity|constructor; assumption].
Qed.

Lemma generateDiffs_value (w : World) (o : DiffOptions)
    (files : list ChangedFile) :
  exists ds, value (generateDiffs w files o) = Ok ds
             /\ Forall2 (diff_of w o) files ds.
Proof.
  destruct (generateDiffs_loop_value w o files []) as [ds H].
  exists ds. exact H.
Qed.

Lemma diff_of_file (w : World) (o : DiffOptions) (f : ChangedFile)
    (d : FileDiff) :
  diff_of w o f d -> file d = f.
Proof.
  unfold diff_of. intros H.
  destruct (generateDiffForFile_ok w f o) as [d' [Hd' Hf]].
  congruence.
Qed.

Lemma Forall2_diff_of_files (w : World) (o : DiffOptions)
    (files : list ChangedFile) (ds : list FileDiff) :
  Forall2 (diff_of w o) files ds -> map file ds = files.
Proof.
  induction 1 as [|f d files ds Hd _ IH]; simpl; [reflexivity|].
  rewrite (diff_of_file _ _ _ _ Hd), IH. reflexivity.
Qed.

(** C10. [generateDiffs] never throws and returns one [FileDiff] per
    input file, in the order of the input: the result has the length of the
    input, and at every index its [file] is the input file at that
    index. *)
Theorem generateDiffs_aligned (w : World) (files : list ChangedFile)
    (options : DiffOptions) :
  exists diffs : list FileDiff,
    value (generateDiffs w files options) = Ok diffs
    /\ List.length diffs = List.length files
    /\ map file diffs = files
    /\ forall i : nat,
         option_map file (nth_error diffs i) = nth_error files i.
Proof.
  destruct (generateDiffs_value w options files) as [ds [Hv Hall]].
  pose proof (Forall2_diff_of_files _ _ _ _ Hall) as Hmap.
  exists ds. split; [exact Hv|]. split; [|split; [exact Hmap|]].
  - rewrite <- Hmap. symmetry. apply length_map.
  - intros i. rewrite <- Hmap. symmetry. apply nth_error_map.
Qed.

Lemma Forall2_app_inv {A B : Type} (R : A -> B -> Prop)
    (l1 l2 : list A) (l : list B) :
  Forall2 R (l1 ++ l2)%list l ->
  exists k1 k2, l = (k1 ++ k2)%list /\ Forall2 R l1 k1 /\ Forall2 R l2 k2.
Proof.
  revert l. induction l1 as [|a l1 IH]; intros l H; simpl in H.
  - exists [], l. repeat split; [constructor|exact H].
  - inversion H as [|? b ? k Hab Hrest]; subst.
    destruct (IH k Hrest) as [k1 [k2 [-> [H1 H2]]]].
    exists (b :: k1), k2. repeat split; [constructor; assumption|exact H2].
Qed.

(** C6, as the code has it.  When the git command of a file fails,
    [generateDiffForFile] logs a warning and returns for that file the
    diff text [Unable to generate diff for this file.] with
    [truncated = false] and [lineCount = 0]; and a batch that contains
    such a file still yields, around that placeholder, the diff of every
    other file. *)
Theorem generateDiffForFile_failure_isolated
    (w : World) (f : ChangedFile) (options : DiffOptions) (e : string) :
  execAsync w (diff_command w f options) = Throw e ->
  generateDiffForFile w f options
  = (Ok {| file := f; diff := "Unable to generate diff for this file.";
           truncated := false; lineCount := 0 |},
     [Debug ("Running: " ++ diff_command w f options);
      Exec (diff_command w f options);
      Warning ("Failed to generate diff for " ++ path f ++ ": " ++ e)])
  /\ forall before after : list ChangedFile,
       exists ds1 ds2 : list FileDiff,
         value (generateDiffs w (before ++ f :: after) options)
         = Ok (ds1 ++ {| file := f;
                         diff := "Unable to generate diff for this file.";
                         truncated := false; lineCount := 0 |} :: ds2)%list
         /\ Forall2 (diff_of w options) before ds1
         /\ Forall2 (diff_of w options) after ds2.
Proof.
  intros He. split; [exact (generateDiffForFile_catch w f options e He)|].
  intros before after.
  destruct (generateDiffs_value w options (before ++ f :: after))
    as [ds [Hv Hall]].
  apply Forall2_app_inv in Hall as [ds1 [k [-> [H1 H2]]]].
  inversion H2 as [|? d ? ds2 Hd Hrest]; subst.
  exists ds1, ds2. split; [|split; assumption].
  rewrite Hv. do 3 f_equal.
  unfold diff_of in Hd.
  rewrite (generateDiffForFile_catch w f options e He) in Hd.
  simpl in Hd. inversion Hd. reflexivity.
Qed.

(** C6 on a file whose git command fails. *)
Lemma generateDiffForFile_failure_isolated_witness :
  generateDiffForFile world_no_git sample_file default_diff_options
  = (Ok {| file := sample_file;
           diff := "Unable to generate diff for this file.";
           truncated := false; lineCount := 0 |},
     [Debug ("Running: "
             ++ diff_command world_no_git sample_file default_diff_options);
      Exec (diff_command world_no_git sample_file default_diff_options);
      Warning ("Failed to generate diff for " ++ path sample_file ++ ": "
               ++ "Error: Command failed")]).
Proof.
  exact (proj1 (generateDiffForFile_failure_isolated world_no_git sample_file
                  default_diff_options "Error: Command failed" eq_refl)).
Defined.

(** C6 as worded does not hold: the placeholder is not the text
    [unable to generate diff]. *)
Lemma placeholder_text_differs :
  execAsync world_no_git
    (diff_command world_no_git sample_file default_diff_options)
  = Throw "Error: Command failed"
  /\ exists fd : FileDiff,
       value (generateDiffForFile world_no_git sample_file
                default_diff_options) = Ok fd
       /\ diff fd <> "unable to generate diff".
Proof.
  split; [reflexivity|].
  eexists. split; [reflexivity|]. simpl. discriminate.
Qed.

(** ** Parsing the name-status listing *)

Lemma parse_line_app (files : list ChangedFile) (line : string) :
  parse_line files line = (files ++ parse_line [] line)%list.
Proof.
  unfold parse_line.
  destruct (nth_error (split TAB line) 1) as [p|];
    [|symmetry; apply app_nil_r].
  destruct (String.eqb p ""); [symmetry; apply app_nil_r|].
  destruct (startsWith _ "R"); [|reflexivity].
  destruct (nth_error (split TAB line) 2) as [q|];
    [|symmetry; apply app_nil_r].
  destruct (String.eqb q ""); [symmetry; apply app_nil_r|reflexivity].
Qed.

Lemma fold_parse_line (lines : list string) :
  forall acc, fold_left parse_line lines acc = (acc ++ parse_lines lines)%list.
Proof.
  unfold parse_lines.
  induction lines as [|l lines IH]; intros acc; simpl.
  - symmetry. apply app_nil_r.
  - rewrite (IH (parse_line acc l)), (IH (parse_line [] l)).
    rewrite (parse_line_app acc l), app_assoc. reflexivity.
Qed.

Lemma parse_lines_app (l1 l2 : list string) :
  parse_lines (l1 ++ l2) = (parse_lines l1 ++ parse_lines l2)%list.
Proof.
  unfold parse_lines at 1. rewrite fold_left_app.
  apply fold_parse_line.
Qed.

Lemma parse_lines_one (line : string) :
  parse_lines [line] = parse_line [] line.
Proof. reflexivity. Qed.



Lemma eqb_neq_empty (s : string) : s <> "" -> String.eqb s "" = false.
Proof. intros H. apply String.eqb_neq. exact H. Qed.






(** ** The files that change detection produces *)

Ltac settle_previousPath :=
  unfold previousPath_iff_renamed; simpl; split; intros; congruence.

Lemma parse_line_one_invariant (line : string) :
  Forall previousPath_iff_renamed (parse_line [] line).
Proof.
  unfold parse_line.
  destruct (nth_error (split TAB line) 1) as [p|]; [|constructor].
  destruct (String.eqb p ""); [constructor|].
  destruct (startsWith _ "R").
  - destruct (nth_error (split TAB line) 2) as [q|]; [|constructor].
    destruct (String.eqb q ""); constructor; [|constructor].
    settle_previousPath.
  - constructor; [|constructor].
    destruct (String.eqb _ "A"); [settle_previousPath|].
    destruct (String.eqb _ "D"); [settle_previousPath|].
    destruct (_ || _); settle_previousPath.
Qed.

Lemma parse_lines_invariant (lines : list string) :
  Forall previousPath_iff_renamed (parse_lines lines).
Proof.
  induction lines as [|l lines IH]; [constructor|].
  change (l :: lines) with ([l] ++ lines)%list.
  rewrite parse_lines_app, parse_lines_one.
  apply Forall_app. split; [apply parse_line_one_invariant|exact IH].
Qed.

Lemma all_files_added_invariant (stdout : string) :
  Forall previousPath_iff_renamed (all_files_added stdout).
Proof.
  unfold all_files_added. apply Forall_forall. intros f Hf.
  apply in_map_iff in Hf as [p [<- _]].
  settle_previousPath.
Qed.

Lemma value_exec (w : World) (cmd : string) :
  value (exec w cmd) = execAsync w cmd.
Proof. reflexivity. Qed.

Lemma value_fetch_base_ref (w : World) : value (fetch_base_ref w) = Ok tt.
Proof.
  unfold fetch_base_ref.
  rewrite value_try_catch, value_bind, value_exec.
  destruct (execAsync w _); reflexivity.
Qed.

Lemma getChangedFilesFromGit_value (w : World) :
  value (getChangedFilesFromGit w) =
  match execAsync w (diffCommand w) with
  | Ok stdout => Ok (parseGitDiffNameStatus stdout)
  | Throw _ =>
      match execAsync w "git ls-files" with
      | Ok stdout => Ok (all_files_added stdout)
      | Throw e => Throw e
      end
  end.
Proof.
  unfold getChangedFilesFromGit. cbv zeta.
  rewrite value_bind.
  replace (value (if opt_is (env w "GITHUB_EVENT_NAME") "pull_request"
                  then fetch_base_ref w else ret tt)) with (Ok tt)
    by (destruct (opt_is _ _);
        [symmetry; apply value_fetch_base_ref|reflexivity]).
  rewrite value_emit_then, value_try_catch, value_bind, value_exec.
  destruct (execAsync w (diffCommand w)) as [stdout|e]; [reflexivity|].
  rewrite value_emit_then, value_bind, value_exec.
  destruct (execAsync w "git ls-files"); reflexivity.
Qed.

Lemma getChangedFilesFromGit_trace (w : World) (e : string) :
  execAsync w (diffCommand w) = Throw e ->
  In (Exec "git ls-files") (trace (getChangedFilesFromGit w)).
Proof.
  intros Hdiff. unfold getChangedFilesFromGit. cbv zeta.
  rewrite trace_bind. apply in_or_app. right.
  replace (value (if opt_is (env w "GITHUB_EVENT_NAME") "pull_request"
                  then fetch_base_ref w else ret tt)) with (Ok tt)
    by (destruct (opt_is _ _);
        [symmetry; apply value_fetch_base_ref|reflexivity]).
  rewrite trace_bind. apply in_or_app. right. simpl value. cbv iota.
  rewrite trace_try_catch. apply in_or_app. right.
  rewrite value_bind, value_exec, Hdiff.
  rewrite trace_bind. apply in_or_app. right. simpl value. cbv iota.
  rewrite trace_bind. apply in_or_app. left. left. reflexivity.
Qed.

Lemma compiles_iff (pats : list string) :
  compiles pats = true <-> Forall (fun p => p <> "") pats.
Proof.
  unfold compiles. rewrite forallb_forall, Forall_forall.
  split; intros H p Hp; specialize (H p Hp).
  - apply negb_true_iff in H. intros ->. discriminate.
  - apply negb_true_iff. destruct (String.eqb_spec p ""); congruence.
Qed.

Lemma isMatch_compiled (glob : Glob) (s : string) (pats : list string)
    (nocase : bool) :
  compiles pats = true ->
  isMatch glob s pats nocase = ret (some_match glob s pats nocase).
Proof. intros H. unfold isMatch. rewrite H. reflexivity. Qed.

Lemma filterFilesByPatterns_value (glob : Glob) (files : list ChangedFile)
    (inc exc : list string) (cs : bool) :
  compiles inc = true ->
  compiles exc = true ->
  value (filterFilesByPatterns glob files inc exc cs)
  = Ok (filter (fun f => some_match glob (path f) inc (negb cs)
                         && negb (some_match glob (path f) exc (negb cs)))
               files).
Proof.
  intros Hinc Hexc.
  unfold filterFilesByPatterns. apply value_filterM. intros f.
  rewrite !isMatch_compiled by assumption. rewrite value_bind. simpl value.
  destruct (some_match glob (path f) inc (negb cs)); simpl; [|reflexivity].
  destruct exc as [|e exc]; [reflexivity|].
  cbv beta iota delta [List.length Nat.ltb Nat.leb].
  destruct (some_match glob (path f) (e :: exc) (negb cs)); reflexivity.
Qed.

Lemma value_filterM_incl {A : Type} (p : A -> M bool) (xs : list A) :
  forall out, value (filterM p xs) = Ok out -> incl out xs.
Proof.
  induction xs as [|x xs IH]; simpl; intros out.
  - intros [= <-]. apply incl_refl.
  - rewrite value_bind. destruct (value (p x)) as [b|e]; [|discriminate].
    rewrite value_bind.
    destruct (value (filterM p xs)) as [rest|e]; [|discriminate].
    simpl. intros [= <-]. specialize (IH rest eq_refl).
    destruct b.
    + intros y [->|Hy]; [left; reflexivity|right; apply IH; exact Hy].
    + intros y Hy. right. apply IH. exact Hy.
Qed.

Lemma type_gate_value (n d : bool) (f : ChangedFile) :
  value (type_gate n d f)
  = Ok (negb (ChangeType_eqb (changeType f) added && negb n)
        && negb (ChangeType_eqb (changeType f) deleted && negb d)).
Proof.
  unfold type_gate.
  destruct (ChangeType_eqb (changeType f) added && negb n); [reflexivity|].
  destruct (ChangeType_eqb (changeType f) deleted && negb d); reflexivity.
Qed.

Lemma filter_filter {A : Type} (p q : A -> bool) (l : list A) :
  filter q (filter p l) = filter (fun x => p x && q x) l.
Proof.
  induction l as [|x l IH]; simpl; [reflexivity|].
  destruct (p x); simpl; [destruct (q x)|]; rewrite IH; reflexivity.
Qed.

(** [detectChangedFiles], stage by stage. *)
Lemma detectChangedFiles_stages (glob : Glob) (w : World)
    (options : FileDetectorOptions) :
  value (detectChangedFiles glob w options) =
  match value (getChangedFilesFromGit w) with
  | Ok files =>
      match value (filterFilesByPatterns glob files (patterns options)
                     (excludePatterns options) (caseSensitive options)) with
      | Ok matched =>
          Ok (filter (fun f =>
                        negb (ChangeType_eqb (changeType f) added
                              && negb (createOnNewFiles options))
                        && negb (ChangeType_eqb (changeType f) deleted
                                 && negb (createOnDeletedFiles options)))
                     matched)
      | Throw e => Throw e
      end
  | Throw e => Throw e
  end.
Proof.
  unfold detectChangedFiles. rewrite value_bind.
  destruct (value (getChangedFilesFromGit w)) as [files|e]; [|reflexivity].
  rewrite value_emit_then, value_bind, value_for_each by reflexivity.
  rewrite value_bind.
  destruct (value (filterFilesByPatterns glob files (patterns options)
                     (excludePatterns options) (caseSensitive options)))
    as [matched|e]; [|reflexivity].
  rewrite value_emit_then, value_bind.
  rewrite (value_filterM _ _ _ (type_gate_value _ _)). reflexivity.
Qed.

Lemma detectChangedFiles_value (glob : Glob) (w : World)
    (options : FileDetectorOptions) :
  compiles (patterns options) = true ->
  compiles (excludePatterns options) = true ->
  value (detectChangedFiles glob w options) =
  match value (getChangedFilesFromGit w) with
  | Ok files => Ok (filter (survives glob options) files)
  | Throw e => Throw e
  end.
Proof.
  intros Hinc Hexc. rewrite detectChangedFiles_stages.
  destruct (value (getChangedFilesFromGit w)) as [files|e]; [|reflexivity].
  rewrite filterFilesByPatterns_value by assumption.
  rewrite filter_filter. f_equal.
  apply filter_ext. intros f. unfold survives.
  rewrite <- !andb_assoc. reflexivity.
Qed.

(** Whatever the patterns are, the files that [detectChangedFiles]
    returns are among those that [getChangedFilesFromGit] returned. *)
Lemma detectChangedFiles_incl (glob : Glob) (w : World)
    (options : FileDetectorOptions) (out : list ChangedFile) :
  value (detectChangedFiles glob w options) = Ok out ->
  exists files, value (getChangedFilesFromGit w) = Ok files
                /\ incl out files.
Proof.
  rewrite detectChangedFiles_stages.
  destruct (value (getChangedFilesFromGit w)) as [files|e]; [|discriminate].
  destruct (value (filterFilesByPatterns glob files (patterns options)
                     (excludePatterns options) (caseSensitive options)))
    as [matched|e] eqn:Hm; [|discriminate].
  intros [= <-]. exists files. split; [reflexivity|].
  apply value_filterM_incl in Hm.
  intros f Hf. apply filter_In in Hf as [Hf _]. apply Hm. exact Hf.
Qed.

(** ** The listing of the tracked files *)

Lemma trimStart_clean (s : string) : first_char_ws s = false -> trimStart s = s.
Proof. destruct s as [|c s]; simpl; [reflexivity|]. intros ->. reflexivity. Qed.

Lemma trimEnd_clean (s : string) : last_char_ws s = false -> trimEnd s = s.
Proof.
  induction s as [|c s IH]; [reflexivity|].
  destruct s as [|d s].
  - simpl. intros ->. reflexivity.
  - intros H. change (last_char_ws (String c (String d s)))
      with (last_char_ws (String d s)) in H.
    change (trimEnd (String c (String d s)))
      with (match trimEnd (String d s) with
            | EmptyString => if is_ws c then EmptyString
                             else String c EmptyString
            | r => String c r
            end).
    rewrite (IH H). reflexivity.
Qed.

Lemma trimEnd_app_nl (s : string) : trimEnd (s ++ nl) = trimEnd s.
Proof.
  induction s as [|c s IH]; [reflexivity|].
  simpl. simpl in IH. rewrite IH. reflexivity.
Qed.

Lemma last_char_ws_app (a b : string) :
  b <> "" -> last_char_ws (a ++ b) = last_char_ws b.
Proof.
  intros Hb. induction a as [|c a IH]; [reflexivity|].
  simpl. destruct (a ++ b) eqn:E; [|exact IH].
  destruct a; simpl in E; [congruence|discriminate].
Qed.

Lemma listing_join (names : list string) :
  names <> [] -> listing names = join nl names ++ nl.
Proof.
  unfold listing.
  induction names as [|n names IH]; intros Hne; [congruence|].
  destruct names as [|m names].
  - simpl. reflexivity.
  - change (String.concat "" (map (fun name => name ++ nl) (n :: m :: names)))
      with ((n ++ nl) ++ "" ++
            String.concat "" (map (fun name => name ++ nl) (m :: names))).
    rewrite IH by discriminate.
    change (join nl (n :: m :: names)) with (n ++ nl ++ join nl (m :: names)).
    simpl. rewrite !str_app_assoc. reflexivity.
Qed.

Lemma join_last_char (names : list string) :
  Forall (fun name => name <> "") names ->
  last_char_ws (join nl names) = last_char_ws (last names "").
Proof.
  induction 1 as [|n names Hn Hall IH]; [reflexivity|].
  destruct names as [|m names]; [reflexivity|].
  change (join nl (n :: m :: names)) with (n ++ nl ++ join nl (m :: names)).
  change (last (n :: m :: names) "") with (last (m :: names) "").
  rewrite <- IH.
  rewrite last_char_ws_app by (simpl; discriminate).
  apply (last_char_ws_app nl).
  inversion Hall as [|? ? Hm _]; subst.
  destruct names; simpl; [exact Hm|].
  destruct m; [congruence|discriminate].
Qed.

Lemma first_char_ws_app (a b : string) :
  a <> "" -> first_char_ws (a ++ b) = first_char_ws a.
Proof. destruct a; [congruence|reflexivity]. Qed.

Lemma filter_nonempty (names : list string) :
  Forall (fun name => name <> "") names ->
  filter (fun line => (0 <? len line)%Z) names = names.
Proof.
  induction 1 as [|n names Hn _ IH]; simpl; [reflexivity|].
  rewrite IH. destruct n; [congruence|reflexivity].
Qed.

Lemma lines_of_listing (names : list string) :
  Forall (fun name => name <> "") names ->
  Forall (fun name => includes name LF = false) names ->
  first_char_ws (hd "" names) = false ->
  last_char_ws (last names "") = false ->
  lines_of (listing names) = names.
Proof.
  intros Hne Hlf Hfirst Hlast.
  destruct names as [|n names]; [reflexivity|].
  unfold lines_of, trim.
  rewrite listing_join by discriminate.
  rewrite trimStart_clean.
  - rewrite trimEnd_app_nl, trimEnd_clean
      by (rewrite join_last_char; assumption).
    rewrite (split_join LF) by (discriminate || assumption).
    apply filter_nonempty. exact Hne.
  - inversion Hne as [|? ? Hn _]; subst. simpl in Hfirst.
    destruct names as [|m names].
    + change (join nl [n]) with n.
      rewrite first_char_ws_app; assumption.
    + change (join nl (n :: m :: names))
        with (n ++ nl ++ join nl (m :: names)).
      rewrite str_app_assoc, first_char_ws_app; assumption.
Qed.

(** C9. Every file that change detection produces, by parsing the
    name-status listing or by the listing of all tracked files, and so every
    file that [getChangedFilesFromGit] and [detectChangedFiles] return, has
    a [previousPath] if and only if its [changeType] is [renamed]. *)
Theorem change_detection_previousPath :
  (forall output : string,
     Forall (fun f => previousPath f <> None <-> changeType f = renamed)
            (parseGitDiffNameStatus output))
  /\ (forall stdout : string,
        Forall (fun f => previousPath f <> None <-> changeType f = renamed)
               (all_files_added stdout))
  /\ (forall (w : World) (files : list ChangedFile),
        value (getChangedFilesFromGit w) = Ok files ->
        Forall (fun f => previousPath f <> None <-> changeType f = renamed)
               files)
  /\ (forall (glob : Glob) (w : World) (options : FileDetectorOptions)
             (files : list ChangedFile),
        value (detectChangedFiles glob w options) = Ok files ->
        Forall (fun f => previousPath f <> None <-> changeType f = renamed)
               files).
Proof.
  assert (Hgit : forall w files,
             value (getChangedFilesFromGit w) = Ok files ->
             Forall previousPath_iff_renamed files).
  { intros w files. rewrite getChangedFilesFromGit_value.
    destruct (execAsync w (diffCommand w)) as [stdout|e].
    - intros [= <-]. apply parse_lines_invariant.
    - destruct (execAsync w "git ls-files") as [stdout|e'];
        [|discriminate].
      intros [= <-]. apply all_files_added_invariant. }
  split; [|split; [|split]].
  - intros output. apply parse_lines_invariant.
  - apply all_files_added_invariant.
  - exact Hgit.
  - intros glob w options files Hout.
    destruct (detectChangedFiles_incl glob w options files Hout)
      as [fs [Hv Hincl]].
    apply Forall_forall. intros f Hf.
    pose proof (Hgit w fs Hv) as Hall.
    rewrite Forall_forall in Hall. exact (Hall f (Hincl f Hf)).
Qed.

(** C9 on the files of a first commit. *)
Lemma change_detection_previousPath_witness :
  Forall (fun f => previousPath f <> None <-> changeType f = renamed)
    [ {| path := "README.md"; changeType := added; previousPath := None |};
      {| path := "docs/api-specification.md"; changeType := added;
         previousPath := None |} ].
Proof.
  exact (proj1 (proj2 (proj2 change_detection_previousPath))
           world_initial_commit _ eq_refl).
Defined.

(** C5, as the code has it.  When the name-status comparison fails and
    the listing of the tracked files answers, [getChangedFilesFromGit]
    runs [git ls-files] and returns, without an error, one entry per
    non-empty line of the trimmed listing, each [added] and without
    [previousPath].  For a listing that prints one tracked file per line
    (names that are not empty, hold no line feed, and neither start nor
    end the listing with white space) these are the tracked files, each
    once and in the order of the listing. *)
Theorem getChangedFilesFromGit_fallback
    (w : World) (e stdout : string) :
  execAsync w (diffCommand w) = Throw e ->
  execAsync w "git ls-files" = Ok stdout ->
  value (getChangedFilesFromGit w)
  = Ok (map (fun p => {| path := p; changeType := added;
                         previousPath := None |})
            (filter (fun line => (0 <? len line)%Z)
                    (split LF (trim stdout))))
  /\ In (Exec "git ls-files") (trace (getChangedFilesFromGit w))
  /\ (forall files : list ChangedFile,
        value (getChangedFilesFromGit w) = Ok files ->
        Forall (fun f => changeType f = added /\ previousPath f = None)
               files)
  /\ (forall names : list string,
        Forall (fun name => name <> "") names ->
        Forall (fun name => includes name LF = false) names ->
        first_char_ws (hd "" names) = false ->
        last_char_ws (last names "") = false ->
        stdout = listing names ->
        value (getChangedFilesFromGit w)
        = Ok (map (fun p => {| path := p; changeType := added;
                               previousPath := None |})
                  names)).
Proof.
  intros Hdiff Hls.
  assert (Hv : value (getChangedFilesFromGit w)
               = Ok (all_files_added stdout))
    by (rewrite getChangedFilesFromGit_value, Hdiff, Hls; reflexivity).
  split; [exact Hv|]. split; [|split].
  - exact (getChangedFilesFromGit_trace w e Hdiff).
  - intros files. rewrite Hv. intros [= <-].
    unfold all_files_added. apply Forall_forall. intros f Hf.
    apply in_map_iff in Hf as [p [<- _]]. split; reflexivity.
  - intros names Hne Hlf Hfirst Hlast ->. rewrite Hv.
    unfold all_files_added.
    rewrite (lines_of_listing names Hne Hlf Hfirst Hlast). reflexivity.
Qed.

(** C5 on a first commit with two tracked files. *)
Lemma getChangedFilesFromGit_fallback_witness :
  value (getChangedFilesFromGit world_initial_commit)
  = Ok [ {| path := "README.md"; changeType := added;
            previousPath := None |};
         {| path := "docs/api-specification.md"; changeType := added;
            previousPath := None |} ].
Proof.
  exact (proj1 (getChangedFilesFromGit_fallback world_initial_commit
                  "Error: Command failed: unknown revision HEAD~1"
                  ("README.md" ++ nl ++ "docs/api-specification.md" ++ nl)
                  eq_refl eq_refl)).
Defined.

(** C5 as worded does not hold: when the listing of the tracked
    files fails as well, its error leaves [getChangedFilesFromGit]. *)
Lemma listing_failure_propagates :
  execAsync world_no_git (diffCommand world_no_git)
  = Throw "Error: Command failed"
  /\ value (getChangedFilesFromGit world_no_git)
     = Throw "Error: Command failed".
Proof. split; reflexivity. Qed.

(** ** A diff that ends in a line feed *)

Lemma join_snoc1 (s : string) (l : list string) (a : string) :
  l <> [] -> join s (l ++ [a])%list = join s l ++ s ++ a.
Proof.
  induction l as [|x l IH]; intros Hne; [congruence|].
  destruct l as [|y l].
  - reflexivity.
  - change (join s ((x :: y :: l) ++ [a])%list)
      with (x ++ s ++ join s ((y :: l) ++ [a])%list).
    rewrite IH by discriminate.
    change (join s (x :: y :: l)) with (x ++ s ++ join s (y :: l)).
    rewrite !str_app_assoc. reflexivity.
Qed.

Lemma split_listing (ls : list string) :
  ls <> [] ->
  Forall (fun l => includes l LF = false) ls ->
  split LF (listing ls) = (ls ++ [EmptyString])%list.
Proof.
  intros Hne Hlf.
  assert (Hjoin : listing ls = join nl (ls ++ [EmptyString])%list).
  { rewrite listing_join, join_snoc1 by assumption. reflexivity. }
  rewrite Hjoin. unfold nl. apply split_join.
  - intros Heq. apply app_eq_nil in Heq as [_ Heq]. discriminate.
  - apply Forall_app. split; [exact Hlf|repeat constructor].
Qed.

(** C1. The claim does not hold of the code for a diff as git prints
    it, every line ended by a line feed: [processDiffOutput] counts the
    empty text after the last line feed as a line.  A diff of [n] lines
    cut at [maxLines = n] is so marked truncated, although its line count
    does not exceed [maxLines]: all its lines are kept, the note says that
    one more line was left out, and [lineCount] is [n + 1]. *)
Theorem processDiffOutput_counts_after_final_LF
    (f : ChangedFile) (ls : list string) :
  ls <> [] ->
  Forall (fun l => includes l LF = false) ls ->
  split LF (listing ls) = (ls ++ [EmptyString])%list
  /\ processDiffOutput f (listing ls) (Z.of_nat (List.length ls))
     = (Ok {| file := f;
              diff := listing ls ++ nl ++ "... (diff truncated, 1 more lines)";
              truncated := true;
              lineCount := Z.of_nat (List.length ls) + 1 |},
        [Debug ("Diff for " ++ path f ++ " truncated from "
                ++ dec (Z.of_nat (List.length ls) + 1) ++ " to "
                ++ dec (Z.of_nat (List.length ls)) ++ " lines")]).
Proof.
  intros Hne Hlf. split; [apply split_listing; assumption|].
  unfold processDiffOutput. rewrite (split_listing ls Hne Hlf).
  cbv zeta. rewrite length_app. simpl List.length.
  replace (Z.of_nat (List.length ls + 1)) with (Z.of_nat (List.length ls) + 1)%Z
    by lia.
  destruct (Z.ltb_spec (Z.of_nat (List.length ls))
              (Z.of_nat (List.length ls) + 1)) as [_|H]; [|lia].
  assert (Hslice : slice0 (ls ++ [EmptyString])%list
                     (Z.of_nat (List.length ls)) = ls).
  { rewrite slice0_firstn by (rewrite length_app; simpl; lia).
    rewrite Nat2Z.id, firstn_app, firstn_all, Nat.sub_diag.
    simpl. apply app_nil_r. }
  rewrite Hslice.
  replace (Z.of_nat (List.length ls) + 1 - Z.of_nat (List.length ls))%Z
    with 1%Z by lia.
  rewrite <- app_assoc. simpl app.
  rewrite join_snoc2 by assumption.
  rewrite (listing_join ls Hne), !str_app_assoc. reflexivity.
Qed.

(** C1 on a diff of two lines with [maxLines = 2]. *)
Lemma processDiffOutput_counts_after_final_LF_witness :
  split LF ("a" ++ nl ++ "b" ++ nl) = ["a"; "b"; ""]
  /\ processDiffOutput sample_file ("a" ++ nl ++ "b" ++ nl) 2
     = (Ok {| file := sample_file;
              diff := "a" ++ nl ++ "b" ++ nl ++ nl
                      ++ "... (diff truncated, 1 more lines)";
              truncated := true;
              lineCount := 3 |},
        [Debug "Diff for docs/x-specification.md truncated from 3 to 2 lines"]).
Proof.
  apply (processDiffOutput_counts_after_final_LF sample_file ["a"; "b"]).
  - discriminate.
  - repeat constructor.
Defined.

(** ** Filtering the changed files *)

Lemma ChangeType_eqb_eq (a b : ChangeType) :
  ChangeType_eqb a b = true <-> a = b.
Proof. destruct a, b; simpl; split; intros; congruence. Qed.

Lemma gate_off_iff (c t : ChangeType) (toggle : bool) :
  negb (ChangeType_eqb c t && negb toggle) = true
  <-> ~ (c = t /\ toggle = false).
Proof.
  rewrite negb_true_iff, andb_false_iff, negb_false_iff.
  split.
  - intros [H|H] [Hc Ht]; [|congruence].
    apply ChangeType_eqb_eq in Hc. congruence.
  - intros H. destruct toggle; [right; reflexivity|left].
    destruct (ChangeType_eqb c t) eqn:E; [|reflexivity].
    exfalso. apply H. split; [apply ChangeType_eqb_eq; exact E|reflexivity].
Qed.

Lemma some_match_false_iff (glob : Glob) (s : string) (pats : list string)
    (nocase : bool) :
  some_match glob s pats nocase = false
  <-> forall p, In p pats -> glob nocase p s = false.
Proof.
  unfold some_match. split.
  - intros H p Hp.
    destruct (glob nocase p s) eqn:E; [|reflexivity].
    assert (existsb (fun p => glob nocase p s) pats = true)
      by (apply existsb_exists; exists p; split; assumption).
    congruence.
  - intros H.
    destruct (existsb (fun p => glob nocase p s) pats) eqn:E; [|reflexivity].
    apply existsb_exists in E as [p [Hp Hm]].
    rewrite (H p Hp) in Hm. discriminate.
Qed.

(** C2. With include and exclude patterns none of which is the empty
    string, a file survives the filtering of [detectChangedFiles] if and
    only if its path matches at least one include pattern, matches no
    exclude pattern, and its change type is not switched off: an added file
    needs [createOnNewFiles], a deleted file [createOnDeletedFiles].  A
    renamed or modified file is kept or dropped by the patterns alone.
    [detectChangedFiles] then returns the survivors among the detected
    files, in their order, and throws only the error of the detection. *)
Theorem detectChangedFiles_survivors
    (glob : Glob) (w : World) (options : FileDetectorOptions) :
  Forall (fun p => p <> "") (patterns options) ->
  Forall (fun p => p <> "") (excludePatterns options) ->
  let nocase := negb (caseSensitive options) in
  let keep (f : ChangedFile) : Prop :=
    (exists p, In p (patterns options) /\ glob nocase p (path f) = true)
    /\ (forall p, In p (excludePatterns options) ->
                  glob nocase p (path f) = false)
    /\ ~ (changeType f = added /\ createOnNewFiles options = false)
    /\ ~ (changeType f = deleted /\ createOnDeletedFiles options = false) in
  (forall f, survives glob options f = true <-> keep f)
  /\ (forall f, changeType f = renamed \/ changeType f = modified ->
        (survives glob options f = true <->
         (exists p, In p (patterns options) /\ glob nocase p (path f) = true)
         /\ (forall p, In p (excludePatterns options) ->
                       glob nocase p (path f) = false)))
  /\ (forall files : list ChangedFile,
        value (matchedFiles <-
                 filterFilesByPatterns glob files (patterns options)
                   (excludePatterns options) (caseSensitive options) ;;
               filterM (type_gate (createOnNewFiles options)
                                  (createOnDeletedFiles options))
                       matchedFiles)
        = Ok (filter (survives glob options) files))
  /\ value (detectChangedFiles glob w options)
     = match value (getChangedFilesFromGit w) with
       | Ok files => Ok (filter (survives glob options) files)
       | Throw e => Throw e
       end
  /\ (forall files out f,
        value (getChangedFilesFromGit w) = Ok files ->
        value (detectChangedFiles glob w options) = Ok out ->
        (In f out <-> In f files /\ keep f)).
Proof.
  intros Hinc Hexc nocase keep.
  apply compiles_iff in Hinc. apply compiles_iff in Hexc.
  assert (Hkeep : forall f, survives glob options f = true <-> keep f).
  { intros f. unfold survives, keep. fold nocase.
    rewrite !andb_true_iff, negb_true_iff, some_match_false_iff,
      !gate_off_iff.
    unfold some_match. rewrite existsb_exists. tauto. }
  split; [exact Hkeep|]. split; [|split; [|split]].
  - intros f Hf. rewrite Hkeep. unfold keep.
    assert (changeType f <> added /\ changeType f <> deleted)
      by (destruct Hf as [-> | ->]; split; discriminate).
    tauto.
  - intros files.
    rewrite value_bind, filterFilesByPatterns_value by assumption.
    rewrite (value_filterM _ _ _ (type_gate_value _ _)).
    rewrite filter_filter. f_equal.
    apply filter_ext. intros f. unfold survives.
    rewrite <- !andb_assoc. reflexivity.
  - apply detectChangedFiles_value; assumption.
  - intros files out f Hfiles.
    rewrite detectChangedFiles_value, Hfiles by assumption.
    intros [= <-]. rewrite filter_In, Hkeep. reflexivity.
Qed.

(** C2 on a push of five files: of the files under [docs/] the draft is
    excluded and the added file is switched off; the renamed file is
    kept. *)
Lemma detectChangedFiles_survivors_witness :
  value (detectChangedFiles glob_prefix world_mixed_push sample_options)
  = Ok [ {| path := "docs/api.md"; changeType := modified;
            previousPath := None |};
         {| path := "docs/new.md"; changeType := renamed;
            previousPath := Some "docs/old.md" |} ].
Proof.
  destruct (detectChangedFiles_survivors glob_prefix world_mixed_push
              sample_options)
    as [_ [_ [_ [H _]]]].
  - repeat constructor; discriminate.
  - repeat constructor; discriminate.
  - rewrite H. reflexivity.
Defined.

(** C2 as worded does not hold for every list of patterns: micromatch
    refuses an empty pattern, and [detectChangedFiles] then throws although
    the detection returned files. *)
Lemma empty_pattern_refused :
  patterns options_empty_pattern <> []
  /\ (exists files, value (getChangedFilesFromGit world_mixed_push) = Ok files
                    /\ files <> [])
  /\ value (detectChangedFiles glob_prefix world_mixed_push
              options_empty_pattern)
     = Throw "TypeError: Expected pattern to be a non-empty string".
Proof.
  split; [discriminate|]. split; [|reflexivity].
  eexists. split; [reflexivity|discriminate].
Qed.

(** ** The template context and its links *)

Import TemplateRenderer.

Lemma str_app_not_empty (a b : string) : b <> "" -> a ++ b <> "".
Proof. destruct a; simpl; [auto|discriminate]. Qed.

(** C8, as the code has it.  Each of [file_link], [commit_link] and
    [pr_link] is empty when its inclusion flag is false, and [pr_link] is
    empty as well when the context has no PR number.  With its flag set,
    [file_link] is [{server}/{repository}/blob/{sha}/{path}] and
    [commit_link] is [{server}/{repository}/commit/{sha}], whether or not a
    commit SHA is known (an unknown SHA leaves its segment empty, and the
    link is not empty); with its flag set and a PR number, [pr_link] is
    [{server}/{repository}/pull/{number}]. *)
Theorem buildTemplateContext_links
    (w : World) (fileDiff : FileDiff) (baseContext : Partial.t)
    (options : RenderOptions) :
  let c := buildTemplateContext w fileDiff baseContext options in
  let server := or_else (env w "GITHUB_SERVER_URL") "https://github.com" in
  let repository := or_else (env w "GITHUB_REPOSITORY") "" in
  let sha :=
    or_else (or_opt (Partial.commit_sha baseContext) (env w "GITHUB_SHA"))
            "" in
  let number := or_else (Partial.pr_number baseContext) "" in
  (includeFileLink options = false -> file_link c = "")
  /\ (includeCommitLink options = false -> commit_link c = "")
  /\ (includePrLink options = false -> pr_link c = "")
  /\ (number = "" -> pr_link c = "")
  /\ (includeFileLink options = true ->
      file_link c
      = server ++ "/" ++ repository ++ "/blob/" ++ sha ++ "/"
          ++ path (file fileDiff)
      /\ file_link c <> "")
  /\ (includeCommitLink options = true ->
      commit_link c = server ++ "/" ++ repository ++ "/commit/" ++ sha
      /\ commit_link c <> "")
  /\ (includePrLink options = true -> number <> "" ->
      pr_link c = server ++ "/" ++ repository ++ "/pull/" ++ number).
Proof.
  intros c server repository sha number.
  unfold c, buildTemplateContext, getRepoUrl. simpl.
  fold server. fold repository. fold sha. fold number.
  repeat match goal with |- _ /\ _ => split end.
  - intros ->. reflexivity.
  - intros ->. reflexivity.
  - intros ->. reflexivity.
  - intros ->. rewrite andb_false_r. reflexivity.
  - intros ->. rewrite !str_app_assoc. split; [reflexivity|].
    apply str_app_not_empty. discriminate.
  - intros ->. rewrite !str_app_assoc. split; [reflexivity|].
    apply str_app_not_empty. discriminate.
  - intros -> Hn. rewrite (eqb_neq_empty _ Hn), !str_app_assoc. reflexivity.
Qed.

(** C8 on the pull request of the test suite. *)
Lemma buildTemplateContext_links_witness :
  pr_link (buildTemplateContext (world_test_repo (Some "abc1234567890"))
             sample_diff context_pr_42 (sample_render_options "" ""))
  = "https://github.com/test-org/test-repo/pull/42".
Proof.
  exact (proj2 (proj2 (proj2 (proj2 (proj2 (proj2
           (buildTemplateContext_links
              (world_test_repo (Some "abc1234567890"))
              sample_diff context_pr_42 (sample_render_options "" "")))))))
         eq_refl ltac:(discriminate)).
Defined.

(** C8 as worded does not hold: without any commit SHA, in the
    context and in the environment, [file_link] and [commit_link] are
    still built. *)
Lemma links_built_without_sha :
  Partial.commit_sha Partial.empty = None
  /\ env (world_test_repo None) "GITHUB_SHA" = None
  /\ file_link (buildTemplateContext (world_test_repo None) sample_diff
                  Partial.empty (sample_render_options "" ""))
     = "https://github.com/test-org/test-repo/blob//docs/x-specification.md"
  /\ commit_link (buildTemplateContext (world_test_repo None) sample_diff
                    Partial.empty (sample_render_options "" ""))
     = "https://github.com/test-org/test-repo/commit/"
  /\ file_link (buildTemplateContext (world_test_repo None) sample_diff
                  Partial.empty (sample_render_options "" "")) <> "".
Proof. repeat split. discriminate. Qed.

(** ** Rendering twice *)

Lemma or_else_truthy (a : option string) (b : string) :
  truthy a = true -> or_else a b = interp a.
Proof.
  destruct a as [s|]; simpl; [|discriminate].
  destruct (String.eqb s ""); [discriminate|reflexivity].
Qed.

Lemma buildTemplateContext_at_time
    (w : World) (t : string) (fileDiff : FileDiff) (baseContext : Partial.t)
    (options : RenderOptions) :
  truthy (Partial.commit_date baseContext) = true ->
  buildTemplateContext (at_time w t) fileDiff baseContext options
  = buildTemplateContext w fileDiff baseContext options.
Proof.
  intros Hd. unfold buildTemplateContext, getRepoUrl. simpl.
  rewrite !(or_else_truthy _ _ Hd). reflexivity.
Qed.

(** C7, as the code has it.  In one environment (variables, working
    directory, files), two calls of [renderIssue] with the same file diff,
    the same options and the same partial context give the same result,
    title and body, whatever the clock reads at each call, provided the
    context carries a commit date that is not empty. *)
Theorem renderIssue_twice
    (hb : Handlebars) (w : World) (t1 t2 : string)
    (fileDiff : FileDiff) (options : RenderOptions) (context : Partial.t) :
  truthy (Partial.commit_date context) = true ->
  renderIssue hb (at_time w t1) fileDiff options context
  = renderIssue hb (at_time w t2) fileDiff options context.
Proof.
  intros Hd. unfold renderIssue.
  rewrite !(buildTemplateContext_at_time _ _ _ _ _ Hd). reflexivity.
Qed.

(** C7 on a dated context, a millisecond apart. *)
Lemma renderIssue_twice_witness :
  renderIssue HandlebarsFragment.render
    (at_time (world_test_repo None) "2025-12-01T00:00:00.000Z")
    sample_diff
    (sample_render_options "{{ commit_date }}" "Date: {{ commit_date }}")
    context_dated
  = renderIssue HandlebarsFragment.render
      (at_time (world_test_repo None) "2025-12-01T00:00:00.001Z")
      sample_diff
      (sample_render_options "{{ commit_date }}" "Date: {{ commit_date }}")
      context_dated.
Proof.
  exact (renderIssue_twice HandlebarsFragment.render (world_test_repo None)
           "2025-12-01T00:00:00.000Z" "2025-12-01T00:00:00.001Z"
           sample_diff
           (sample_render_options "{{ commit_date }}"
              "Date: {{ commit_date }}")
           context_dated eq_refl).
Defined.

(** C7 as worded does not hold: with a context that has no commit
    date, the date rendered is the time of the call, and two calls a
    millisecond apart differ. *)
Lemma renderIssue_depends_on_clock :
  value (renderIssue HandlebarsFragment.render
           (at_time (world_test_repo None) "2025-12-01T00:00:00.000Z")
           sample_diff
           (sample_render_options "{{ commit_date }}"
              "Date: {{ commit_date }}")
           Partial.empty)
  = Ok {| title := "2025-12-01T00:00:00.000Z";
          body := "Date: 2025-12-01T00:00:00.000Z" |}
  /\ value (renderIssue HandlebarsFragment.render
              (at_time (world_test_repo None) "2025-12-01T00:00:00.001Z")
              sample_diff
              (sample_render_options "{{ commit_date }}"
                 "Date: {{ commit_date }}")
              Partial.empty)
     = Ok {| title := "2025-12-01T00:00:00.001Z";
             body := "Date: 2025-12-01T00:00:00.001Z" |}
  /\ renderIssue HandlebarsFragment.render
       (at_time (world_test_repo None) "2025-12-01T00:00:00.000Z")
       sample_diff
       (sample_render_options "{{ commit_date }}" "Date: {{ commit_date }}")
       Partial.empty
     <> renderIssue HandlebarsFragment.render
          (at_time (world_test_repo None) "2025-12-01T00:00:00.001Z")
          sample_diff
          (sample_render_options "{{ commit_date }}"
             "Date: {{ commit_date }}")
          Partial.empty.
Proof.
  split; [reflexivity|]. split; [reflexivity|].
  vm_compute. discriminate.
Qed.

(** ** The body template and the repository root *)

Lemma looks_like_path_split (templateInput : string) :
  looks_like_path templateInput = true ->
  (String.eqb templateInput "" || String.eqb (trim templateInput) "") = false
  /\ (endsWith templateInput ".md" || includes templateInput SLASH) = true.
Proof.
  unfold looks_like_path. rewrite andb_true_iff, negb_true_iff. tauto.
Qed.

(** A path whose text does not start with the text of the root is
    rejected: nothing is read, the default template is returned and a
    warning is logged. *)
Lemma resolveBodyTemplate_rejected (w : World) (templateInput : string) :
  looks_like_path templateInput = true ->
  startsWith (Path.resolve (cwd w) templateInput) (cwd w) = false ->
  resolveBodyTemplate w templateInput
  = (Ok DEFAULT_TEMPLATE,
     [Warning ("Template path resolves outside repo root: "
               ++ Path.resolve (cwd w) templateInput
               ++ ". Using default template.")]).
Proof.
  intros Hp Hs. apply looks_like_path_split in Hp as [H1 H2].
  unfold resolveBodyTemplate. rewrite H1, H2. cbv zeta. rewrite Hs.
  reflexivity.
Qed.

(** A path that passes the test of the root and names no file gives the
    default template and a warning. *)
Lemma resolveBodyTemplate_not_found (w : World) (templateInput : string) :
  looks_like_path templateInput = true ->
  startsWith (Path.resolve (cwd w) templateInput) (cwd w) = true ->
  existsSync w (Path.resolve (cwd w) templateInput) = false ->
  resolveBodyTemplate w templateInput
  = (Ok DEFAULT_TEMPLATE,
     [Warning ("Template file not found: "
               ++ Path.resolve (cwd w) templateInput
               ++ ", using default template")]).
Proof.
  intros Hp Hs He. apply looks_like_path_split in Hp as [H1 H2].
  unfold resolveBodyTemplate. rewrite H1, H2. cbv zeta. rewrite Hs, He.
  reflexivity.
Qed.

(** What the test of the root does guarantee: the only file that
    [resolveBodyTemplate] ever reads is the resolved template path, and
    only when the text of that path starts with the text of the root. *)
Lemma resolveBodyTemplate_reads_only_prefixed
    (w : World) (templateInput p : string) :
  In (ReadFile p) (trace (resolveBodyTemplate w templateInput)) ->
  p = Path.resolve (cwd w) templateInput
  /\ startsWith p (cwd w) = true
  /\ looks_like_path templateInput = true.
Proof.
  unfold resolveBodyTemplate, looks_like_path.
  destruct (String.eqb templateInput "" || String.eqb (trim templateInput) "");
    [intros []|].
  destruct (endsWith templateInput ".md" || includes templateInput SLASH);
    [|intros []].
  cbv zeta.
  destruct (startsWith (Path.resolve (cwd w) templateInput) (cwd w)) eqn:Hs.
  - destruct (existsSync w (Path.resolve (cwd w) templateInput)).
    + unfold read_file, try_catch, bind, emit, ret. simpl.
      destruct (readFileSync w (Path.resolve (cwd w) templateInput)); simpl;
        intros [H|[H|H]]; try discriminate; try contradiction;
        try (destruct H as [H|H]; [discriminate|contradiction]);
        injection H as <-; repeat split; assumption.
    + simpl. intros [H|[]]. discriminate.
  - simpl. intros [H|[]]. discriminate.
Qed.

(** C4 on the code: a template path that leaves the repository root for
    a directory whose name starts with the name of the root passes the
    test of [resolveBodyTemplate], and the file outside the root is read
    and returned, without a warning. *)
Theorem resolveBodyTemplate_reads_sibling_directory :
  looks_like_path "../repo-private/issue.md" = true
  /\ Path.resolve (cwd world_sibling_directory) "../repo-private/issue.md"
     = "/work/repo-private/issue.md"
  /\ Path.inside (cwd world_sibling_directory)
       "/work/repo-private/issue.md" = false
  /\ resolveBodyTemplate world_sibling_directory "../repo-private/issue.md"
     = (Ok "PRIVATE: {{ commit_message }}",
        [Debug "Loading template from file: /work/repo-private/issue.md";
         ReadFile "/work/repo-private/issue.md"]).
Proof. repeat split. Qed.

(** * Further properties of the code *)

(** ** More facts about the string primitives *)

Lemma first_char_ws_trimStart (s : string) :
  first_char_ws (trimStart s) = false.
Proof.
  induction s as [|c s IH]; simpl; [reflexivity|].
  destruct (is_ws c) eqn:E; [exact IH|]. simpl. exact E.
Qed.

Lemma last_char_ws_trimEnd (s : string) : last_char_ws (trimEnd s) = false.
Proof.
  induction s as [|c s IH]; simpl; [reflexivity|].
  destruct (trimEnd s) as [|d r].
  - destruct (is_ws c) eqn:E; simpl; [reflexivity|exact E].
  - exact IH.
Qed.

Lemma first_char_ws_trimEnd (s : string) :
  first_char_ws s = false -> first_char_ws (trimEnd s) = false.
Proof.
  destruct s as [|c s]; simpl; [reflexivity|]. intros Hc.
  destruct (trimEnd s); [rewrite Hc|]; simpl; [exact Hc|exact Hc].
Qed.

Lemma trim_clean (s : string) :
  first_char_ws (trim s) = false /\ last_char_ws (trim s) = false.
Proof.
  unfold trim. split.
  - apply first_char_ws_trimEnd, first_char_ws_trimStart.
  - apply last_char_ws_trimEnd.
Qed.

Lemma trim_fixed (s : string) :
  first_char_ws s = false -> last_char_ws s = false -> trim s = s.
Proof.
  intros Hf Hl. unfold trim.
  rewrite (trimStart_clean s Hf). apply trimEnd_clean. exact Hl.
Qed.

Lemma trim_idempotent (s : string) : trim (trim s) = trim s.
Proof. destruct (trim_clean s) as [Hf Hl]. apply trim_fixed; assumption. Qed.

Lemma trim_fixed_iff (s : string) :
  trim s = s <-> first_char_ws s = false /\ last_char_ws s = false.
Proof.
  split.
  - intros <-. apply trim_clean.
  - intros [Hf Hl]. apply trim_fixed; assumption.
Qed.

Lemma includes_trimStart (s : string) (c : ascii) :
  includes s c = false -> includes (trimStart s) c = false.
Proof.
  induction s as [|d s IH]; simpl; [reflexivity|]. intros H.
  apply orb_false_iff in H as [Hd Hs].
  destruct (is_ws d); [exact (IH Hs)|]. simpl. rewrite Hd, Hs. reflexivity.
Qed.

Lemma includes_trimEnd (s : string) (c : ascii) :
  includes s c = false -> includes (trimEnd s) c = false.
Proof.
  induction s as [|d s IH]; simpl; [reflexivity|]. intros H.
  apply orb_false_iff in H as [Hd Hs].
  specialize (IH Hs).
  destruct (trimEnd s) as [|e r].
  - destruct (is_ws d); simpl; [reflexivity|]. rewrite Hd. reflexivity.
  - simpl. simpl in IH. rewrite Hd, IH. reflexivity.
Qed.

Lemma includes_trim (s : string) (c : ascii) :
  includes s c = false -> includes (trim s) c = false.
Proof. intros H. apply includes_trimEnd, includes_trimStart, H. Qed.

Lemma split_parts_without (sep c : ascii) (s : string) :
  includes s c = false ->
  Forall (fun part => includes part c = false) (split sep s).
Proof.
  induction s as [|d s IH]; simpl; intros H.
  - repeat constructor.
  - apply orb_false_iff in H as [Hd Hs]. specialize (IH Hs).
    destruct (Ascii.eqb d sep).
    + constructor; [reflexivity|exact IH].
    + destruct (split sep s) as [|h t].
      * repeat constructor. simpl. rewrite Hd. reflexivity.
      * inversion IH as [|? ? Hh Ht]; subst.
        constructor; [simpl; rewrite Hd, Hh; reflexivity|exact Ht].
Qed.

Lemma len_pos_not_empty (s : string) : (0 <? len s)%Z = true <-> s <> "".
Proof.
  destruct s; unfold len; simpl; split; intros; try congruence;
    try discriminate; reflexivity.
Qed.

Lemma truthy_Some (s : string) : truthy (Some s) = true <-> s <> "".
Proof.
  simpl. rewrite negb_true_iff. apply String.eqb_neq.
Qed.

Lemma join_not_empty (sep : string) (p : string) (rest : list string) :
  p <> "" -> join sep (p :: rest) <> "".
Proof.
  intros Hp. destruct rest as [|q rest]; [exact Hp|].
  change (join sep (p :: q :: rest)) with (p ++ sep ++ join sep (q :: rest)).
  destruct p; [congruence|discriminate].
Qed.

Lemma map_fixed {A : Type} (f : A -> A) (l : list A) :
  Forall (fun x => f x = x) l -> map f l = l.
Proof.
  induction 1 as [|x l Hx _ IH]; simpl; [reflexivity|].
  rewrite Hx, IH. reflexivity.
Qed.

(** ** The patterns of the action inputs *)

(** X1. Whatever the two inputs are, [parsePatterns] yields no empty
    pattern; and the patterns read from the multi-line input are trimmed
    and hold no line feed. *)
Theorem parsePatterns_clean (singlePattern multiPattern : option string) :
  Forall (fun p => p <> "") (parsePatterns singlePattern multiPattern)
  /\ (truthy multiPattern = true ->
      Forall (fun p => trim p = p /\ includes p LF = false)
             (parsePatterns singlePattern multiPattern)).
Proof.
  unfold parsePatterns.
  destruct (truthy multiPattern) eqn:Hm.
  - split; [|intros _]; apply Forall_forall; intros p Hp;
      apply filter_In in Hp as [Hp Hlen].
    + apply len_pos_not_empty. exact Hlen.
    + apply in_map_iff in Hp as [x [<- Hx]]. split.
      * apply trim_idempotent.
      * apply includes_trim.
        pose proof (split_no_sep LF (interp multiPattern)) as Hall.
        rewrite Forall_forall in Hall. exact (Hall x Hx).
  - split; [|discriminate].
    destruct singlePattern as [s|]; simpl; [|constructor].
    destruct (String.eqb s "") eqn:E; simpl; constructor; [|constructor].
    apply String.eqb_neq. exact E.
Qed.

(** X2. Patterns written one per line are read back as they are: for a
    list of patterns that are not empty, hold no line feed and are trimmed,
    [parsePatterns] of their lines is the list itself, whatever the
    single-pattern input is. *)
Theorem parsePatterns_lines (singlePattern : option string)
    (pats : list string) :
  pats <> [] ->
  Forall (fun p => p <> "" /\ includes p LF = false /\ trim p = p) pats ->
  parsePatterns singlePattern (Some (join nl pats)) = pats.
Proof.
  intros Hne Hall. unfold parsePatterns.
  destruct pats as [|p pats]; [congruence|].
  assert (Hp : p <> "") by (inversion Hall; tauto).
  rewrite (proj2 (truthy_Some _) (join_not_empty nl p pats Hp)).
  unfold interp.
  rewrite (split_join LF); [|discriminate|].
  - rewrite map_fixed.
    + apply filter_nonempty. eapply Forall_impl; [|exact Hall].
      simpl. tauto.
    + eapply Forall_impl; [|exact Hall]. simpl. tauto.
  - eapply Forall_impl; [|exact Hall]. simpl. tauto.
Qed.

(** X2 on the three patterns of the test suite. *)
Lemma parsePatterns_lines_witness :
  parsePatterns (Some "single/*.md")
    (Some (join nl ["specs/**/*.md"; "docs/specs/**/*.md"; "**/*-spec.md"]))
  = ["specs/**/*.md"; "docs/specs/**/*.md"; "**/*-spec.md"].
Proof.
  apply (parsePatterns_lines (Some "single/*.md")
           ["specs/**/*.md"; "docs/specs/**/*.md"; "**/*-spec.md"]).
  - discriminate.
  - repeat constructor; discriminate.
Defined.

(** X1 on a multi-line input with blank lines and padded patterns. *)
Lemma parsePatterns_clean_witness :
  Forall (fun p => trim p = p /\ includes p LF = false)
    (parsePatterns None
       (Some ("  specs/**/*.md  " ++ nl ++ nl ++ "  docs/**/*.md  "))).
Proof.
  exact (proj2 (parsePatterns_clean None
                  (Some ("  specs/**/*.md  " ++ nl ++ nl
                         ++ "  docs/**/*.md  ")))
               eq_refl).
Defined.

(** ** More on the name-status listing *)

Lemma parse_line_status (status path : string) (rest : list string) :
  startsWith status "R" = false ->
  includes status TAB = false ->
  includes path TAB = false ->
  Forall (fun part => includes part TAB = false) rest ->
  path <> "" ->
  parse_line [] (join tab (status :: path :: rest))
  = [ {| path := path;
         changeType := if String.eqb status "A" then added
                       else if String.eqb status "D" then deleted
                       else modified;
         previousPath := None |} ].
Proof.
  intros HR Hs Hp Hrest Hne. unfold parse_line, tab.
  rewrite (split_join TAB (status :: path :: rest));
    [|discriminate|repeat constructor; assumption].
  simpl. rewrite (eqb_neq_empty _ Hne), HR.
  destruct (String.eqb status "A"); [reflexivity|].
  destruct (String.eqb status "D"); [reflexivity|].
  destruct (_ || _); reflexivity.
Qed.

(** X3. Among the lines that the parser iterates, which are the lines
    of the output after the whole output is trimmed, a line whose status
    does not start with [R] and whose second field is not empty contributes
    exactly one entry, in its place: that field as [path], no
    [previousPath], and the change type [added] for the status [A],
    [deleted] for [D] and [modified] for every other status.  Fields after
    the second are ignored, so a copy line [C<n> source copy] is reported
    as a modification of its source. *)
Theorem parseGitDiffNameStatus_status
    (output : string) (before after : list string)
    (status path : string) (rest : list string) :
  startsWith status "R" = false ->
  includes status TAB = false ->
  includes path TAB = false ->
  Forall (fun part => includes part TAB = false) rest ->
  path <> "" ->
  lines_of output
  = (before ++ [join tab (status :: path :: rest)] ++ after)%list ->
  parseGitDiffNameStatus output
  = (parse_lines before
     ++ [ {| path := path;
             changeType := if String.eqb status "A" then added
                           else if String.eqb status "D" then deleted
                           else modified;
             previousPath := None |} ]
     ++ parse_lines after)%list.
Proof.
  intros HR Hs Hp Hrest Hne Hlines. unfold parseGitDiffNameStatus.
  rewrite Hlines, !parse_lines_app, parse_lines_one.
  rewrite (parse_line_status _ _ _ HR Hs Hp Hrest Hne). reflexivity.
Qed.

(** X3 on a deletion followed by a copy. *)
Lemma parseGitDiffNameStatus_status_witness :
  parseGitDiffNameStatus copy_listing
  = [ {| path := "old.md"; changeType := deleted; previousPath := None |};
      {| path := "docs/source.md"; changeType := modified;
         previousPath := None |} ].
Proof.
  exact (parseGitDiffNameStatus_status copy_listing
           [("D" ++ tab ++ "old.md")%string] []
           "C75" "docs/source.md" ["docs/copy.md"]
           eq_refl eq_refl eq_refl
           ltac:(repeat constructor) ltac:(discriminate) eq_refl).
Defined.

Lemma lines_of_no_LF (output : string) :
  Forall (fun line => includes line LF = false) (lines_of output).
Proof.
  unfold lines_of. apply Forall_forall. intros l Hl.
  apply filter_In in Hl as [Hl _].
  pose proof (split_no_sep LF (trim output)) as Hall.
  rewrite Forall_forall in Hall. exact (Hall l Hl).
Qed.

Lemma parts_field_ok (line p : string) (i : nat) :
  includes line LF = false ->
  nth_error (split TAB line) i = Some p ->
  String.eqb p "" = false ->
  field_ok p.
Proof.
  intros Hlf Hn Hp. apply nth_error_In in Hn.
  pose proof (split_no_sep TAB line) as H1.
  pose proof (split_parts_without TAB LF line Hlf) as H2.
  rewrite Forall_forall in H1, H2.
  repeat split; [apply String.eqb_neq; exact Hp|exact (H1 p Hn)|exact (H2 p Hn)].
Qed.

Lemma parse_line_entries (line : string) :
  includes line LF = false ->
  (List.length (parse_line [] line) <= 1)%nat
  /\ Forall (fun f => field_ok (path f)
                      /\ forall p, previousPath f = Some p -> field_ok p)
            (parse_line [] line).
Proof.
  intros Hlf. unfold parse_line.
  destruct (nth_error (split TAB line) 1) as [p|] eqn:H1;
    [|split; [simpl; lia|constructor]].
  destruct (String.eqb p "") eqn:Hp; [split; [simpl; lia|constructor]|].
  pose proof (parts_field_ok line p 1 Hlf H1 Hp) as Hok.
  destruct (startsWith _ "R").
  - destruct (nth_error (split TAB line) 2) as [q|] eqn:H2;
      [|split; [simpl; lia|constructor]].
    destruct (String.eqb q "") eqn:Hq; [split; [simpl; lia|constructor]|].
    split; [simpl; lia|]. constructor; [|constructor]. simpl. split.
    + exact (parts_field_ok line q 2 Hlf H2 Hq).
    + intros p' [= <-]. exact Hok.
  - split; [simpl; lia|]. constructor; [|constructor]. simpl.
    split; [exact Hok|discriminate].
Qed.

Lemma parse_lines_entries (lines : list string) :
  Forall (fun line => includes line LF = false) lines ->
  (List.length (parse_lines lines) <= List.length lines)%nat
  /\ Forall (fun f => field_ok (path f)
                      /\ forall p, previousPath f = Some p -> field_ok p)
            (parse_lines lines).
Proof.
  induction 1 as [|l lines Hl _ [IHlen IHall]]; [split; [simpl; lia|constructor]|].
  change (l :: lines) with ([l] ++ lines)%list.
  rewrite parse_lines_app, parse_lines_one.
  destruct (parse_line_entries l Hl) as [Hlen Hall].
  split.
  - rewrite length_app. simpl. lia.
  - apply Forall_app. split; assumption.
Qed.

(** X4. [parseGitDiffNameStatus] yields at most one entry per non-empty
    line of the trimmed output, and none for a blank output.  Every path
    it reports, current or previous, is a non-empty text without TAB and
    without line feed. *)
Theorem parseGitDiffNameStatus_entries (output : string) :
  (List.length (parseGitDiffNameStatus output)
   <= List.length (lines_of output))%nat
  /\ Forall (fun f =>
               (path f <> "" /\ includes (path f) TAB = false
                /\ includes (path f) LF = false)
               /\ forall p, previousPath f = Some p ->
                    p <> "" /\ includes p TAB = false
                    /\ includes p LF = false)
            (parseGitDiffNameStatus output)
  /\ (trim output = "" -> parseGitDiffNameStatus output = []).
Proof.
  unfold parseGitDiffNameStatus.
  destruct (parse_lines_entries (lines_of output) (lines_of_no_LF output))
    as [Hlen Hall].
  split; [exact Hlen|]. split; [exact Hall|].
  intros Hblank. unfold lines_of. rewrite Hblank. reflexivity.
Qed.

(** X4 on an output of blank lines. *)
Lemma parseGitDiffNameStatus_entries_witness :
  parseGitDiffNameStatus (nl ++ "  " ++ nl) = [].
Proof.
  exact (proj2 (proj2 (parseGitDiffNameStatus_entries (nl ++ "  " ++ nl)))
           eq_refl).
Defined.

(** ** The child processes of change detection *)

Lemma commands_run_app (t1 t2 : list Event) :
  commands_run (t1 ++ t2) = (commands_run t1 ++ commands_run t2)%list.
Proof.
  induction t1 as [|ev t1 IH]; simpl; [reflexivity|].
  destruct ev; simpl; rewrite IH; reflexivity.
Qed.

Lemma warnings_app (t1 t2 : list Event) :
  warnings (t1 ++ t2) = (warnings t1 ++ warnings t2)%list.
Proof.
  induction t1 as [|ev t1 IH]; simpl; [reflexivity|].
  destruct ev; simpl; rewrite IH; reflexivity.
Qed.

Lemma commands_fetch_base_ref (w : World) :
  commands_run (trace (fetch_base_ref w))
  = ["git fetch origin " ++ interp (env w "GITHUB_BASE_REF") ++ " --depth=1"].
Proof.
  unfold fetch_base_ref.
  rewrite trace_try_catch, trace_bind, value_bind, value_exec.
  unfold exec. simpl trace at 1. simpl value.
  destruct (execAsync w _); reflexivity.
Qed.

(** X5. [getChangedFilesFromGit] starts these child processes and no
    other, in this order: on a pull request the fetch of the base ref; the
    name-status comparison; and, only when that comparison failed, the
    listing of the tracked files. *)
Theorem getChangedFilesFromGit_commands (w : World) :
  commands_run (trace (getChangedFilesFromGit w))
  = ((if opt_is (env w "GITHUB_EVENT_NAME") "pull_request"
      then [("git fetch origin " ++ interp (env w "GITHUB_BASE_REF")
             ++ " --depth=1")%string]
      else [])
     ++ [diffCommand w]
     ++ match execAsync w (diffCommand w) with
        | Ok _ => []
        | Throw _ => ["git ls-files"]
        end)%list.
Proof.
  unfold getChangedFilesFromGit. cbv zeta.
  rewrite trace_bind, commands_run_app. f_equal.
  - destruct (opt_is _ _); [apply commands_fetch_base_ref|reflexivity].
  - replace (value (if opt_is (env w "GITHUB_EVENT_NAME") "pull_request"
                    then fetch_base_ref w else ret tt)) with (Ok tt)
      by (destruct (opt_is _ _);
          [symmetry; apply value_fetch_base_ref|reflexivity]).
    rewrite trace_bind. simpl value. cbv iota.
    rewrite trace_try_catch, trace_bind, value_bind, value_exec.
    unfold exec at 1. simpl trace at 1. simpl trace at 1.
    destruct (execAsync w (diffCommand w)) as [stdout|e].
    + reflexivity.
    + rewrite !commands_run_app, (trace_bind (emit _)).
      simpl value. cbv iota.
      rewrite commands_run_app, trace_bind, commands_run_app, value_exec.
      unfold exec. simpl.
      destruct (execAsync w "git ls-files"); reflexivity.
Qed.

(** X6. [getChangedFilesFromGit] throws exactly when both the
    comparison and the listing of the tracked files fail, and then with the
    error of the listing; the outcome of the fetch never matters.  When the
    comparison answers, the result is its parsed output. *)
Theorem getChangedFilesFromGit_outcome (w : World) :
  (forall e : string,
     value (getChangedFilesFromGit w) = Throw e
     <-> (exists e0, execAsync w (diffCommand w) = Throw e0)
         /\ execAsync w "git ls-files" = Throw e)
  /\ (forall stdout : string,
        execAsync w (diffCommand w) = Ok stdout ->
        value (getChangedFilesFromGit w)
        = Ok (parseGitDiffNameStatus stdout)).
Proof.
  rewrite getChangedFilesFromGit_value. split.
  - intros e.
    destruct (execAsync w (diffCommand w)) as [stdout|e0].
    + split; [discriminate|]. intros [[e1 H] _]. discriminate.
    + destruct (execAsync w "git ls-files") as [out|e1].
      * split; [discriminate|]. intros [_ H]. discriminate.
      * split.
        -- intros [= ->]. split; [exists e0|]; reflexivity.
        -- intros [_ [= ->]]. reflexivity.
  - intros stdout ->. reflexivity.
Qed.

(** X6 on a world whose comparison answers. *)
Lemma getChangedFilesFromGit_outcome_witness :
  value (getChangedFilesFromGit world_one_change)
  = Ok [ {| path := "docs/x-specification.md"; changeType := modified;
            previousPath := None |} ].
Proof.
  exact (proj2 (getChangedFilesFromGit_outcome world_one_change)
           ("M" ++ tab ++ "docs/x-specification.md" ++ nl) eq_refl).
Defined.

(** The two git commands name the base that [getBaseSha] gives, and
    join it to [HEAD] in two ways: the name-status command by three dots on
    a pull request, which compares with the merge base, and by a space
    otherwise; the diff command of every file always by a space, which on a
    pull request compares with the tip of the base branch. *)
Theorem same_base_everywhere (w : World) (f : ChangedFile)
    (o : DiffOptions) :
  diffCommand w
  = "git diff --name-status " ++ getBaseSha w
    ++ (if opt_is (env w "GITHUB_EVENT_NAME") "pull_request"
        then "...HEAD" else " HEAD")
  /\ exists paths : string,
       diff_command w f o
       = "git diff -U" ++ dec (contextLines o) ++ " " ++ getBaseSha w
         ++ " HEAD -- " ++ paths
       /\ (paths = dquote ++ path f ++ dquote
           \/ paths = dquote ++ interp (previousPath f) ++ dquote ++ " "
                      ++ dquote ++ path f ++ dquote).
Proof.
  split.
  - unfold diffCommand, getBaseSha. cbv zeta.
    destruct (opt_is _ _); [|reflexivity].
    destruct (truthy _); reflexivity.
  - unfold diff_command. cbv zeta.
    destruct (changeType f);
      try (eexists; split; [reflexivity|left; reflexivity]).
    destruct (truthy (previousPath f));
      eexists; split; try reflexivity; [right|left]; reflexivity.
Qed.

(** ** More on the filtering *)

Lemma existsb_same_elements {A : Type} (p : A -> bool) (l1 l2 : list A) :
  (forall x, In x l1 <-> In x l2) -> existsb p l1 = existsb p l2.
Proof.
  intros H.
  destruct (existsb p l1) eqn:E1, (existsb p l2) eqn:E2; try reflexivity.
  - apply existsb_exists in E1 as [x [Hx Hp]].
    assert (existsb p l2 = true)
      by (apply existsb_exists; exists x; split; [apply H|]; assumption).
    congruence.
  - apply existsb_exists in E2 as [x [Hx Hp]].
    assert (existsb p l1 = true)
      by (apply existsb_exists; exists x; split; [apply H|]; assumption).
    congruence.
Qed.

Lemma forallb_same_elements {A : Type} (p : A -> bool) (l1 l2 : list A) :
  (forall x, In x l1 <-> In x l2) -> forallb p l1 = forallb p l2.
Proof.
  intros H.
  destruct (forallb p l1) eqn:E1, (forallb p l2) eqn:E2; try reflexivity.
  - rewrite forallb_forall in E1.
    assert (forallb p l2 = true)
      by (apply forallb_forall; intros x Hx; apply E1, H; exact Hx).
    congruence.
  - rewrite forallb_forall in E2.
    assert (forallb p l1 = true)
      by (apply forallb_forall; intros x Hx; apply E2, H; exact Hx).
    congruence.
Qed.

Lemma isMatch_same_elements (glob : Glob) (s : string)
    (l1 l2 : list string) (nocase : bool) :
  (forall p, In p l1 <-> In p l2) ->
  isMatch glob s l1 nocase = isMatch glob s l2 nocase.
Proof.
  intros H. unfold isMatch, compiles, some_match.
  rewrite (forallb_same_elements _ _ _ H), (existsb_same_elements _ _ _ H).
  reflexivity.
Qed.

Lemma empty_same_elements {A : Type} (l1 l2 : list A) :
  (forall x, In x l1 <-> In x l2) ->
  (0 <? List.length l1)%nat = (0 <? List.length l2)%nat.
Proof.
  intros H. destruct l1 as [|a l1], l2 as [|b l2]; try reflexivity.
  - destruct (proj2 (H b) (or_introl eq_refl)).
  - destruct (proj1 (H a) (or_introl eq_refl)).
Qed.

Lemma filterM_ext {A : Type} (p q : A -> M bool) (xs : list A) :
  (forall x, p x = q x) -> filterM p xs = filterM q xs.
Proof.
  intros H. induction xs as [|x xs IH]; simpl; [reflexivity|].
  rewrite H, IH. reflexivity.
Qed.

Lemma filterFilesByPatterns_same_elements (glob : Glob)
    (files : list ChangedFile) (inc1 inc2 exc1 exc2 : list string)
    (cs : bool) :
  (forall p, In p inc1 <-> In p inc2) ->
  (forall p, In p exc1 <-> In p exc2) ->
  filterFilesByPatterns glob files inc1 exc1 cs
  = filterFilesByPatterns glob files inc2 exc2 cs.
Proof.
  intros Hinc Hexc. unfold filterFilesByPatterns. cbv zeta.
  apply filterM_ext. intros f.
  rewrite (isMatch_same_elements glob (path f) _ _ (negb cs) Hinc).
  rewrite (isMatch_same_elements glob (path f) _ _ (negb cs) Hexc).
  rewrite (empty_same_elements _ _ Hexc). reflexivity.
Qed.

(** X8. [detectChangedFiles] depends on its two pattern lists only as
    sets: options that agree on the flags and list the same include
    patterns and the same exclude patterns, in any order and with any
    repetition, select the same files. *)
Theorem detectChangedFiles_pattern_sets
    (glob : Glob) (w : World) (o1 o2 : FileDetectorOptions) :
  (forall p, In p (patterns o1) <-> In p (patterns o2)) ->
  (forall p, In p (excludePatterns o1) <-> In p (excludePatterns o2)) ->
  caseSensitive o1 = caseSensitive o2 ->
  createOnNewFiles o1 = createOnNewFiles o2 ->
  createOnDeletedFiles o1 = createOnDeletedFiles o2 ->
  value (detectChangedFiles glob w o1) = value (detectChangedFiles glob w o2).
Proof.
  intros Hinc Hexc Hcs Hnew Hdel.
  rewrite !detectChangedFiles_stages.
  destruct (value (getChangedFilesFromGit w)) as [files|e]; [|reflexivity].
  rewrite (filterFilesByPatterns_same_elements glob files _ _ _ _
             (caseSensitive o1) Hinc Hexc).
  rewrite Hcs, Hnew, Hdel. reflexivity.
Qed.

(** X8 on two orders of the same patterns. *)
Lemma detectChangedFiles_pattern_sets_witness :
  value (detectChangedFiles glob_prefix world_one_change
           {| patterns := ["docs/"; "specs/"]; excludePatterns := [];
              caseSensitive := true; createOnNewFiles := true;
              createOnDeletedFiles := true |})
  = value (detectChangedFiles glob_prefix world_one_change
             {| patterns := ["specs/"; "docs/"; "specs/"];
                excludePatterns := [];
                caseSensitive := true; createOnNewFiles := true;
                createOnDeletedFiles := true |}).
Proof.
  apply detectChangedFiles_pattern_sets; try reflexivity.
  intros p. simpl. tauto.
Defined.

(** With an empty list of include patterns nothing is selected:
    [detectChangedFiles] returns the empty list whenever the detection
    itself returns, whatever the exclude patterns are; and an error of
    [getChangedFilesFromGit] is the error of [detectChangedFiles]. *)
Theorem detectChangedFiles_edges
    (glob : Glob) (w : World) (options : FileDetectorOptions) :
  (forall e : string,
     value (getChangedFilesFromGit w) = Throw e ->
     value (detectChangedFiles glob w options) = Throw e)
  /\ (patterns options = [] ->
      forall files, value (getChangedFilesFromGit w) = Ok files ->
                    value (detectChangedFiles glob w options) = Ok []).
Proof.
  rewrite detectChangedFiles_stages. split.
  - intros e ->. reflexivity.
  - intros Hp files ->. rewrite Hp.
    assert (Hnone : value (filterFilesByPatterns glob files []
                             (excludePatterns options)
                             (caseSensitive options))
                    = Ok (filter (fun _ => false) files)).
    { unfold filterFilesByPatterns. apply value_filterM.
      intros f. reflexivity. }
    rewrite Hnone.
    assert (Hnil : filter (fun _ : ChangedFile => false) files = [])
      by (clear; induction files; simpl; auto).
    rewrite Hnil. reflexivity.
Qed.

(** [detectChangedFiles_edges] on a push of one file and no pattern. *)
Lemma detectChangedFiles_edges_witness :
  value (detectChangedFiles glob_prefix world_one_change
           {| patterns := []; excludePatterns := [];
              caseSensitive := true; createOnNewFiles := true;
              createOnDeletedFiles := true |})
  = Ok [].
Proof.
  exact (proj2 (detectChangedFiles_edges glob_prefix world_one_change
                  {| patterns := []; excludePatterns := [];
                     caseSensitive := true; createOnNewFiles := true;
                     createOnDeletedFiles := true |})
           eq_refl _ eq_refl).
Defined.

(** ** The fenced block of a diff *)

Lemma str_length_app (a b : string) :
  String.length (a ++ b) = (String.length a + String.length b)%nat.
Proof. induction a as [|c a IH]; simpl; [reflexivity|]. rewrite IH. reflexivity. Qed.

Lemma str_app_inv_tail (a b c : string) : a ++ c = b ++ c -> a = b.
Proof.
  revert b. induction a as [|x a IH]; intros [|y b] H; simpl in H.
  - reflexivity.
  - apply (f_equal String.length) in H. simpl in H.
    rewrite str_length_app in H. lia.
  - apply (f_equal String.length) in H. simpl in H.
    rewrite str_length_app in H. lia.
  - injection H as -> H. rewrite (IH b H). reflexivity.
Qed.

Lemma formatDiffAsCodeBlock_blank (d : string) :
  trim d = "" ->
  formatDiffAsCodeBlock d
  = "```" ++ nl ++ "No changes detected." ++ nl ++ "```".
Proof.
  intros H. unfold formatDiffAsCodeBlock. rewrite H.
  rewrite orb_true_r. reflexivity.
Qed.

Lemma formatDiffAsCodeBlock_fenced (d : string) :
  trim d <> "" ->
  formatDiffAsCodeBlock d = "```diff" ++ nl ++ d ++ nl ++ "```".
Proof.
  intros H. unfold formatDiffAsCodeBlock.
  assert (Hd : String.eqb d "" = false).
  { apply String.eqb_neq. intros ->. apply H. reflexivity. }
  rewrite Hd. simpl orb.
  destruct (len (trim d) =? 0)%Z eqn:E; [|reflexivity].
  exfalso. apply H. apply Z.eqb_eq in E. unfold len in E.
  destruct (trim d); [reflexivity|simpl in E; lia].
Qed.

(** X9. [formatDiffAsCodeBlock] answers the block [No changes
    detected.] exactly for the diffs that are empty or white space only.
    Every other diff is put unchanged between the line of the opening
    [diff] fence and the closing fence, so that two such diffs with the
    same block are equal. *)
Theorem formatDiffAsCodeBlock_cases (d : string) :
  (formatDiffAsCodeBlock d
   = "```" ++ nl ++ "No changes detected." ++ nl ++ "```"
   <-> trim d = "")
  /\ (trim d <> "" ->
      formatDiffAsCodeBlock d = "```diff" ++ nl ++ d ++ nl ++ "```")
  /\ (forall d' : string,
        trim d <> "" -> trim d' <> "" ->
        formatDiffAsCodeBlock d = formatDiffAsCodeBlock d' -> d = d').
Proof.
  split; [|split].
  - split; [|apply formatDiffAsCodeBlock_blank].
    intros H. destruct (String.eqb (trim d) "") eqn:E;
      [apply String.eqb_eq; exact E|].
    apply String.eqb_neq in E.
    rewrite (formatDiffAsCodeBlock_fenced d E) in H. discriminate.
  - apply formatDiffAsCodeBlock_fenced.
  - intros d' Hd Hd'.
    rewrite (formatDiffAsCodeBlock_fenced d Hd),
            (formatDiffAsCodeBlock_fenced d' Hd').
    intros H. simpl in H. injection H as H.
    exact (str_app_inv_tail _ _ _ H).
Qed.

(** X9 on the diff of the test suite. *)
Lemma formatDiffAsCodeBlock_cases_witness :
  formatDiffAsCodeBlock ("+added line" ++ nl ++ "-removed line")
  = "```diff" ++ nl ++ ("+added line" ++ nl ++ "-removed line") ++ nl
    ++ "```".
Proof.
  exact (proj1 (proj2 (formatDiffAsCodeBlock_cases
                         ("+added line" ++ nl ++ "-removed line")))
           ltac:(discriminate)).
Defined.

(** ** The size of a processed diff *)

Lemma split_length_pos (sep : ascii) (s : string) :
  (1 <= List.length (split sep s))%nat.
Proof.
  pose proof (split_not_nil sep s).
  destruct (split sep s); [congruence|simpl; lia].
Qed.

Lemma truncated_lines (lines : list string) (k : nat) (note : string) :
  Forall (fun l => includes l LF = false) lines ->
  includes note LF = false ->
  split LF (join nl ((firstn k lines ++ [EmptyString]) ++ [note]))
  = (firstn k lines ++ [EmptyString; note])%list.
Proof.
  intros Hall Hnote. rewrite <- app_assoc. simpl app.
  apply split_join.
  - intros Heq. apply app_eq_nil in Heq as [_ Heq]. discriminate.
  - apply Forall_app. split; [apply Forall_firstn'; exact Hall|].
    repeat constructor. exact Hnote.
Qed.

(** X10. For [maxLines >= 0] the diff that [processDiffOutput] returns
    never has more than [maxLines + 2] lines, and has exactly that many
    when it is truncated; the [lineCount] it reports is at least 1, even
    for an empty raw diff. *)
Theorem processDiffOutput_bounded
    (f : ChangedFile) (rawDiff : string) (maxLines : Z) :
  (0 <= maxLines)%Z ->
  exists fd : FileDiff,
    value (processDiffOutput f rawDiff maxLines) = Ok fd
    /\ (1 <= lineCount fd)%Z
    /\ (Z.of_nat (List.length (split LF (DiffGenerator.diff fd)))
        <= maxLines + 2)%Z
    /\ (truncated fd = true ->
        Z.of_nat (List.length (split LF (DiffGenerator.diff fd)))
        = (maxLines + 2)%Z).
Proof.
  intros Hpos. unfold processDiffOutput. cbv zeta.
  pose proof (split_length_pos LF rawDiff) as Hlen.
  destruct (Z.ltb_spec maxLines (Z.of_nat (List.length (split LF rawDiff))))
    as [Hlt|Hle].
  - rewrite value_emit_then. eexists. split; [reflexivity|]. simpl.
    rewrite slice0_firstn by lia.
    rewrite truncated_lines
      by (apply split_no_sep || apply truncation_note_no_LF).
    rewrite length_app, length_firstn. simpl List.length.
    repeat split; intros; lia.
  - eexists. split; [reflexivity|]. simpl.
    repeat split; intros; try discriminate; lia.
Qed.

(** X10 on a diff of three lines cut to two. *)
Lemma processDiffOutput_bounded_witness :
  exists fd : FileDiff,
    value (processDiffOutput sample_file ("a" ++ nl ++ "b" ++ nl ++ "c") 2)
    = Ok fd
    /\ (1 <= lineCount fd)%Z
    /\ (Z.of_nat (List.length (split LF (DiffGenerator.diff fd))) <= 2 + 2)%Z
    /\ (truncated fd = true ->
        Z.of_nat (List.length (split LF (DiffGenerator.diff fd)))
        = (2 + 2)%Z).
Proof.
  exact (processDiffOutput_bounded sample_file
           ("a" ++ nl ++ "b" ++ nl ++ "c") 2 ltac:(lia)).
Defined.



(** ** Failures and effects of diff generation *)

Lemma processDiffOutput_lineCount (f : ChangedFile) (rawDiff : string)
    (m : Z) (fd : FileDiff) :
  value (processDiffOutput f rawDiff m) = Ok fd ->
  lineCount fd = Z.of_nat (List.length (split LF rawDiff))
  /\ (truncated fd = true -> (m < lineCount fd)%Z).
Proof.
  unfold processDiffOutput. cbv zeta.
  destruct (Z.ltb_spec m (Z.of_nat (List.length (split LF rawDiff)))).
  - rewrite value_emit_then. intros [= <-]. simpl. split; [reflexivity|auto].
  - intros [= <-]. simpl. split; [reflexivity|discriminate].
Qed.

(** X12. In what [generateDiffForFile] returns, [lineCount = 0] marks
    the failures: the line count is 0 exactly when the git command of the
    file failed, and a diff marked truncated comes from a command that
    answered. *)
Theorem generateDiffForFile_lineCount_zero
    (w : World) (f : ChangedFile) (o : DiffOptions) (fd : FileDiff) :
  value (generateDiffForFile w f o) = Ok fd ->
  (lineCount fd = 0%Z
   <-> exists e, execAsync w (diff_command w f o) = Throw e)
  /\ (truncated fd = true
      -> exists stdout, execAsync w (diff_command w f o) = Ok stdout).
Proof.
  unfold generateDiffForFile. cbv zeta.
  rewrite value_try_catch, value_emit_then, value_bind, value_exec.
  destruct (execAsync w (diff_command w f o)) as [stdout|e].
  - destruct (value (processDiffOutput f stdout (maxLines o))) as [d|e']
      eqn:Hv.
    + intros [= <-].
      destruct (processDiffOutput_lineCount _ _ _ _ Hv) as [Hn _].
      pose proof (split_length_pos LF stdout). split.
      * split; [lia|]. intros [e He]. discriminate.
      * intros _. exists stdout. reflexivity.
    + destruct (processDiffOutput_ok f stdout (maxLines o)) as [d [Hd _]].
      congruence.
  - cbv iota. rewrite value_emit_then. intros [= <-]. simpl. split.
    + split; [intros _; exists e; reflexivity|reflexivity].
    + discriminate.
Qed.

(** X12 on a file whose git command fails. *)
Lemma generateDiffForFile_lineCount_zero_witness :
  lineCount (placeholder sample_file) = 0%Z
  <-> exists e, execAsync world_no_git
                  (diff_command world_no_git sample_file
                     default_diff_options) = Throw e.
Proof.
  exact (proj1 (generateDiffForFile_lineCount_zero world_no_git sample_file
                  default_diff_options (placeholder sample_file) eq_refl)).
Defined.

Lemma processDiffOutput_quiet (f : ChangedFile) (rawDiff : string) (m : Z) :
  commands_run (trace (processDiffOutput f rawDiff m)) = []
  /\ warnings (trace (processDiffOutput f rawDiff m)) = [].
Proof.
  unfold processDiffOutput. cbv zeta.
  destruct (_ <? _)%Z; split; reflexivity.
Qed.

Lemma generateDiffForFile_effects (w : World) (f : ChangedFile)
    (o : DiffOptions) :
  commands_run (trace (generateDiffForFile w f o)) = [diff_command w f o]
  /\ warnings (trace (generateDiffForFile w f o))
     = match execAsync w (diff_command w f o) with
       | Ok _ => []
       | Throw e => [("Failed to generate diff for " ++ path f ++ ": "
                      ++ e)%string]
       end.
Proof.
  unfold generateDiffForFile, exec, bind, try_catch, emit, ret. cbv zeta.
  destruct (execAsync w (diff_command w f o)) as [stdout|e].
  - destruct (processDiffOutput_ok f stdout (maxLines o)) as [d [Hd _]].
    destruct (processDiffOutput_quiet f stdout (maxLines o)) as [Hc Hw].
    destruct (processDiffOutput f stdout (maxLines o)) as [r t].
    simpl in Hd, Hc, Hw. subst r. simpl.
    rewrite Hc, Hw. split; reflexivity.
  - split; reflexivity.
Qed.

Lemma generateDiffs_loop_effects (w : World) (o : DiffOptions)
    (files : list ChangedFile) :
  forall acc,
    commands_run (trace (generateDiffs_loop w o files acc))
    = map (fun f => diff_command w f o) files
    /\ warnings (trace (generateDiffs_loop w o files acc))
       = flat_map
           (fun f => match execAsync w (diff_command w f o) with
                     | Ok _ => []
                     | Throw e =>
                         [("Failed to generate diff for " ++ path f ++ ": "
                           ++ e)%string]
                     end)
           files.
Proof.
  induction files as [|f files IH]; intros acc; simpl; [split; reflexivity|].
  rewrite trace_bind.
  destruct (generateDiffForFile_ok w f o) as [d [Hd _]]. rewrite Hd.
  destruct (generateDiffForFile_effects w f o) as [Hc Hw].
  destruct (IH (acc ++ [d])%list) as [IHc IHw].
  rewrite commands_run_app, warnings_app, Hc, Hw, IHc, IHw.
  split; reflexivity.
Qed.

(** X13. [generateDiffs] starts exactly one git command per file, the
    diff command of that file, in the order of the files, and logs exactly
    one warning per file whose command failed, naming the file and the
    error. *)
Theorem generateDiffs_effects (w : World) (files : list ChangedFile)
    (o : DiffOptions) :
  commands_run (trace (generateDiffs w files o))
  = map (fun f => diff_command w f o) files
  /\ warnings (trace (generateDiffs w files o))
     = flat_map
         (fun f => match execAsync w (diff_command w f o) with
                   | Ok _ => []
                   | Throw e =>
                       [("Failed to generate diff for " ++ path f ++ ": "
                         ++ e)%string]
                   end)
         files.
Proof. apply generateDiffs_loop_effects. Qed.

Lemma diff_of_unique (w : World) (o : DiffOptions)
    (files : list ChangedFile) (ds1 ds2 : list FileDiff) :
  Forall2 (diff_of w o) files ds1 -> Forall2 (diff_of w o) files ds2 ->
  ds1 = ds2.
Proof.
  intros H1. revert ds2.
  induction H1 as [|f d files ds Hd _ IH]; intros ds2 H2;
    inversion H2 as [|? d' ? ds' Hd' Hrest]; subst; [reflexivity|].
  unfold diff_of in Hd, Hd'. rewrite Hd in Hd'. injection Hd' as <-.
  rewrite (IH ds' Hrest). reflexivity.
Qed.

(** A batch can be cut anywhere: the diffs of two lists of files
    put end to end are the diffs of the first list followed by the diffs of
    the second. *)
Theorem generateDiffs_app (w : World) (files1 files2 : list ChangedFile)
    (o : DiffOptions) :
  exists ds1 ds2 : list FileDiff,
    value (generateDiffs w files1 o) = Ok ds1
    /\ value (generateDiffs w files2 o) = Ok ds2
    /\ value (generateDiffs w (files1 ++ files2) o) = Ok (ds1 ++ ds2)%list.
Proof.
  destruct (generateDiffs_value w o files1) as [ds1 [Hv1 H1]].
  destruct (generateDiffs_value w o files2) as [ds2 [Hv2 H2]].
  destruct (generateDiffs_value w o (files1 ++ files2)) as [ds [Hv H]].
  exists ds1, ds2. split; [exact Hv1|]. split; [exact Hv2|].
  rewrite Hv. f_equal.
  apply Forall2_app_inv in H as [k1 [k2 [-> [Hk1 Hk2]]]].
  rewrite (diff_of_unique _ _ _ _ _ Hk1 H1),
          (diff_of_unique _ _ _ _ _ Hk2 H2).
  reflexivity.
Qed.

(** ** More on the template context *)

(** X14. The option [sanitizeDiff] changes nothing: [renderIssue] gives
    the same title, body and log whether it is set or not. *)
Theorem renderIssue_ignores_sanitizeDiff
    (hb : Handlebars) (w : World) (fileDiff : FileDiff)
    (options : RenderOptions) (context : Partial.t) (b : bool) :
  renderIssue hb w fileDiff (with_sanitizeDiff options b) context
  = renderIssue hb w fileDiff options context.
Proof.
  unfold renderIssue, buildTemplateContext. simpl.
  destruct b, (sanitizeDiff options); reflexivity.
Qed.

(** In the built context [pull_request] is derived from the PR
    number alone: it is true exactly when the partial context carries a
    number that is not empty, [pr_number] is that number or else the empty
    text, and [pr_link] is never set without [pull_request]. *)
Theorem buildTemplateContext_pull_request
    (w : World) (fileDiff : FileDiff) (baseContext : Partial.t)
    (options : RenderOptions) :
  let c := buildTemplateContext w fileDiff baseContext options in
  (pull_request c = true <-> truthy (Partial.pr_number baseContext) = true)
  /\ (pull_request c = true <-> pr_number c <> "")
  /\ (pull_request c = true ->
      Partial.pr_number baseContext = Some (pr_number c))
  /\ (pr_link c <> "" ->
      pull_request c = true /\ includePrLink options = true).
Proof.
  unfold buildTemplateContext. simpl.
  destruct (Partial.pr_number baseContext) as [n|]; simpl.
  - destruct (String.eqb n "") eqn:E; simpl.
    + rewrite andb_false_r. repeat split; intros; congruence.
    + apply String.eqb_neq in E. rewrite (eqb_neq_empty _ E). simpl.
      rewrite andb_true_r.
      repeat split; intros; try congruence.
      destruct (includePrLink options); [reflexivity|congruence].
  - rewrite andb_false_r. repeat split; intros; congruence.
Qed.

(** [buildTemplateContext_pull_request] on the pull request of the test suite. *)
Lemma buildTemplateContext_pull_request_witness :
  pull_request (buildTemplateContext (world_test_repo None) sample_diff
                  context_pr_42 (sample_render_options "" "")) = true
  /\ includePrLink (sample_render_options "" "") = true.
Proof.
  exact (proj2 (proj2 (proj2
           (buildTemplateContext_pull_request (world_test_repo None)
              sample_diff context_pr_42 (sample_render_options "" ""))))
         ltac:(discriminate)).
Defined.

Lemma substring0_prefix (n : nat) (s : string) :
  String.prefix (substring0 n s) s = true.
Proof.
  revert s. induction n as [|n IH]; intros [|c s]; simpl; try reflexivity.
  rewrite IH. destruct (ascii_dec c c); [reflexivity|congruence].
Qed.

Lemma substring0_length (n : nat) (s : string) :
  String.length (substring0 n s) = Nat.min n (String.length s).
Proof.
  revert s. induction n as [|n IH]; intros [|c s]; simpl; try reflexivity.
  rewrite IH. reflexivity.
Qed.

(** The commit SHA of the built context is the one of the partial
    context when that is not empty, else the environment's [GITHUB_SHA]
    when that is not empty, else the empty text.  [commit_sha_short] is its
    first seven characters: a prefix of it, of length 7 or of the length of
    the SHA if that is shorter. *)
Theorem buildTemplateContext_commit_sha
    (w : World) (fileDiff : FileDiff) (baseContext : Partial.t)
    (options : RenderOptions) :
  let c := buildTemplateContext w fileDiff baseContext options in
  (truthy (Partial.commit_sha baseContext) = true ->
   Partial.commit_sha baseContext = Some (commit_sha c))
  /\ (truthy (Partial.commit_sha baseContext) = false ->
      truthy (env w "GITHUB_SHA") = true ->
      env w "GITHUB_SHA" = Some (commit_sha c))
  /\ (truthy (Partial.commit_sha baseContext) = false ->
      truthy (env w "GITHUB_SHA") = false -> commit_sha c = "")
  /\ String.prefix (commit_sha_short c) (commit_sha c) = true
  /\ String.length (commit_sha_short c)
     = Nat.min 7 (String.length (commit_sha c)).
Proof.
  unfold buildTemplateContext. cbv zeta. cbn [commit_sha commit_sha_short].
  split; [|split; [|split; [|split]]].
  - destruct (Partial.commit_sha baseContext) as [s|]; simpl;
      [|discriminate].
    destruct (String.eqb s "") eqn:E; [discriminate|].
    intros _. unfold or_opt. simpl. rewrite E. simpl. rewrite E. reflexivity.
  - intros Hc He. unfold or_opt. rewrite Hc.
    destruct (env w "GITHUB_SHA") as [s|]; simpl in *; [|discriminate].
    destruct (String.eqb s ""); [discriminate|reflexivity].
  - intros Hc He. unfold or_opt. rewrite Hc.
    destruct (env w "GITHUB_SHA") as [s|]; simpl in *; [|reflexivity].
    destruct (String.eqb s "") eqn:E; [|discriminate]. reflexivity.
  - apply substring0_prefix.
  - apply substring0_length.
Qed.

(** [buildTemplateContext_commit_sha] on the SHA of the test suite. *)
Lemma buildTemplateContext_commit_sha_witness :
  Partial.commit_sha test_context
  = Some (commit_sha (buildTemplateContext (world_test_repo None)
                        test_file_diff test_context
                        (sample_render_options "" ""))).
Proof.
  exact (proj1 (buildTemplateContext_commit_sha (world_test_repo None)
                  test_file_diff test_context (sample_render_options "" ""))
           eq_refl).
Defined.

Lemma parse_lines_previous (lines : list string) :
  Forall (fun line => includes line LF = false) lines ->
  Forall (fun f => (changeType f = renamed ->
                    exists p, previousPath f = Some p /\ p <> "")
                   /\ (changeType f <> renamed -> previousPath f = None))
         (parse_lines lines).
Proof.
  intros Hlf.
  destruct (parse_lines_entries lines Hlf) as [_ Hent].
  pose proof (parse_lines_invariant lines) as Hinv.
  rewrite Forall_forall in *. intros f Hf.
  specialize (Hent f Hf) as [_ Hprev].
  specialize (Hinv f Hf). unfold previousPath_iff_renamed in Hinv.
  split.
  - intros Hr. destruct (previousPath f) as [p|] eqn:E.
    + exists p. split; [reflexivity|]. exact (proj1 (Hprev p eq_refl)).
    + exfalso. apply Hinv in Hr. congruence.
  - intros Hr. destruct (previousPath f) as [p|] eqn:E; [|reflexivity].
    exfalso. apply Hr, Hinv. discriminate.
Qed.

Lemma ChangeType_text_renamed (c : ChangeType) :
  ChangeType_text c = "renamed" <-> c = renamed.
Proof. destruct c; simpl; split; intros; congruence || discriminate. Qed.

(** For a file that [getChangedFilesFromGit] returned, the built
    context has a [previous_path] exactly when its [change_type] is
    [renamed], and that text is then the file's previous path. *)
Theorem detected_file_previous_path
    (w w' : World) (files : list ChangedFile) (fileDiff : FileDiff)
    (baseContext : Partial.t) (options : RenderOptions) :
  value (getChangedFilesFromGit w) = Ok files ->
  In (file fileDiff) files ->
  let c := buildTemplateContext w' fileDiff baseContext options in
  (previous_path c <> "" <-> change_type c = "renamed")
  /\ (change_type c = "renamed" ->
      previousPath (file fileDiff) = Some (previous_path c)).
Proof.
  intros Hv Hin.
  assert (Hf : (changeType (file fileDiff) = renamed ->
                exists p, previousPath (file fileDiff) = Some p /\ p <> "")
               /\ (changeType (file fileDiff) <> renamed ->
                   previousPath (file fileDiff) = None)).
  { rewrite getChangedFilesFromGit_value in Hv.
    destruct (execAsync w (diffCommand w)) as [stdout|e].
    - injection Hv as <-.
      pose proof (parse_lines_previous _ (lines_of_no_LF stdout)) as Hall.
      rewrite Forall_forall in Hall. exact (Hall _ Hin).
    - destruct (execAsync w "git ls-files") as [stdout|e']; [|discriminate].
      injection Hv as <-. unfold all_files_added in Hin.
      apply in_map_iff in Hin as [p [<- _]]. simpl.
      split; [discriminate|reflexivity]. }
  unfold buildTemplateContext. cbv zeta. cbn [previous_path change_type].
  rewrite ChangeType_text_renamed.
  destruct Hf as [Hr Hn].
  destruct (ChangeType_eqb (changeType (file fileDiff)) renamed) eqn:E.
  - apply ChangeType_eqb_eq in E.
    destruct (Hr E) as [p [Hp Hne]]. rewrite Hp. simpl.
    rewrite (eqb_neq_empty _ Hne). tauto.
  - assert (Hneq : changeType (file fileDiff) <> renamed).
    { intros H. apply ChangeType_eqb_eq in H. congruence. }
    rewrite (Hn Hneq). simpl. split; [split; congruence|congruence].
Qed.

(** [detected_file_previous_path] on the renamed file of the sample listing. *)
Lemma detected_file_previous_path_witness :
  let c :=
    buildTemplateContext (world_test_repo None)
      {| file := {| path := "new/spec.md"; changeType := renamed;
                    previousPath := Some "old/spec.md" |};
         DiffGenerator.diff := ""; truncated := false; lineCount := 1 |}
      Partial.empty (sample_render_options "" "") in
  (previous_path c <> "" <-> change_type c = "renamed")
  /\ (change_type c = "renamed" ->
      Some "old/spec.md" = Some (previous_path c)).
Proof.
  exact (detected_file_previous_path world_rename (world_test_repo None)
           _ {| file := {| path := "new/spec.md"; changeType := renamed;
                           previousPath := Some "old/spec.md" |};
                DiffGenerator.diff := ""; truncated := false;
                lineCount := 1 |}
           Partial.empty (sample_render_options "" "")
           eq_refl (or_intror (or_introl eq_refl))).
Defined.

(** ** More on the body template *)

(** X15. [resolveBodyTemplate] never throws.  Its result is the default
    template, or the input itself when the input is not taken for a path,
    or what reading the resolved path gave.  It logs at most one warning,
    and only when it falls back to the default template; for a blank input
    it logs nothing. *)
Theorem resolveBodyTemplate_total (w : World) (templateInput : string) :
  exists s : string,
    value (resolveBodyTemplate w templateInput) = Ok s
    /\ (s = DEFAULT_TEMPLATE
        \/ (s = templateInput /\ looks_like_path templateInput = false)
        \/ (looks_like_path templateInput = true
            /\ readFileSync w (Path.resolve (cwd w) templateInput) = Ok s))
    /\ (List.length (warnings (trace (resolveBodyTemplate w templateInput)))
        <= 1)%nat
    /\ (warnings (trace (resolveBodyTemplate w templateInput)) <> [] ->
        s = DEFAULT_TEMPLATE)
    /\ (trim templateInput = "" ->
        resolveBodyTemplate w templateInput = (Ok DEFAULT_TEMPLATE, [])).
Proof.
  unfold resolveBodyTemplate, looks_like_path.
  destruct (String.eqb templateInput "" || String.eqb (trim templateInput) "")
    eqn:Hblank.
  { exists DEFAULT_TEMPLATE. simpl.
    repeat split; auto. }
  assert (Hnb : trim templateInput <> "").
  { apply orb_false_iff in Hblank as [_ H]. apply String.eqb_neq. exact H. }
  destruct (endsWith templateInput ".md" || includes templateInput SLASH).
  - cbv zeta.
    destruct (startsWith (Path.resolve (cwd w) templateInput) (cwd w)).
    + destruct (existsSync w (Path.resolve (cwd w) templateInput)).
      * unfold read_file, try_catch, bind, emit, ret. simpl.
        destruct (readFileSync w (Path.resolve (cwd w) templateInput))
          as [content|e] eqn:Hr; simpl.
        -- exists content. repeat split; auto; try congruence.
        -- exists DEFAULT_TEMPLATE. repeat split; auto; congruence.
      * exists DEFAULT_TEMPLATE. simpl. repeat split; auto; congruence.
    + exists DEFAULT_TEMPLATE. simpl. repeat split; auto; congruence.
  - exists templateInput. simpl. repeat split; auto; congruence.
Qed.

(** When the template file exists but reading it fails, the error
    is caught: the default template is returned and the warning names the
    error. *)
Theorem resolveBodyTemplate_read_error
    (w : World) (templateInput e : string) :
  looks_like_path templateInput = true ->
  startsWith (Path.resolve (cwd w) templateInput) (cwd w) = true ->
  existsSync w (Path.resolve (cwd w) templateInput) = true ->
  readFileSync w (Path.resolve (cwd w) templateInput) = Throw e ->
  value (resolveBodyTemplate w templateInput) = Ok DEFAULT_TEMPLATE
  /\ warnings (trace (resolveBodyTemplate w templateInput))
     = ["Error reading template file: " ++ e ++ ", using default template"]
  /\ files_read (trace (resolveBodyTemplate w templateInput))
     = [Path.resolve (cwd w) templateInput].
Proof.
  intros Hp Hs He Hr. apply looks_like_path_split in Hp as [H1 H2].
  unfold resolveBodyTemplate. rewrite H1, H2. cbv zeta. rewrite Hs, He.
  unfold read_file, try_catch, bind, emit, ret. rewrite Hr.
  repeat split.
Qed.

(** [resolveBodyTemplate_read_error] on a template path that names a directory. *)
Lemma resolveBodyTemplate_read_error_witness :
  value (resolveBodyTemplate world_unreadable_template "./templates")
  = Ok DEFAULT_TEMPLATE
  /\ warnings (trace (resolveBodyTemplate world_unreadable_template
                        "./templates"))
     = ["Error reading template file: "
        ++ "Error: EISDIR: illegal operation on a directory, read"
        ++ ", using default template"]
  /\ files_read (trace (resolveBodyTemplate world_unreadable_template
                          "./templates"))
     = ["/work/repo/templates"].
Proof.
  exact (resolveBodyTemplate_read_error world_unreadable_template
           "./templates"
           "Error: EISDIR: illegal operation on a directory, read"
           eq_refl eq_refl eq_refl eq_refl).
Defined.

(** X16. An inline template that holds a slash, or ends in [.md], is
    never used as it is: it is taken for a path, and when no file exists at
    the resolved path the default template is returned with one warning and
    no file is read. *)
Theorem resolveBodyTemplate_inline_with_slash
    (w : World) (templateInput : string) :
  trim templateInput <> "" ->
  endsWith templateInput ".md" = true
  \/ includes templateInput SLASH = true ->
  existsSync w (Path.resolve (cwd w) templateInput) = false ->
  value (resolveBodyTemplate w templateInput) = Ok DEFAULT_TEMPLATE
  /\ List.length (warnings (trace (resolveBodyTemplate w templateInput)))
     = 1%nat
  /\ files_read (trace (resolveBodyTemplate w templateInput)) = [].
Proof.
  intros Hnb Hpath Hex.
  assert (Hp : looks_like_path templateInput = true).
  { unfold looks_like_path.
    assert (Hne : String.eqb templateInput "" = false).
    { apply String.eqb_neq. intros ->. apply Hnb. reflexivity. }
    rewrite Hne, (proj2 (String.eqb_neq _ _) Hnb). simpl.
    destruct Hpath as [-> | ->]; [reflexivity|apply orb_true_r]. }
  destruct (startsWith (Path.resolve (cwd w) templateInput) (cwd w)) eqn:Hs.
  - rewrite (resolveBodyTemplate_not_found w templateInput Hp Hs Hex).
    repeat split.
  - rewrite (resolveBodyTemplate_rejected w templateInput Hp Hs).
    repeat split.
Qed.

(** X16 on an inline template that holds a link. *)
Lemma resolveBodyTemplate_inline_with_slash_witness :
  value (resolveBodyTemplate world_no_git
           "See https://example.com/guide for {{ filename }}")
  = Ok DEFAULT_TEMPLATE
  /\ List.length
       (warnings (trace (resolveBodyTemplate world_no_git
                           "See https://example.com/guide for {{ filename }}")))
     = 1%nat
  /\ files_read
       (trace (resolveBodyTemplate world_no_git
                 "See https://example.com/guide for {{ filename }}"))
     = [].
Proof.
  exact (resolveBodyTemplate_inline_with_slash world_no_git
           "See https://example.com/guide for {{ filename }}"
           ltac:(discriminate) (or_intror eq_refl) eq_refl).
Defined.

(** ** Failures of rendering *)

(** X17. [renderIssue] throws exactly when Handlebars fails on the
    title template or, the title rendered, on the resolved body template,
    and then with that error.  A title that fails stops the call before the
    body template is resolved: nothing is logged and no file is read.
    Title and body are rendered from the same context. *)
Theorem renderIssue_failures
    (hb : Handlebars) (w : World) (fileDiff : FileDiff)
    (options : RenderOptions) (context : Partial.t) :
  let c := buildTemplateContext w fileDiff context options in
  exists tpl : string,
    value (resolveBodyTemplate w (bodyTemplate options)) = Ok tpl
    /\ (forall e : string,
          value (renderIssue hb w fileDiff options context) = Throw e
          <-> hb (titleTemplate options) c = Throw e
              \/ ((exists t, hb (titleTemplate options) c = Ok t)
                  /\ hb tpl c = Throw e))
    /\ (forall e : string,
          hb (titleTemplate options) c = Throw e ->
          renderIssue hb w fileDiff options context = (Throw e, []))
    /\ (forall t b : string,
          hb (titleTemplate options) c = Ok t ->
          hb tpl c = Ok b ->
          value (renderIssue hb w fileDiff options context)
          = Ok {| title := t; body := b |}).
Proof.
  intros c.
  destruct (resolveBodyTemplate_total w (bodyTemplate options))
    as [tpl [Htpl _]].
  exists tpl. split; [exact Htpl|].
  unfold renderIssue. fold c.
  assert (Hval :
    value (title <- (hb (titleTemplate options) c, []);;
           bodyTemplateContent <- resolveBodyTemplate w (bodyTemplate options);;
           body <- (hb bodyTemplateContent c, []);;
           ret {| title := title; body := body |})
    = match hb (titleTemplate options) c with
      | Ok t => match hb tpl c with
                | Ok b => Ok {| title := t; body := b |}
                | Throw e => Throw e
                end
      | Throw e => Throw e
      end).
  { rewrite value_bind. simpl value.
    destruct (hb (titleTemplate options) c) as [t|e]; [|reflexivity].
    rewrite value_bind, Htpl.
    destruct (hb tpl c); reflexivity. }
  split; [|split].
  - intros e. rewrite Hval.
    destruct (hb (titleTemplate options) c) as [t|e1].
    + destruct (hb tpl c) as [b|e2].
      * split; [discriminate|].
        intros [H|[_ H]]; discriminate.
      * split.
        -- intros [= ->]. right. split; [exists t|]; reflexivity.
        -- intros [H|[_ H]]; [discriminate|congruence].
    + split.
      * intros [= ->]. left. reflexivity.
      * intros [H|[[t H] _]]; [congruence|discriminate].
  - intros e He. unfold bind. rewrite He. reflexivity.
  - intros t b Ht Hb. rewrite Hval, Ht, Hb. reflexivity.
Qed.

(** X17 on a title that the fragment of Handlebars refuses. *)
Lemma renderIssue_failures_witness :
  renderIssue HandlebarsFragment.render world_sibling_directory sample_diff
    (sample_render_options "{{ filename" "../repo-private/issue.md")
    Partial.empty
  = (Throw "Parse error: mustache left open", []).
Proof.
  destruct (renderIssue_failures HandlebarsFragment.render
              world_sibling_directory sample_diff
              (sample_render_options "{{ filename"
                 "../repo-private/issue.md")
              Partial.empty) as [tpl [_ [_ [H _]]]].
  exact (H "Parse error: mustache left open" eq_refl).
Defined.

(** * Properties of the issue creator *)

Import IssueCreator.

(** ** Comma-separated lists *)

Lemma trim_not_empty (s : string) :
  s <> "" -> first_char_ws s = false -> trim s <> "".
Proof.
  intros Hne Hf. unfold trim. rewrite (trimStart_clean s Hf).
  destruct s as [|c r]; [congruence|]. simpl in Hf. simpl.
  destruct (trimEnd r); [rewrite Hf|]; discriminate.
Qed.

Lemma trim_fixed_first (s : string) : trim s = s -> first_char_ws s = false.
Proof. intros H. apply trim_fixed_iff in H. tauto. Qed.

(** X18. Every item that [parseCommaSeparatedList] returns is not
    empty, is trimmed and holds no comma; an input that is undefined,
    empty or white space gives the empty list. *)
Theorem parseCommaSeparatedList_clean (input : option string) :
  Forall (fun item => item <> "" /\ trim item = item
                      /\ includes item (ascii_of_nat 44) = false)
         (parseCommaSeparatedList input)
  /\ (trim (interp input) = "" -> parseCommaSeparatedList input = [])
  /\ (input = None -> parseCommaSeparatedList input = []).
Proof.
  unfold parseCommaSeparatedList. split; [|split].
  - destruct (negb (truthy input) || String.eqb (trim (interp input)) "");
      [constructor|].
    apply Forall_forall. intros item Hin.
    apply filter_In in Hin as [Hin Hlen].
    apply in_map_iff in Hin as [x [<- Hx]].
    split; [apply len_pos_not_empty; exact Hlen|].
    split; [apply trim_idempotent|].
    apply includes_trim.
    pose proof (split_no_sep (ascii_of_nat 44) (interp input)) as Hall.
    rewrite Forall_forall in Hall. exact (Hall x Hx).
  - intros ->. rewrite orb_true_r. reflexivity.
  - intros ->. reflexivity.
Qed.

(** X18 on a list of white space. *)
Lemma parseCommaSeparatedList_clean_witness :
  parseCommaSeparatedList (Some "   ") = [].
Proof.
  exact (proj1 (proj2 (parseCommaSeparatedList_clean (Some "   ")))
           eq_refl).
Defined.

Lemma split_prepend (c : ascii) (pad rest h : string) (t : list string) :
  includes pad c = false ->
  split c rest = h :: t ->
  split c (pad ++ rest) = (pad ++ h) :: t.
Proof.
  intros Hpad Hr.
  induction pad as [|d pad IHp]; simpl; [exact Hr|].
  simpl in Hpad. apply orb_false_iff in Hpad as [Hd Hp].
  rewrite Hd, (IHp Hp). reflexivity.
Qed.

Lemma split_join_padded (c : ascii) (pad : string) (items : list string)
    (x : string) :
  includes pad c = false ->
  Forall (fun item => includes item c = false) (x :: items) ->
  split c (join (String c pad) (x :: items))
  = x :: map (fun item => pad ++ item) items.
Proof.
  intros Hpad Hall. revert x Hall.
  induction items as [|y items IH]; intros x Hall;
    inversion Hall as [|? ? Hx Hrest]; subst.
  - simpl. apply split_whole. exact Hx.
  - change (join (String c pad) (x :: y :: items))
      with (x ++ String c (pad ++ join (String c pad) (y :: items))).
    rewrite (split_app_sep c _ _ Hx).
    f_equal.
    inversion Hrest as [|? ? Hy Hitems]; subst.
    simpl map. apply (split_prepend c pad _ _ _ Hpad).
    apply IH. exact Hrest.
Qed.

Lemma trim_padded (item : string) :
  trim item = item -> trim (" " ++ item) = item.
Proof.
  intros H. unfold trim. simpl. exact H.
Qed.

(** X19. Items written with commas between them are read back as they
    are: for a list of items that are not empty, are trimmed and hold no
    comma, [parseCommaSeparatedList] of the items joined by [,] or by
    [, ] is the list itself. *)
Theorem parseCommaSeparatedList_join (items : list string) :
  items <> [] ->
  Forall (fun item => item <> "" /\ trim item = item
                      /\ includes item (ascii_of_nat 44) = false) items ->
  parseCommaSeparatedList (Some (join "," items)) = items
  /\ parseCommaSeparatedList (Some (join ", " items)) = items.
Proof.
  intros Hne Hall. destruct items as [|x items]; [congruence|].
  assert (Hx : x <> "" /\ trim x = x) by (inversion Hall; tauto).
  destruct Hx as [Hx Htx].
  assert (Hcomma : Forall (fun item => includes item (ascii_of_nat 44) = false)
                          (x :: items))
    by (eapply Forall_impl; [|exact Hall]; simpl; tauto).
  assert (Htrim : Forall (fun item => trim item = item) (x :: items))
    by (eapply Forall_impl; [|exact Hall]; simpl; tauto).
  assert (Hnonempty : Forall (fun item => item <> "") (x :: items))
    by (eapply Forall_impl; [|exact Hall]; simpl; tauto).
  assert (Hready : forall sep,
            negb (truthy (Some (join sep (x :: items))))
            || String.eqb (trim (interp (Some (join sep (x :: items))))) ""
            = false).
  { intros sep. unfold interp. apply orb_false_iff. split.
    - apply negb_false_iff, truthy_Some, join_not_empty, Hx.
    - apply String.eqb_neq, trim_not_empty.
      + apply join_not_empty, Hx.
      + destruct items as [|y items].
        * simpl. apply trim_fixed_first, Htx.
        * change (join sep (x :: y :: items))
            with (x ++ sep ++ join sep (y :: items)).
          rewrite first_char_ws_app by exact Hx.
          apply trim_fixed_first, Htx. }
  unfold parseCommaSeparatedList. split; rewrite Hready; unfold interp.
  - rewrite (split_join (ascii_of_nat 44)) by (discriminate || exact Hcomma).
    rewrite (map_fixed _ _ Htrim). apply filter_nonempty, Hnonempty.
  - change (join ", " (x :: items))
      with (join (String (ascii_of_nat 44) " ") (x :: items)).
    rewrite (split_join_padded (ascii_of_nat 44) " " items x eq_refl Hcomma).
    simpl map. rewrite Htx.
    inversion Htrim as [|? ? _ Hitems]; subst.
    rewrite map_map.
    assert (Hm : map (fun item => trim (" " ++ item)) items = items).
    { apply (map_fixed (fun item => trim (" " ++ item))).
      eapply Forall_impl; [|exact Hitems]. intros item. apply trim_padded. }
    simpl in Hm. simpl. rewrite Hm.
    apply (filter_nonempty (x :: items)), Hnonempty.
Qed.

(** X19 on the labels of the test suite. *)
Lemma parseCommaSeparatedList_join_witness :
  parseCommaSeparatedList (Some "label1,label2,label3")
  = ["label1"; "label2"; "label3"]
  /\ parseCommaSeparatedList (Some "label1, label2, label3")
     = ["label1"; "label2"; "label3"].
Proof.
  apply (parseCommaSeparatedList_join ["label1"; "label2"; "label3"]).
  - discriminate.
  - repeat constructor; discriminate.
Defined.

(** ** Creating the issues *)

Lemma outcome_and_then {A B : Type} (m : Run A) (k : A -> Run B) :
  outcome (and_then m k) =
  match outcome m with
  | Done a => outcome (k a)
  | Raise e => Raise e
  end.
Proof.
  destruct m as [[a|e] t]; simpl; [|reflexivity].
  destruct (k a); reflexivity.
Qed.

Lemma events_and_then {A B : Type} (m : Run A) (k : A -> Run B) :
  events (and_then m k) =
  (events m ++ match outcome m with
               | Done a => events (k a)
               | Raise _ => []
               end)%list.
Proof.
  destruct m as [[a|e] t]; simpl; [|symmetry; apply app_nil_r].
  destruct (k a); reflexivity.
Qed.

Lemma api_calls_app (t1 t2 : list ApiEvent) :
  api_calls (t1 ++ t2) = (api_calls t1 ++ api_calls t2)%list.
Proof.
  induction t1 as [|ev t1 IH]; simpl; [reflexivity|].
  destruct ev; simpl; rewrite IH; reflexivity.
Qed.

Lemma fold_push_map {A B : Type} (f : A -> B) (l : list A) :
  forall acc,
    fold_left (fun results x => (results ++ [f x])%list) l acc
    = (acc ++ map f l)%list.
Proof.
  induction l as [|x l IH]; intros acc; simpl.
  - symmetry. apply app_nil_r.
  - rewrite IH, <- app_assoc. reflexivity.
Qed.

(** X20. A dry run never touches GitHub: whatever the token and the
    client are, [createIssues] requests nothing, logs no warning, does not
    throw, and returns for every item, in order, a success with the number
    0, the URL [(dry run)], the rendered title and the item's file path. *)
Theorem createIssues_dry_run (gh : GitHub) (token : string)
    (issues : list Item.t) (options : IssueOptions) :
  createIssues gh token issues options true
  = (Done (map (fun item =>
                  {| success := true;
                     issue := Some {| number := 0; url := "(dry run)";
                                      title := TemplateRenderer.title
                                                 (Item.rendered item) |};
                     error := None;
                     filePath := Item.filePath item |})
               issues),
     []).
Proof.
  unfold createIssues, done. rewrite (fold_push_map dry_result). reflexivity.
Qed.

Lemma create_one_run (octokit : Octokit) (owner repo : string)
    (options : IssueOptions) (results : list IssueCreationResult)
    (item : Item.t) :
  outcome (create_one octokit owner repo options results item)
  = Done (results
          ++ [result_at octokit owner repo options (List.length results)
                item])%list
  /\ api_calls (events (create_one octokit owner repo options results item))
     = [create_params owner repo options item].
Proof.
  unfold create_one, result_at, catching, and_then, record, done.
  cbv zeta.
  destruct (issues_create octokit (List.length results)
              (create_params owner repo options item));
    split; reflexivity.
Qed.

Lemma create_loop_run (octokit : Octokit) (owner repo : string)
    (options : IssueOptions) (issues : list Item.t) :
  forall results,
    outcome (create_loop octokit owner repo options issues results)
    = Done (results
            ++ map (fun ki => result_at octokit owner repo options
                                (fst ki) (snd ki))
                   (ranked (List.length results) issues))%list
    /\ api_calls (events (create_loop octokit owner repo options issues
                            results))
       = map (create_params owner repo options) issues.
Proof.
  induction issues as [|item issues IH]; intros results; simpl.
  - rewrite app_nil_r. split; reflexivity.
  - destruct (create_one_run octokit owner repo options results item)
      as [Ho He].
    rewrite outcome_and_then, events_and_then, Ho, api_calls_app, He.
    destruct (IH (results
                  ++ [result_at octokit owner repo options
                        (List.length results) item])%list) as [IHo IHe].
    rewrite IHo, IHe, length_app, <- app_assoc. simpl.
    replace (List.length results + 1)%nat with (S (List.length results))
      by lia.
    split; reflexivity.
Qed.

Lemma ranked_snd {A : Type} (l : list A) :
  forall k, map snd (ranked k l) = l.
Proof.
  induction l as [|x l IH]; intros k; simpl; [reflexivity|].
  rewrite IH. reflexivity.
Qed.

Lemma result_at_filePath (octokit : Octokit) (owner repo : string)
    (options : IssueOptions) (k : nat) (item : Item.t) :
  filePath (result_at octokit owner repo options k item)
  = Item.filePath item.
Proof.
  unfold result_at. destruct (issues_create _ _ _); reflexivity.
Qed.

(** X21. Outside a dry run, with a client and a repository at hand,
    [createIssues] does not throw: it sends one request per item, in
    order, each carrying the item's title and body, and returns one result
    per item, in order and with the item's file path.  The result of an
    item is a success with the number, URL and title of the response, or,
    when its request is refused, a failure with the message of the error:
    a refused request does not stop the requests after it. *)
Theorem createIssues_live (gh : GitHub) (token : string)
    (issues : list Item.t) (options : IssueOptions)
    (octokit : Octokit) (owner repo : string) :
  getOctokit gh token = Done octokit ->
  context_repo gh = Done (owner, repo) ->
  exists results : list IssueCreationResult,
    outcome (createIssues gh token issues options false) = Done results
    /\ results
       = map (fun ki => result_at octokit owner repo options (fst ki) (snd ki))
             (ranked 0 issues)
    /\ map filePath results = map Item.filePath issues
    /\ api_calls (events (createIssues gh token issues options false))
       = map (create_params owner repo options) issues
    /\ map CreateParams.title
           (api_calls (events (createIssues gh token issues options false)))
       = map (fun item => TemplateRenderer.title (Item.rendered item)) issues.
Proof.
  intros Hoct Hrepo. unfold createIssues.
  destruct (create_loop_run octokit owner repo options issues [])
    as [Ho He]. simpl in Ho.
  rewrite Hoct, Hrepo. unfold and_then. simpl fst. simpl snd.
  destruct (create_loop octokit owner repo options issues []) as [r t] eqn:E.
  simpl in Ho, He. subst r. simpl.
  eexists. split; [reflexivity|]. split; [reflexivity|].
  split; [|split].
  - rewrite map_map.
    rewrite (map_ext _ (fun ki => Item.filePath (snd ki)))
      by (intros; apply result_at_filePath).
    rewrite <- (map_map snd Item.filePath), ranked_snd. reflexivity.
  - exact He.
  - rewrite He, map_map. reflexivity.
Qed.

(** X21 on two items, the second of which is refused. *)
Lemma createIssues_live_witness :
  exists results : list IssueCreationResult,
    outcome (createIssues github_test "token" sample_items
               sample_issue_options false) = Done results
    /\ results
       = map (fun ki => result_at octokit_one_then_fail "test-org"
                          "test-repo" sample_issue_options (fst ki) (snd ki))
             (ranked 0 sample_items)
    /\ map filePath results = map Item.filePath sample_items
    /\ api_calls (events (createIssues github_test "token" sample_items
                            sample_issue_options false))
       = map (create_params "test-org" "test-repo" sample_issue_options)
             sample_items
    /\ map CreateParams.title
           (api_calls (events (createIssues github_test "token" sample_items
                                 sample_issue_options false)))
       = map (fun item => TemplateRenderer.title (Item.rendered item))
             sample_items.
Proof.
  exact (createIssues_live github_test "token" sample_items
           sample_issue_options octokit_one_then_fail "test-org" "test-repo"
           eq_refl eq_refl).
Defined.

Example createIssues_second_refused :
  outcome (createIssues github_test "token" sample_items
             sample_issue_options false)
  = Done
      [ {| success := true;
           issue := Some {| number := 17;
                            url := "https://github.com/test-org/test-repo/issues/17";
                            title := "Specification Change: a.md" |};
           error := None; filePath := "docs/a.md" |};
        {| success := false; issue := None;
           error := Some "Validation Failed"; filePath := "docs/b.md" |} ].
Proof. reflexivity. Qed.

(** Outside a dry run a client or a repository that cannot be
    obtained makes [createIssues] throw that error before any request is
    sent and before any item is attempted. *)
Theorem createIssues_setup_failure (gh : GitHub) (token : string)
    (issues : list Item.t) (options : IssueOptions) (e : JsError) :
  getOctokit gh token = Raise e
  \/ ((exists octokit, getOctokit gh token = Done octokit)
      /\ context_repo gh = Raise e) ->
  createIssues gh token issues options false = (Raise e, []).
Proof.
  intros [H|[[octokit Ho] Hr]]; unfold createIssues, and_then.
  - rewrite H. reflexivity.
  - rewrite Ho, Hr. reflexivity.
Qed.

(** [createIssues_setup_failure] on an empty token. *)
Lemma createIssues_setup_failure_witness :
  createIssues github_test "" sample_items sample_issue_options false
  = (Raise {| name := "Error";
              message := "Parameter token or opts.auth is required" |},
     []).
Proof.
  exact (createIssues_setup_failure github_test "" sample_items
           sample_issue_options _ (or_introl eq_refl)).
Defined.

(** The two optional keys of a request: [assignees] is sent
    exactly when the list of assignees is not empty, and [milestone]
    exactly when a milestone number other than 0 is given; the labels are
    always sent as they are. *)
Theorem create_params_optional_keys (owner repo : string)
    (options : IssueOptions) (item : Item.t) :
  let params := create_params owner repo options item in
  (CreateParams.assignees params = None <-> assignees options = [])
  /\ (forall l, CreateParams.assignees params = Some l ->
                l = assignees options)
  /\ (CreateParams.milestone params = None
      <-> milestone options = None \/ milestone options = Some 0%Z)
  /\ (forall n, CreateParams.milestone params = Some n ->
                milestone options = Some n /\ n <> 0%Z)
  /\ CreateParams.labels params = labels options.
Proof.
  unfold create_params. simpl.
  split; [|split; [|split; [|split]]].
  - destruct (assignees options); simpl; split; intros;
      congruence || discriminate.
  - intros l. destruct (assignees options); simpl; intros; congruence.
  - destruct (milestone options) as [n|].
    + destruct (Z.eqb_spec n 0).
      * subst. split; intros; [right|]; reflexivity.
      * split; [discriminate|]. intros [H|H]; congruence.
    + split; intros; [left|]; reflexivity.
  - intros n. destruct (milestone options) as [m|]; [|discriminate].
    destruct (Z.eqb_spec m 0); [discriminate|].
    intros [= <-]. split; [reflexivity|assumption].
  - reflexivity.
Qed.

(** [create_params_optional_keys] on options without assignees and with the milestone 0. *)
Lemma create_params_optional_keys_witness :
  milestone sample_issue_options = None
  \/ milestone sample_issue_options = Some 0%Z.
Proof.
  exact (proj1 (proj1 (proj2 (proj2
           (create_params_optional_keys "test-org" "test-repo"
              sample_issue_options
              {| Item.rendered :=
                   {| TemplateRenderer.title := "t";
                      TemplateRenderer.body := "b" |};
                 Item.filePath := "docs/a.md" |}))))
         eq_refl).
Defined.

(** ** Resolving the milestone *)

Lemma digit_not_ws (c : ascii) : is_digit c = true -> is_ws c = false.
Proof.
  unfold is_digit, is_ws. intros H.
  apply andb_true_iff in H as [H1 H2].
  apply Nat.leb_le in H1. apply Nat.leb_le in H2.
  destruct (Nat.leb_spec 9 (nat_of_ascii c)), (Nat.leb_spec (nat_of_ascii c) 13),
    (Nat.eqb_spec (nat_of_ascii c) 32), (Nat.eqb_spec (nat_of_ascii c) 160);
    simpl; try reflexivity; lia.
Qed.

Lemma digit_not_sign (c : ascii) :
  is_digit c = true ->
  Ascii.eqb c (ascii_of_nat 45) = false
  /\ Ascii.eqb c (ascii_of_nat 43) = false.
Proof.
  unfold is_digit. intros H.
  apply andb_true_iff in H as [H1 H2].
  apply Nat.leb_le in H1. apply Nat.leb_le in H2.
  split; apply Ascii.eqb_neq; intros ->;
    change (nat_of_ascii (ascii_of_nat 45)) with 45%nat in *;
    change (nat_of_ascii (ascii_of_nat 43)) with 43%nat in *; lia.
Qed.

Lemma digit_value_range (c : ascii) :
  is_digit c = true -> (0 <= digit_value c <= 9)%Z.
Proof.
  unfold is_digit, digit_value. intros H.
  apply andb_true_iff in H as [H1 H2].
  apply Nat.leb_le in H1. apply Nat.leb_le in H2. lia.
Qed.

Lemma leading_digits_all (s : string) :
  forall acc, (0 <= acc)%Z -> (acc <= digits_value acc (leading_digits s))%Z.
Proof.
  induction s as [|c s IH]; intros acc Hacc;
    cbn [leading_digits digits_value]; [lia|].
  destruct (is_digit c) eqn:E; cbn [digits_value]; [|lia].
  pose proof (digit_value_range c E) as Hc.
  assert (Hacc' : (0 <= 10 * acc + digit_value c)%Z) by lia.
  specialize (IH (10 * acc + digit_value c)%Z Hacc'). lia.
Qed.

(** X22. A milestone input that starts with a digit is taken for a
    milestone number, whatever follows the digits.  When the digits it
    starts with read a number below 2^53, where [parseInt] is exact,
    [resolveMilestone] returns that number without asking GitHub and
    without a warning.  A milestone whose title starts with a digit is so
    never looked up by its title. *)
Theorem resolveMilestone_leading_digit (gh : GitHub) (token : string)
    (c : ascii) (rest : string) :
  is_digit c = true ->
  (digits_value 0 (leading_digits (String c rest)) < 2 ^ 53)%Z ->
  exists n : Z,
    (0 <= n < 2 ^ 53)%Z
    /\ n = digits_value 0 (leading_digits (String c rest))
    /\ parseInt10 (String c rest) = Some n
    /\ resolveMilestone gh token (String c rest) = (Done (Some n), []).
Proof.
  intros Hd Hsafe.
  destruct (digit_not_sign c Hd) as [Hm Hp].
  assert (Hparse : parseInt10 (String c rest)
                   = Some (1 * digits_value 0 (leading_digits (String c rest)))%Z).
  { unfold parseInt10. cbn [trimStart]. rewrite (digit_not_ws c Hd).
    rewrite Hm, Hp. cbn [leading_digits]. rewrite Hd. reflexivity. }
  exists (1 * digits_value 0 (leading_digits (String c rest)))%Z.
  split; [|split; [|split]].
  - pose proof (leading_digits_all (String c rest) 0 ltac:(lia)). lia.
  - lia.
  - exact Hparse.
  - unfold resolveMilestone. simpl String.eqb. rewrite Hparse. reflexivity.
Qed.

(** X22 on a milestone named after a quarter. *)
Lemma resolveMilestone_leading_digit_witness :
  exists n : Z,
    (0 <= n < 2 ^ 53)%Z
    /\ n = 2024%Z
    /\ parseInt10 "2024 Q1" = Some n
    /\ resolveMilestone github_test "token" "2024 Q1" = (Done (Some n), []).
Proof.
  apply (resolveMilestone_leading_digit github_test "token" "2"%char
           "024 Q1").
  - reflexivity.
  - reflexivity.
Defined.

Example parseInt10_examples :
  parseInt10 "2024 Q1" = Some 2024%Z
  /\ parseInt10 "  -7" = Some (-7)%Z
  /\ parseInt10 "+12abc" = Some 12%Z
  /\ parseInt10 "v2" = None
  /\ parseInt10 "- 5" = None
  /\ parseInt10 "" = None.
Proof. repeat split. Qed.

(** X23. [resolveMilestone] never throws.  For an input that is not
    empty and not numeric it asks GitHub once for the open milestones and
    returns the number of the first one whose title equals the input up to
    the case of letters; when there is none it returns undefined with the
    warning that the milestone was not found, and when the client, the
    repository or the request fails it returns undefined with a warning
    that names the error. *)
Theorem resolveMilestone_lookup (gh : GitHub) (token milestoneInput : string) :
  (exists r, outcome (resolveMilestone gh token milestoneInput) = Done r)
  /\ (milestoneInput <> "" -> parseInt10 milestoneInput = None ->
      (forall octokit owner repo milestones,
         getOctokit gh token = Done octokit ->
         context_repo gh = Done (owner, repo) ->
         issues_listMilestones octokit owner repo = Done milestones ->
         match find (fun m => String.eqb (toLowerCase (Milestone.title m))
                                         (toLowerCase milestoneInput))
                    milestones with
         | Some m =>
             resolveMilestone gh token milestoneInput
             = (Done (Some (Milestone.number m)),
                [ListMilestones owner repo])
         | None =>
             resolveMilestone gh token milestoneInput
             = (Done None,
                [ListMilestones owner repo;
                 Warn ("Milestone " ++ dquote ++ milestoneInput ++ dquote
                       ++ " not found")])
         end)
      /\ (forall e,
            getOctokit gh token = Raise e
            \/ ((exists octokit, getOctokit gh token = Done octokit)
                /\ context_repo gh = Raise e) ->
            resolveMilestone gh token milestoneInput
            = (Done None,
               [Warn ("Failed to resolve milestone: " ++ error_text e)]))
      /\ (forall octokit owner repo e,
            getOctokit gh token = Done octokit ->
            context_repo gh = Done (owner, repo) ->
            issues_listMilestones octokit owner repo = Raise e ->
            resolveMilestone gh token milestoneInput
            = (Done None,
               [ListMilestones owner repo;
                Warn ("Failed to resolve milestone: " ++ error_text e)]))).
Proof.
  split.
  - unfold resolveMilestone.
    destruct (String.eqb milestoneInput ""); [exists None; reflexivity|].
    destruct (parseInt10 milestoneInput) as [n|];
      [exists (Some n); reflexivity|].
    unfold catching, and_then, record, done.
    destruct (getOctokit gh token) as [octokit|e]; [|exists None; reflexivity].
    destruct (context_repo gh) as [[owner repo]|e];
      [|exists None; reflexivity].
    simpl fst. simpl snd.
    destruct (issues_listMilestones octokit owner repo) as [ms|e];
      [|exists None; reflexivity].
    destruct (find _ ms) as [m|]; eexists; reflexivity.
  - intros Hne Hnan. apply String.eqb_neq in Hne.
    unfold resolveMilestone. rewrite Hne, Hnan.
    unfold catching, and_then, record, done.
    split; [|split].
    + intros octokit owner repo ms Ho Hr Hl. rewrite Ho, Hr.
      simpl fst. simpl snd. rewrite Hl.
      destruct (find _ ms) as [m|]; reflexivity.
    + intros e [H|[[octokit Ho] Hr]].
      * rewrite H. reflexivity.
      * rewrite Ho, Hr. reflexivity.
    + intros octokit owner repo e Ho Hr Hl. rewrite Ho, Hr.
      simpl fst. simpl snd. rewrite Hl. reflexivity.
Qed.

(** X23 on a title written in capitals. *)
Lemma resolveMilestone_lookup_witness :
  resolveMilestone github_test "token" "BACKLOG"
  = (Done (Some 5%Z), [ListMilestones "test-org" "test-repo"]).
Proof.
  exact (proj1 (proj2 (resolveMilestone_lookup github_test "token" "BACKLOG")
                  ltac:(discriminate) eq_refl)
           octokit_one_then_fail "test-org" "test-repo" _
           eq_refl eq_refl eq_refl).
Defined.

(** * Properties of the context of a run *)

Import Index.

Lemma commit_info_cases (w : World) :
  match execAsync w "git log -1 --format=%s" with
  | Throw _ =>
      value (commit_info w) = Ok (None, None, None)
      /\ commands_run (trace (commit_info w)) = ["git log -1 --format=%s"]
  | Ok m =>
      match execAsync w "git log -1 --format=%ci" with
      | Throw _ =>
          value (commit_info w) = Ok (Some (trim m), None, None)
          /\ commands_run (trace (commit_info w))
             = ["git log -1 --format=%s"; "git log -1 --format=%ci"]
      | Ok d =>
          commands_run (trace (commit_info w))
          = ["git log -1 --format=%s"; "git log -1 --format=%ci";
             "git log -1 --format=%an"]
          /\ match execAsync w "git log -1 --format=%an" with
             | Throw _ =>
                 value (commit_info w) = Ok (Some (trim m), Some (trim d), None)
             | Ok a =>
                 value (commit_info w)
                 = Ok (Some (trim m), Some (trim d),
                       Some (or_else (env w "GITHUB_ACTOR") (trim a)))
             end
      end
  end.
Proof.
  unfold commit_info, exec, try_catch, bind, emit, ret.
  destruct (execAsync w "git log -1 --format=%s") as [m|e1];
    [|split; reflexivity].
  destruct (execAsync w "git log -1 --format=%ci") as [d|e2];
    [|split; reflexivity].
  destruct (execAsync w "git log -1 --format=%an") as [a|e3];
    split; reflexivity.
Qed.





Lemma buildContextFromEnvironment_date (ctx : Context) (w : World)
    (c : Partial.t) :
  value (buildContextFromEnvironment ctx w) = Ok c ->
  exists m d a, value (commit_info w) = Ok (m, d, a)
                /\ Partial.commit_date c = d.
Proof.
  unfold buildContextFromEnvironment.
  destruct (sha ctx) as [s|]; [|discriminate].
  rewrite value_bind.
  destruct (value _) as [b|e]; [|discriminate].
  rewrite value_bind.
  destruct (value (commit_info w)) as [[[m d] a]|e]; [|discriminate].
  destruct (pr_info ctx) as [prn prt].
  intros [= <-]. exists m, d, a. split; reflexivity.
Qed.

(** X25. The date that a template prints: for the context that
    [buildContextFromEnvironment] built, the [commit_date] of the template
    context is the trimmed output of [git log -1 --format=%ci] when that
    command and the one before it answered and the output is not blank,
    and else the time at which the context of the file is built. *)
Theorem rendered_commit_date
    (ctx : Context) (w w' : World) (c : Partial.t)
    (fileDiff : FileDiff) (options : RenderOptions) :
  value (buildContextFromEnvironment ctx w) = Ok c ->
  commit_date (buildTemplateContext w' fileDiff c options)
  = match execAsync w "git log -1 --format=%s",
          execAsync w "git log -1 --format=%ci" with
    | Ok _, Ok d => if String.eqb (trim d) "" then now_iso w' else trim d
    | _, _ => now_iso w'
    end.
Proof.
  intros Hv.
  destruct (buildContextFromEnvironment_date ctx w c Hv)
    as [m [d [a [Hinfo Hd]]]].
  unfold buildTemplateContext. cbv zeta. cbn [commit_date]. rewrite Hd.
  pose proof (commit_info_cases w) as Hci.
  destruct (execAsync w "git log -1 --format=%s") as [m0|e1].
  - destruct (execAsync w "git log -1 --format=%ci") as [d0|e2].
    + destruct Hci as [_ Hci].
      destruct (execAsync w "git log -1 --format=%an");
        rewrite Hinfo in Hci; injection Hci as -> -> ->; reflexivity.
    + destruct Hci as [Hci _]. rewrite Hinfo in Hci.
      injection Hci as -> -> ->. reflexivity.
  - destruct Hci as [Hci _]. rewrite Hinfo in Hci.
    injection Hci as -> -> ->. reflexivity.
Qed.

(** X25 on a history without a date: the clock of the rendering. *)
Lemma rendered_commit_date_witness :
  commit_date (buildTemplateContext (world_test_repo None) sample_diff
                 (context_of "abc1234567890" "abc1234" "main"
                    (Some "Update API spec") None None None None)
                 (sample_render_options "" ""))
  = "2025-12-01T00:00:00.000Z".
Proof.
  exact (rendered_commit_date context_push world_no_date
           (world_test_repo None) _ sample_diff (sample_render_options "" "")
           eq_refl).
Defined.

(** * Properties of the run *)

Import Main.

Lemma failures_app (t t' : list RunEvent) :
  failures (t ++ t') = (failures t ++ failures t')%list.
Proof.
  induction t as [|ev t IH]; simpl; [reflexivity|].
  destruct ev; simpl; rewrite IH; reflexivity.
Qed.

Lemma outputs_app (t t' : list RunEvent) :
  outputs (t ++ t') = (outputs t ++ outputs t')%list.
Proof.
  induction t as [|ev t IH]; simpl; [reflexivity|].
  destruct ev; simpl; rewrite IH; reflexivity.
Qed.

Lemma api_events_app (t t' : list RunEvent) :
  api_events (t ++ t') = (api_events t ++ api_events t')%list.
Proof.
  induction t as [|ev t IH]; simpl; [reflexivity|].
  destruct ev; simpl; rewrite IH; reflexivity.
Qed.

Lemma core_events_app (t t' : list RunEvent) :
  core_events (t ++ t') = (core_events t ++ core_events t')%list.
Proof.
  induction t as [|ev t IH]; simpl; [reflexivity|].
  destruct ev; simpl; rewrite IH; reflexivity.
Qed.

Lemma failures_Core (t : list Event) : failures (map Core t) = [].
Proof. induction t; simpl; auto. Qed.

Lemma failures_Api (t : list ApiEvent) : failures (map Api t) = [].
Proof. induction t; simpl; auto. Qed.

Lemma outputs_Core (t : list Event) : outputs (map Core t) = [].
Proof. induction t; simpl; auto. Qed.

Lemma outputs_Api (t : list ApiEvent) : outputs (map Api t) = [].
Proof. induction t; simpl; auto. Qed.

Lemma api_events_Core (t : list Event) : api_events (map Core t) = [].
Proof. induction t; simpl; auto. Qed.

Lemma api_events_Api (t : list ApiEvent) : api_events (map Api t) = t.
Proof. induction t; simpl; congruence. Qed.

Lemma core_events_Core (t : list Event) : core_events (map Core t) = t.
Proof. induction t; simpl; congruence. Qed.

Lemma core_events_Api (t : list ApiEvent) : core_events (map Api t) = [].
Proof. induction t; simpl; auto. Qed.

Lemma caught_in_failures (err : RunError) (t : list RunEvent) :
  In (ActionFailed err) t -> In None (failures t).
Proof.
  induction t as [|ev t IH]; simpl; [tauto|].
  intros [H|H].
  - subst ev. left. reflexivity.
  - destruct ev; simpl; auto.
Qed.

Create Rewrite HintDb run_trace.

#[local] Hint Rewrite failures_app outputs_app api_events_app core_events_app
  failures_Core failures_Api outputs_Core outputs_Api
  api_events_Core api_events_Api core_events_Core core_events_Api
  api_calls_app app_nil_r : run_trace.

(** The trace of the rendering of the issues holds events of the
    renderer only. *)
Lemma map_act_render (hb : TemplateRenderer.Handlebars) (w : World)
    (o : TemplateRenderer.RenderOptions) (c : TemplateRenderer.Partial.t)
    (diffs : list DiffGenerator.FileDiff) :
  exists t : list Event,
    snd (map_act
           (fun fileDiff =>
              rendered <== of_M (TemplateRenderer.renderIssue hb w fileDiff
                                   o c) ;;
              fine {| IssueCreator.Item.rendered := rendered;
                      IssueCreator.Item.filePath :=
                        FileDetector.path (DiffGenerator.file fileDiff) |})
           diffs)
    = map Core t.
Proof.
  induction diffs as [|d diffs [t IH]]; simpl.
  - exists []. reflexivity.
  - destruct (TemplateRenderer.renderIssue hb w d o c) as [[r|e] t1];
      cbn [of_M next fine].
    + destruct (map_act _ diffs) as [[items|e] t2]; simpl in IH; subst t2;
        cbn [next fine]; exists (t1 ++ t)%list;
        rewrite ?app_nil_r, map_app; reflexivity.
    + exists t1. reflexivity.
Qed.

(** The rendering of the issues, when every issue renders. *)
Lemma map_act_render_fine (hb : TemplateRenderer.Handlebars) (w : World)
    (o : TemplateRenderer.RenderOptions) (c : TemplateRenderer.Partial.t)
    (diffs : list DiffGenerator.FileDiff) (items : list IssueCreator.Item.t) :
  Forall2 (fun fd item =>
             value (TemplateRenderer.renderIssue hb w fd o c)
             = Ok (IssueCreator.Item.rendered item)
             /\ IssueCreator.Item.filePath item
                = FileDetector.path (DiffGenerator.file fd))
          diffs items ->
  fst (map_act
         (fun fileDiff =>
            rendered <== of_M (TemplateRenderer.renderIssue hb w fileDiff
                                 o c) ;;
            fine {| IssueCreator.Item.rendered := rendered;
                    IssueCreator.Item.filePath :=
                      FileDetector.path (DiffGenerator.file fileDiff) |})
         diffs)
  = Fine items.
Proof.
  induction 1 as [|d item diffs items [Hr Hp] _ IH]; simpl; [reflexivity|].
  destruct (TemplateRenderer.renderIssue hb w d o c) as [[r|e] t1];
    simpl in Hr; [|discriminate].
  injection Hr as ->. cbn [of_M next fine].
  destruct (map_act _ diffs) as [[items'|e] t2]; simpl in IH;
    [|discriminate].
  injection IH as ->. cbn [next fine fst].
  destruct item as [r p]. simpl in *. subst p. reflexivity.
Qed.

Lemma each_act_warnings (results : list IssueCreationResult) :
  fst (each_act
         (fun f => log (RunWarning ("      - " ++ IssueCreator.filePath f
                                    ++ ": "
                                    ++ Js.interp (IssueCreator.error f))))
         results) = Fine tt
  /\ snd (each_act
            (fun f => log (RunWarning ("      - " ++ IssueCreator.filePath f
                                       ++ ": "
                                       ++ Js.interp (IssueCreator.error f))))
            results)
     = map (fun f => RunWarning ("      - " ++ IssueCreator.filePath f
                                 ++ ": "
                                 ++ Js.interp (IssueCreator.error f)))
           results.
Proof.
  induction results as [|r results [IH1 IH2]]; simpl; [split; reflexivity|].
  destruct (each_act _ results) as [s t]. simpl in *. subst s t.
  split; reflexivity.
Qed.

Lemma failures_warnings {A : Type} (f : A -> string) (l : list A) :
  failures (map (fun x => RunWarning (f x)) l) = [].
Proof. induction l; simpl; auto. Qed.

Lemma outputs_warnings {A : Type} (f : A -> string) (l : list A) :
  outputs (map (fun x => RunWarning (f x)) l) = [].
Proof. induction l; simpl; auto. Qed.

Lemma api_events_warnings {A : Type} (f : A -> string) (l : list A) :
  api_events (map (fun x => RunWarning (f x)) l) = [].
Proof. induction l; simpl; auto. Qed.

Lemma core_events_warnings {A : Type} (f : A -> string) (l : list A) :
  core_events (map (fun x => RunWarning (f x)) l) = [].
Proof. induction l; simpl; auto. Qed.

(** What the report of the results leaves in the trace. *)
Lemma report_run (inputs : ActionInputs)
    (changedFiles : list FileDetector.ChangedFile)
    (results : list IssueCreationResult) :
  fst (report inputs changedFiles results) = Fine tt
  /\ failures (snd (report inputs changedFiles results))
     = (if (List.length (successful results) =? 0)%nat
           && (0 <? List.length changedFiles)%nat
           && negb (dryRun inputs)
        then [Some "Failed to create any issues. Check the logs for details."]
        else [])
  /\ outputs (snd (report inputs changedFiles results))
     = [("issues-created",
         json_numbers (map issue_number (successful results)));
        ("issues-count",
         Js.dec (Z.of_nat (List.length (successful results))))]
  /\ api_events (snd (report inputs changedFiles results)) = []
  /\ core_events (snd (report inputs changedFiles results)) = [].
Proof.
  unfold report. cbv zeta. unfold log.
  destruct (each_act_warnings (failed results)) as [E1 E2].
  destruct (each_act _ (failed results)) as [s t]. simpl in E1, E2.
  subst s t.
  destruct (0 <? List.length (failed results))%nat;
    destruct ((List.length (successful results) =? 0)%nat
              && (0 <? List.length changedFiles)%nat
              && negb (dryRun inputs));
    cbn [next fine fst snd app];
    autorewrite with run_trace; simpl;
    rewrite ?failures_app, ?outputs_app, ?api_events_app, ?core_events_app,
      ?failures_warnings, ?outputs_warnings, ?api_events_warnings,
      ?core_events_warnings;
    simpl; repeat split; reflexivity.
Qed.

Lemma resolveMilestone_quiet (gh : GitHub) (token milestoneInput : string) :
  (exists r, outcome (resolveMilestone gh token milestoneInput) = Done r)
  /\ api_calls (events (resolveMilestone gh token milestoneInput)) = [].
Proof.
  unfold resolveMilestone.
  destruct (String.eqb milestoneInput ""); [split; [eexists|]; reflexivity|].
  destruct (parseInt10 milestoneInput); [split; [eexists|]; reflexivity|].
  unfold catching, and_then, record, done.
  destruct (getOctokit gh token) as [octokit|e];
    [|split; [eexists|]; reflexivity].
  destruct (context_repo gh) as [[owner repo]|e];
    [|split; [eexists|]; reflexivity].
  simpl fst. simpl snd.
  destruct (issues_listMilestones octokit owner repo) as [ms|e];
    [|split; [eexists|]; reflexivity].
  destruct (find _ ms); split; try eexists; reflexivity.
Qed.

Lemma createIssues_raise_quiet (gh : GitHub) (token : string)
    (issues : list Item.t) (options : IssueOptions) (dry : bool)
    (e : JsError) :
  outcome (createIssues gh token issues options dry) = Raise e ->
  events (createIssues gh token issues options dry) = [].
Proof.
  unfold createIssues. destruct dry; [discriminate|].
  unfold and_then.
  destruct (getOctokit gh token) as [octokit|e1]; [|reflexivity].
  destruct (context_repo gh) as [[owner repo]|e2]; [|reflexivity].
  simpl fst. simpl snd.
  destruct (create_loop_run octokit owner repo options issues []) as [Ho _].
  destruct (create_loop octokit owner repo options issues []) as [r t].
  simpl in Ho. subst r. discriminate.
Qed.

Lemma createIssues_dry (gh : GitHub) (token : string)
    (issues : list Item.t) (options : IssueOptions) :
  createIssues gh token issues options true
  = (Done (map dry_result issues), []).
Proof.
  unfold createIssues, done. rewrite (fold_push_map dry_result).
  reflexivity.
Qed.

Lemma successful_dry (issues : list Item.t) :
  successful (map dry_result issues) = map dry_result issues.
Proof.
  unfold successful. induction issues as [|i issues IH]; simpl; congruence.
Qed.

Ltac calm :=
  repeat (progress (autorewrite with run_trace; simpl)).

(** The shape of every run: an error that escapes finds no request to
    create an issue sent, no failure reported and neither of the outputs
    on issues set; the [try] reports at most the failure that no issue
    could be created, and only outside a dry run; a dry run sends no
    request to create an issue. *)
Lemma run_try_shape (glob : FileDetector.Glob)
    (hb : TemplateRenderer.Handlebars) (gh : GitHub) (ctx : Index.Context)
    (w : World) (parseInputs : Outcome ActionInputs) :
  match fst (run_try glob hb gh ctx w parseInputs) with
  | Failed _ =>
      api_calls (api_events (snd (run_try glob hb gh ctx w parseInputs))) = []
      /\ failures (snd (run_try glob hb gh ctx w parseInputs)) = []
      /\ ~ In "issues-created"
              (map fst (outputs (snd (run_try glob hb gh ctx w parseInputs))))
      /\ ~ In "issues-count"
              (map fst (outputs (snd (run_try glob hb gh ctx w parseInputs))))
  | Fine _ =>
      failures (snd (run_try glob hb gh ctx w parseInputs)) = []
      \/ (failures (snd (run_try glob hb gh ctx w parseInputs))
          = [Some "Failed to create any issues. Check the logs for details."]
          /\ exists inputs, parseInputs = Ok inputs
                            /\ dryRun inputs = false)
  end
  /\ (forall inputs, parseInputs = Ok inputs -> dryRun inputs = true ->
      api_calls (api_events (snd (run_try glob hb gh ctx w parseInputs)))
      = []).
Proof.
  unfold run_try. cbv zeta.
  destruct (negb (Js.opt_is (eventName ctx) "push")
            && negb (Js.opt_is (eventName ctx) "pull_request")).
  { simpl. split; [left; reflexivity|intros; reflexivity]. }
  destruct parseInputs as [inputs|e0]; cbn [of_M next map app];
    [|simpl; split; [repeat split; auto|intros; discriminate]].
  destruct (FileDetector.detectChangedFiles glob w
              (fileDetectorOptions inputs)) as [[files|e1] t1];
    cbn [of_M next];
    [|calm;
      split; [repeat split; auto|intros; reflexivity]].
  destruct (List.length files =? 0)%nat.
  { calm.
    split; [left; reflexivity|intros; reflexivity]. }
  unfold log at 1 2. cbn [next].
  destruct (DiffGenerator.generateDiffs w files (diffOptions inputs))
    as [[diffs|e2] t2]; cbn [of_M next];
    [|calm;
      split; [repeat split; simpl; intuition (try discriminate)
             |intros; reflexivity]].
  destruct (buildContextFromEnvironment ctx w) as [[tctx|e3] t3];
    cbn [of_M next];
    [|calm;
      split; [repeat split; simpl; intuition (try discriminate)
             |intros; reflexivity]].
  destruct (map_act_render hb w (renderOptions inputs) tctx diffs)
    as [t4 E4].
  destruct (map_act _ diffs) as [[items|e4] t4']; simpl in E4; subst t4';
    cbn [next];
    [|calm;
      split; [repeat split; simpl; intuition (try discriminate)
             |intros; reflexivity]].
  assert (Hms : exists ms tm,
             (if Js.truthy (Some (milestone inputs))
              then of_Run (resolveMilestone gh (githubToken inputs)
                             (milestone inputs))
              else fine None) = (Fine ms, map Api tm)
             /\ api_calls tm = []).
  { destruct (Js.truthy (Some (milestone inputs))).
    - destruct (resolveMilestone_quiet gh (githubToken inputs)
                  (milestone inputs)) as [[r Hr] Hq].
      destruct (resolveMilestone gh (githubToken inputs) (milestone inputs))
        as [r' tm]. simpl in Hr, Hq. subst r'.
      exists r, tm. split; [reflexivity|exact Hq].
    - exists None, []. split; reflexivity. }
  destruct Hms as [ms [tm [Hms Hq]]]. rewrite Hms. cbn [next].
  pose proof (createIssues_raise_quiet gh (githubToken inputs) items
                (issueOptions inputs ms) (dryRun inputs)) as Hraise.
  pose proof (createIssues_dry gh (githubToken inputs) items
                (issueOptions inputs ms)) as Hdry.
  destruct (createIssues gh (githubToken inputs) items
              (issueOptions inputs ms) (dryRun inputs))
    as [[results|e5] t5] eqn:E5; cbn [of_Run next].
  - destruct (report_run inputs files results)
      as [R1 [R2 [R3 [R4 R5]]]].
    destruct (report inputs files results) as [r6 t6]. simpl in R1, R2, R3, R4.
    subst r6. cbn [fst snd].
    calm. rewrite ?R2, ?R3, ?R4, ?Hq. calm.
    split.
    + destruct ((List.length (successful results) =? 0)%nat
                && (0 <? List.length files)%nat
                && negb (dryRun inputs)) eqn:C; [|left; reflexivity].
      right. split; [reflexivity|]. exists inputs. split; [reflexivity|].
      destruct (dryRun inputs); [|reflexivity].
      rewrite andb_false_r in C. discriminate.
    + intros inputs' Hi Hd. injection Hi as <-. rewrite Hd in E5.
      rewrite Hdry in E5. injection E5 as _ <-. reflexivity.
  - specialize (Hraise e5 eq_refl). simpl in Hraise. subst t5.
    cbn [fst snd]. calm. rewrite ?Hq. calm.
    split; [repeat split; simpl; intuition (try discriminate)
           |intros; reflexivity].
Qed.

Lemma milestone_step (gh : GitHub) (token milestoneInput : string) :
  (if Js.truthy (Some milestoneInput)
   then of_Run (resolveMilestone gh token milestoneInput)
   else fine None)
  = of_Run (resolveMilestone gh token milestoneInput).
Proof.
  unfold Js.truthy, resolveMilestone.
  destruct (String.eqb milestoneInput ""); reflexivity.
Qed.

Lemma supported_event (ctx : Context) :
  Js.opt_is (eventName ctx) "push"
  || Js.opt_is (eventName ctx) "pull_request" = true ->
  negb (Js.opt_is (eventName ctx) "push")
  && negb (Js.opt_is (eventName ctx) "pull_request") = false.
Proof.
  destruct (Js.opt_is (eventName ctx) "push");
    destruct (Js.opt_is (eventName ctx) "pull_request");
    simpl; congruence.
Qed.

(** A run all of whose stages answer: its failures and its outputs. *)
Lemma run_completed (glob : FileDetector.Glob)
    (hb : TemplateRenderer.Handlebars) (gh : GitHub) (ctx : Context)
    (w : World) (inputs : ActionInputs)
    (files : list FileDetector.ChangedFile)
    (diffs : list DiffGenerator.FileDiff)
    (tctx : TemplateRenderer.Partial.t) (items : list Item.t)
    (ms : option Z) (results : list IssueCreationResult) :
  Js.opt_is (eventName ctx) "push"
  || Js.opt_is (eventName ctx) "pull_request" = true ->
  value (FileDetector.detectChangedFiles glob w (fileDetectorOptions inputs))
  = Ok files ->
  files <> [] ->
  value (DiffGenerator.generateDiffs w files (diffOptions inputs))
  = Ok diffs ->
  value (buildContextFromEnvironment ctx w) = Ok tctx ->
  Forall2 (fun fd item =>
             value (TemplateRenderer.renderIssue hb w fd
                      (renderOptions inputs) tctx)
             = Ok (Item.rendered item)
             /\ Item.filePath item
                = FileDetector.path (DiffGenerator.file fd))
          diffs items ->
  outcome (resolveMilestone gh (githubToken inputs) (milestone inputs))
  = Done ms ->
  outcome (createIssues gh (githubToken inputs) items
             (issueOptions inputs ms) (dryRun inputs))
  = Done results ->
  failures (run glob hb gh ctx w (Ok inputs))
  = (if negb (dryRun inputs)
        && (List.length (successful results) =? 0)%nat
     then [Some "Failed to create any issues. Check the logs for details."]
     else [])
  /\ outputs (run glob hb gh ctx w (Ok inputs))
     = [("files-detected",
         json_strings (map FileDetector.path files));
        ("files-count", Js.dec (Z.of_nat (List.length files)));
        ("issues-created",
         json_numbers (map issue_number (successful results)));
        ("issues-count",
         Js.dec (Z.of_nat (List.length (successful results))))]
  /\ api_events (run glob hb gh ctx w (Ok inputs))
     = (events (resolveMilestone gh (githubToken inputs) (milestone inputs))
        ++ events (createIssues gh (githubToken inputs) items
                     (issueOptions inputs ms) (dryRun inputs)))%list.
Proof.
  intros Hev Hdet Hne Hdiff Hctx Hrend Hms Hcreate.
  unfold run, run_try. cbv zeta. rewrite (supported_event ctx Hev).
  cbn [of_M next map app].
  destruct (FileDetector.detectChangedFiles glob w
              (fileDetectorOptions inputs)) as [v1 t1].
  simpl in Hdet. subst v1. cbn [of_M next].
  assert (Hlen : (List.length files =? 0)%nat = false)
    by (destruct files; [congruence|reflexivity]).
  assert (Hpos : (0 <? List.length files)%nat = true)
    by (destruct files; [congruence|reflexivity]).
  rewrite Hlen. unfold log at 1 2. cbn [next].
  destruct (DiffGenerator.generateDiffs w files (diffOptions inputs))
    as [v2 t2]. simpl in Hdiff. subst v2. cbn [of_M next].
  destruct (buildContextFromEnvironment ctx w) as [v3 t3].
  simpl in Hctx. subst v3. cbn [of_M next].
  pose proof (map_act_render_fine hb w (renderOptions inputs) tctx diffs
                items Hrend) as Hfine.
  destruct (map_act_render hb w (renderOptions inputs) tctx diffs)
    as [t4 E4].
  destruct (map_act _ diffs) as [v4 t4']. simpl in Hfine, E4.
  subst v4 t4'. cbn [next].
  rewrite milestone_step.
  destruct (resolveMilestone gh (githubToken inputs) (milestone inputs))
    as [v5 t5]. simpl in Hms. subst v5. cbn [of_Run next events snd].
  destruct (createIssues gh (githubToken inputs) items
              (issueOptions inputs ms) (dryRun inputs)) as [v6 t6].
  simpl in Hcreate. subst v6. cbn [of_Run next events snd].
  destruct (report_run inputs files results) as [R1 [R2 [R3 [R4 R5]]]].
  destruct (report inputs files results) as [r7 t7].
  simpl in R1, R2, R3, R4. subst r7.
  calm. rewrite ?R2, ?R3, ?R4. calm.
  rewrite Hpos, andb_true_r, andb_comm.
  repeat split; reflexivity.
Qed.

(** On an event other than [push] and [pull_request] the run warns,
    sets its four outputs to their empty values and does nothing else: it
    does not read its inputs, so that an input that cannot be read does
    not fail it, it starts no process, sends no request and reports no
    failure. *)
Theorem run_unsupported_event (glob : FileDetector.Glob)
    (hb : TemplateRenderer.Handlebars) (gh : GitHub) (ctx : Context)
    (w : World) (parseInputs : Outcome ActionInputs) :
  Js.opt_is (eventName ctx) "push" = false ->
  Js.opt_is (eventName ctx) "pull_request" = false ->
  run glob hb gh ctx w parseInputs
  = [RunWarning ("This action is designed for 'push' and 'pull_request' events. Current event: '"
                 ++ Js.interp (eventName ctx) ++ "'. Exiting gracefully.");
     SetOutput "issues-created" "[]"; SetOutput "issues-count" "0";
     SetOutput "files-detected" "[]"; SetOutput "files-count" "0"].
Proof.
  intros Hpush Hpr. unfold run, run_try. cbv zeta.
  rewrite Hpush, Hpr. reflexivity.
Qed.

(** [run_unsupported_event] on a run started by hand whose inputs cannot be read. *)
Lemma run_unsupported_event_witness :
  run glob_prefix HandlebarsFragment.render github_test context_dispatch
      world_no_git (Throw "TypeError: Input does not meet YAML 1.2 Core Schema specification: dry-run")
  = [RunWarning "This action is designed for 'push' and 'pull_request' events. Current event: 'workflow_dispatch'. Exiting gracefully.";
     SetOutput "issues-created" "[]"; SetOutput "issues-count" "0";
     SetOutput "files-detected" "[]"; SetOutput "files-count" "0"].
Proof.
  apply (run_unsupported_event glob_prefix HandlebarsFragment.render
           github_test context_dispatch world_no_git).
  - reflexivity.
  - reflexivity.
Defined.

(** X26. When the detection returns no file, the run stops there: the
    events of the stages are those of the detection alone, so that no diff
    is generated and the history is not read; no request is sent, no
    failure is reported and the four outputs are set to their empty
    values. *)
Theorem run_nothing_changed (glob : FileDetector.Glob)
    (hb : TemplateRenderer.Handlebars) (gh : GitHub) (ctx : Context)
    (w : World) (inputs : ActionInputs) :
  Js.opt_is (eventName ctx) "push"
  || Js.opt_is (eventName ctx) "pull_request" = true ->
  value (FileDetector.detectChangedFiles glob w (fileDetectorOptions inputs))
  = Ok [] ->
  core_events (run glob hb gh ctx w (Ok inputs))
  = trace (FileDetector.detectChangedFiles glob w
             (fileDetectorOptions inputs))
  /\ api_events (run glob hb gh ctx w (Ok inputs)) = []
  /\ failures (run glob hb gh ctx w (Ok inputs)) = []
  /\ outputs (run glob hb gh ctx w (Ok inputs))
     = [("issues-created", "[]"); ("issues-count", "0");
        ("files-detected", "[]"); ("files-count", "0")].
Proof.
  intros Hev Hdet. unfold run, run_try. cbv zeta.
  rewrite (supported_event ctx Hev). cbn [of_M next map app].
  destruct (FileDetector.detectChangedFiles glob w
              (fileDetectorOptions inputs)) as [v1 t1].
  simpl in Hdet. subst v1. cbn [of_M next]. simpl. calm.
  repeat split; reflexivity.
Qed.

(** X26 on a push none of whose files matches. *)
Lemma run_nothing_changed_witness :
  core_events (run glob_none HandlebarsFragment.render github_test
                 context_push world_one_change
                 (Ok (sample_inputs "token" false)))
  = trace (FileDetector.detectChangedFiles glob_none world_one_change
             (fileDetectorOptions (sample_inputs "token" false)))
  /\ api_events (run glob_none HandlebarsFragment.render github_test
                   context_push world_one_change
                   (Ok (sample_inputs "token" false))) = []
  /\ failures (run glob_none HandlebarsFragment.render github_test
                 context_push world_one_change
                 (Ok (sample_inputs "token" false))) = []
  /\ outputs (run glob_none HandlebarsFragment.render github_test
                context_push world_one_change
                (Ok (sample_inputs "token" false)))
     = [("issues-created", "[]"); ("issues-count", "0");
        ("files-detected", "[]"); ("files-count", "0")].
Proof.
  apply (run_nothing_changed glob_none HandlebarsFragment.render github_test
           context_push world_one_change (sample_inputs "token" false)).
  - reflexivity.
  - reflexivity.
Defined.

(** X27. A run that ends in its [catch] has created nothing: when an
    error escapes, whatever the stage that threw it, no request to create
    an issue was sent, the failure of the [catch] is the only failure
    reported, and the outputs [issues-created] and [issues-count] were not
    set. *)
Theorem run_error_creates_nothing (glob : FileDetector.Glob)
    (hb : TemplateRenderer.Handlebars) (gh : GitHub) (ctx : Context)
    (w : World) (parseInputs : Outcome ActionInputs) (err : RunError) :
  In (ActionFailed err) (run glob hb gh ctx w parseInputs) ->
  api_calls (api_events (run glob hb gh ctx w parseInputs)) = []
  /\ failures (run glob hb gh ctx w parseInputs) = [None]
  /\ ~ In "issues-created"
          (map fst (outputs (run glob hb gh ctx w parseInputs)))
  /\ ~ In "issues-count"
          (map fst (outputs (run glob hb gh ctx w parseInputs))).
Proof.
  intros Hin. apply caught_in_failures in Hin. revert Hin.
  destruct (run_try_shape glob hb gh ctx w parseInputs) as [Hshape _].
  unfold run.
  destruct (run_try glob hb gh ctx w parseInputs) as [[u|e] t];
    cbn [fst snd] in Hshape.
  - intros Hin. exfalso.
    destruct Hshape as [Hf|[Hf _]]; rewrite Hf in Hin; simpl in Hin;
      intuition discriminate.
  - intros _. destruct Hshape as [Ha [Hf [Ho1 Ho2]]].
    calm. rewrite Ha, Hf. auto.
Qed.

(** X27 on a run without a token: the client cannot be obtained. *)
Lemma run_error_creates_nothing_witness :
  api_calls (api_events (run glob_prefix HandlebarsFragment.render
                           github_test context_push world_one_change
                           (Ok (sample_inputs "" false)))) = []
  /\ failures (run glob_prefix HandlebarsFragment.render github_test
                 context_push world_one_change
                 (Ok (sample_inputs "" false))) = [None]
  /\ ~ In "issues-created"
          (map fst (outputs (run glob_prefix HandlebarsFragment.render
                               github_test context_push world_one_change
                               (Ok (sample_inputs "" false)))))
  /\ ~ In "issues-count"
          (map fst (outputs (run glob_prefix HandlebarsFragment.render
                               github_test context_push world_one_change
                               (Ok (sample_inputs "" false))))).
Proof.
  apply (run_error_creates_nothing glob_prefix HandlebarsFragment.render
           github_test context_push world_one_change
           (Ok (sample_inputs "" false))
           (ApiError {| name := "Error";
                        message := "Parameter token or opts.auth is required" |})).
  vm_compute. do 12 right. left. reflexivity.
Defined.

(** X28. A run all of whose stages answer reports a failure exactly
    when it is not a dry run and no issue was created, and then reports
    the failure that no issue could be created; one created issue is
    enough for the run to pass, whatever the number of requests refused.
    Its outputs are, in this order, the paths and the number of the files
    detected, then the numbers and the number of the issues created. *)
Theorem run_fatal_rule (glob : FileDetector.Glob)
    (hb : TemplateRenderer.Handlebars) (gh : GitHub) (ctx : Context)
    (w : World) (inputs : ActionInputs)
    (files : list FileDetector.ChangedFile)
    (diffs : list DiffGenerator.FileDiff)
    (tctx : TemplateRenderer.Partial.t) (items : list Item.t)
    (ms : option Z) (results : list IssueCreationResult) :
  Js.opt_is (eventName ctx) "push"
  || Js.opt_is (eventName ctx) "pull_request" = true ->
  value (FileDetector.detectChangedFiles glob w (fileDetectorOptions inputs))
  = Ok files ->
  files <> [] ->
  value (DiffGenerator.generateDiffs w files (diffOptions inputs))
  = Ok diffs ->
  value (buildContextFromEnvironment ctx w) = Ok tctx ->
  Forall2 (fun fd item =>
             value (TemplateRenderer.renderIssue hb w fd
                      (renderOptions inputs) tctx)
             = Ok (Item.rendered item)
             /\ Item.filePath item
                = FileDetector.path (DiffGenerator.file fd))
          diffs items ->
  outcome (resolveMilestone gh (githubToken inputs) (milestone inputs))
  = Done ms ->
  outcome (createIssues gh (githubToken inputs) items
             (issueOptions inputs ms) (dryRun inputs))
  = Done results ->
  (dryRun inputs = false /\ successful results = [] ->
   failures (run glob hb gh ctx w (Ok inputs))
   = [Some "Failed to create any issues. Check the logs for details."])
  /\ (dryRun inputs = true \/ successful results <> [] ->
      failures (run glob hb gh ctx w (Ok inputs)) = [])
  /\ outputs (run glob hb gh ctx w (Ok inputs))
     = [("files-detected",
         json_strings (map FileDetector.path files));
        ("files-count", Js.dec (Z.of_nat (List.length files)));
        ("issues-created",
         json_numbers (map issue_number (successful results)));
        ("issues-count",
         Js.dec (Z.of_nat (List.length (successful results))))].
Proof.
  intros Hev Hdet Hne Hdiff Hctx Hrend Hms Hcreate.
  destruct (run_completed glob hb gh ctx w inputs files diffs tctx items ms
              results Hev Hdet Hne Hdiff Hctx Hrend Hms Hcreate)
    as [Hf [Ho _]].
  split; [|split; [|exact Ho]].
  - intros [Hd Hs]. rewrite Hf, Hd, Hs. reflexivity.
  - intros [Hd|Hs]; rewrite Hf.
    + rewrite Hd. reflexivity.
    + destruct (successful results); [congruence|].
      rewrite andb_false_r. reflexivity.
Qed.

(** X28 on a push of one file whose request is refused. *)
Lemma run_fatal_rule_witness :
  failures (run glob_prefix HandlebarsFragment.render github_refusing
              context_push world_one_change
              (Ok (sample_inputs "token" false)))
  = [Some "Failed to create any issues. Check the logs for details."]
  /\ outputs (run glob_prefix HandlebarsFragment.render github_refusing
                context_push world_one_change
                (Ok (sample_inputs "token" false)))
     = [("files-detected",
         "[" ++ Js.dquote ++ "docs/x-specification.md" ++ Js.dquote ++ "]");
        ("files-count", "1");
        ("issues-created", "[]");
        ("issues-count", "0")].
Proof.
  epose proof (run_fatal_rule glob_prefix HandlebarsFragment.render
                 github_refusing context_push world_one_change
                 (sample_inputs "token" false) _ _ _ [item_one_change] _ _)
    as H.
  edestruct H as [H1 [_ H3]].
  - reflexivity.
  - reflexivity.
  - discriminate.
  - reflexivity.
  - reflexivity.
  - constructor; [split; reflexivity|constructor].
  - reflexivity.
  - reflexivity.
  - split; [apply H1; split; reflexivity|exact H3].
Defined.

(** X29. A dry run creates nothing and cannot fail for that: whatever
    the stages answer, a run whose input [dry-run] is set sends no request
    to create an issue and never reports the failure that no issue could
    be created; the only failure it can report is that of an error that
    escaped. *)
Theorem run_dry_run (glob : FileDetector.Glob)
    (hb : TemplateRenderer.Handlebars) (gh : GitHub) (ctx : Context)
    (w : World) (inputs : ActionInputs) :
  dryRun inputs = true ->
  api_calls (api_events (run glob hb gh ctx w (Ok inputs))) = []
  /\ (failures (run glob hb gh ctx w (Ok inputs)) = []
      \/ failures (run glob hb gh ctx w (Ok inputs)) = [None]).
Proof.
  intros Hdry.
  destruct (run_try_shape glob hb gh ctx w (Ok inputs)) as [Hshape Hquiet].
  specialize (Hquiet inputs eq_refl Hdry). unfold run.
  destruct (run_try glob hb gh ctx w (Ok inputs)) as [[u|e] t];
    cbn [fst snd] in Hshape, Hquiet.
  - split; [exact Hquiet|].
    destruct Hshape as [Hf|[_ [inputs' [Hi Hd]]]]; [left; exact Hf|].
    injection Hi as <-. congruence.
  - destruct Hshape as [_ [Hf _]]. calm. rewrite Hquiet, Hf.
    split; [reflexivity|right; reflexivity].
Qed.

(** X29 on a dry run of a push of one file. *)
Lemma run_dry_run_witness :
  api_calls (api_events (run glob_prefix HandlebarsFragment.render
                           github_test context_push world_one_change
                           (Ok (sample_inputs "token" true)))) = []
  /\ (failures (run glob_prefix HandlebarsFragment.render github_test
                  context_push world_one_change
                  (Ok (sample_inputs "token" true))) = []
      \/ failures (run glob_prefix HandlebarsFragment.render github_test
                     context_push world_one_change
                     (Ok (sample_inputs "token" true))) = [None]).
Proof.
  apply (run_dry_run glob_prefix HandlebarsFragment.render github_test
           context_push world_one_change (sample_inputs "token" true)).
  reflexivity.
Defined.

Lemma issue_numbers_dry (items : list Item.t) :
  map issue_number (map dry_result items) = map (fun _ => 0%Z) items.
Proof.
  induction items as [|i items IH]; [reflexivity|].
  cbn [map]. rewrite IH. reflexivity.
Qed.

(** X30. The outputs of a dry run that renders every issue: it reports
    as many issues as it detected files, each under the number 0, and no
    failure, whatever GitHub answers. *)
Theorem run_dry_run_outputs (glob : FileDetector.Glob)
    (hb : TemplateRenderer.Handlebars) (gh : GitHub) (ctx : Context)
    (w : World) (inputs : ActionInputs)
    (files : list FileDetector.ChangedFile)
    (diffs : list DiffGenerator.FileDiff)
    (tctx : TemplateRenderer.Partial.t) (items : list Item.t) :
  dryRun inputs = true ->
  Js.opt_is (eventName ctx) "push"
  || Js.opt_is (eventName ctx) "pull_request" = true ->
  value (FileDetector.detectChangedFiles glob w (fileDetectorOptions inputs))
  = Ok files ->
  files <> [] ->
  value (DiffGenerator.generateDiffs w files (diffOptions inputs))
  = Ok diffs ->
  value (buildContextFromEnvironment ctx w) = Ok tctx ->
  Forall2 (fun fd item =>
             value (TemplateRenderer.renderIssue hb w fd
                      (renderOptions inputs) tctx)
             = Ok (Item.rendered item)
             /\ Item.filePath item
                = FileDetector.path (DiffGenerator.file fd))
          diffs items ->
  failures (run glob hb gh ctx w (Ok inputs)) = []
  /\ outputs (run glob hb gh ctx w (Ok inputs))
     = [("files-detected",
         json_strings (map FileDetector.path files));
        ("files-count", Js.dec (Z.of_nat (List.length files)));
        ("issues-created", json_numbers (map (fun _ => 0%Z) files));
        ("issues-count", Js.dec (Z.of_nat (List.length files)))].
Proof.
  intros Hdry Hev Hdet Hne Hdiff Hctx Hrend.
  destruct (resolveMilestone_quiet gh (githubToken inputs)
              (milestone inputs)) as [[ms Hms] _].
  assert (Hcreate :
            outcome (createIssues gh (githubToken inputs) items
                       (issueOptions inputs ms) (dryRun inputs))
            = Done (map dry_result items))
    by (rewrite Hdry, createIssues_dry; reflexivity).
  destruct (run_completed glob hb gh ctx w inputs files diffs tctx items ms
              (map dry_result items) Hev Hdet Hne Hdiff Hctx Hrend Hms
              Hcreate) as [Hf [Ho _]].
  rewrite Hf, Ho, Hdry, successful_dry, issue_numbers_dry, length_map.
  destruct (generateDiffs_value w (diffOptions inputs) files)
    as [ds [Hds Hall]].
  rewrite Hdiff in Hds. injection Hds as <-.
  assert (Hlen : List.length items = List.length files).
  { rewrite (Forall2_length Hall). symmetry. exact (Forall2_length Hrend). }
  assert (Hzero : map (fun _ : Item.t => 0%Z) items
                  = map (fun _ : FileDetector.ChangedFile => 0%Z) files).
  { clear - Hlen. revert files Hlen.
    induction items as [|i items IH]; intros [|f files] Hlen;
      simpl in *; try discriminate; [reflexivity|].
    f_equal. apply IH. congruence. }
  rewrite Hzero, Hlen. split; reflexivity.
Qed.

(** X30 on a dry run of a push of one file. *)
Lemma run_dry_run_outputs_witness :
  failures (run glob_prefix HandlebarsFragment.render github_test
              context_push world_one_change
              (Ok (sample_inputs "token" true))) = []
  /\ outputs (run glob_prefix HandlebarsFragment.render github_test
                context_push world_one_change
                (Ok (sample_inputs "token" true)))
     = [("files-detected",
         "[" ++ Js.dquote ++ "docs/x-specification.md" ++ Js.dquote ++ "]");
        ("files-count", "1");
        ("issues-created", "[0]");
        ("issues-count", "1")].
Proof.
  epose proof (run_dry_run_outputs glob_prefix HandlebarsFragment.render
                 github_test context_push world_one_change
                 (sample_inputs "token" true) _ _ _ [item_one_change])
    as H.
  edestruct H as [H1 H2].
  - reflexivity.
  - reflexivity.
  - reflexivity.
  - discriminate.
  - reflexivity.
  - reflexivity.
  - constructor; [split; reflexivity|constructor].
  - split; [exact H1|exact H2].
Defined.
